(** * Office365-REST-Python-Client: deferred queries of the mail and
      group-site resources

    A shallow embedding of
    - [office365/outlook/mail/messages/message.py]     (class [Message]),
    - [office365/outlook/mail/messages/collection.py]  (class [MessageCollection]),
    - [office365/sharepoint/portal/GroupSiteManager.py] (class [GroupSiteManager]),
    over an explicit store of Python objects and the client context's
    pending-request state.

    Python values are an inductive type [pyval]; objects with identity live in
    a heap indexed by references; methods are programs of a state-and-exception
    monad whose state survives a raised exception, as in Python. *)

From Stdlib Require Import NArith ZArith List Ascii Lia.
From stdpp Require Import base gmap strings list fin_maps.

Local Open Scope N_scope.

(** ** Python strings and byte strings

    A Python [str] is a sequence of code points, a [bytes] value a sequence of
    octets; both are lists of [N].  Literals of the source are written with
    [lit]. *)

Definition pystr := list N.
Definition pybytes := list N.

Fixpoint lit (s : string) : pystr :=
  match s with
  | EmptyString => []
  | String a r => N_of_ascii a :: lit r
  end.
Arguments lit : simpl never.

Module Codec.

(** *** [str.encode("utf-8")] and [bytes.decode("utf-8")]

    The strict codec of CPython: surrogates (U+D800..U+DFFF) are refused in both
    directions, as are overlong forms and values above U+10FFFF. *)

Definition is_surrogate (c : N) : bool := (0xD800 <=? c) && (c <? 0xE000).

Definition utf8_encode_char (c : N) : option pybytes :=
  if c <? 0x80 then Some [c]
  else if c <? 0x800 then Some [0xC0 + c / 64; 0x80 + c mod 64]
  else if c <? 0x10000 then
    if is_surrogate c then None
    else Some [0xE0 + c / 4096; 0x80 + (c / 64) mod 64; 0x80 + c mod 64]
  else if c <? 0x110000 then
    Some [0xF0 + c / 262144; 0x80 + (c / 4096) mod 64;
          0x80 + (c / 64) mod 64; 0x80 + c mod 64]
  else None.

Fixpoint utf8_encode (s : pystr) : option pybytes :=
  match s with
  | [] => Some []
  | c :: r =>
      match utf8_encode_char c, utf8_encode r with
      | Some bs, Some rs => Some (bs ++ rs)
      | _, _ => None
      end
  end.

Definition is_cont (b : N) : bool := (0x80 <=? b) && (b <? 0xC0).

Definition utf8_decode_char (bs : pybytes) : option (N * pybytes) :=
  match bs with
  | [] => None
  | b0 :: r0 =>
      if b0 <? 0x80 then Some (b0, r0)
      else if b0 <? 0xC2 then None
      else if b0 <? 0xE0 then
        match r0 with
        | b1 :: r1 =>
            if is_cont b1 then Some ((b0 - 0xC0) * 64 + (b1 - 0x80), r1) else None
        | _ => None
        end
      else if b0 <? 0xF0 then
        match r0 with
        | b1 :: b2 :: r2 =>
            if is_cont b1 && is_cont b2 then
              let c := (b0 - 0xE0) * 4096 + (b1 - 0x80) * 64 + (b2 - 0x80) in
              if (c <? 0x800) || is_surrogate c then None else Some (c, r2)
            else None
        | _ => None
        end
      else if b0 <? 0xF5 then
        match r0 with
        | b1 :: b2 :: b3 :: r3 =>
            if is_cont b1 && is_cont b2 && is_cont b3 then
              let c := (b0 - 0xF0) * 262144 + (b1 - 0x80) * 4096
                       + (b2 - 0x80) * 64 + (b3 - 0x80) in
              if (c <? 0x10000) || (0x110000 <=? c) then None else Some (c, r3)
            else None
        | _ => None
        end
      else None
  end.

Fixpoint utf8_decode_fuel (fuel : nat) (bs : pybytes) : option pystr :=
  match bs with
  | [] => Some []
  | _ :: _ =>
      match fuel with
      | O => None
      | S f =>
          match utf8_decode_char bs with
          | Some (c, rest) =>
              match utf8_decode_fuel f rest with
              | Some s => Some (c :: s)
              | None => None
              end
          | None => None
          end
      end
  end.

(** Every decoded character consumes at least one octet, so the length of the
    input is enough fuel. *)
Definition utf8_decode (bs : pybytes) : option pystr :=
  utf8_decode_fuel (length bs) bs.

(** *** [base64.b64encode] and [base64.b64decode] (RFC 4648, standard alphabet) *)

Definition b64_char (i : N) : N :=
  if i <? 26 then 65 + i
  else if i <? 52 then 97 + (i - 26)
  else if i <? 62 then 48 + (i - 52)
  else if i =? 62 then 43
  else 47.

Definition b64_index (c : N) : option N :=
  if (65 <=? c) && (c <=? 90) then Some (c - 65)
  else if (97 <=? c) && (c <=? 122) then Some (c - 97 + 26)
  else if (48 <=? c) && (c <=? 57) then Some (c - 48 + 52)
  else if c =? 43 then Some 62
  else if c =? 47 then Some 63
  else None.

Definition b64_pad : N := 61.

Fixpoint b64encode (bs : pybytes) : pybytes :=
  match bs with
  | [] => []
  | [a] => [b64_char (a / 4); b64_char ((a mod 4) * 16); b64_pad; b64_pad]
  | [a; b] =>
      [b64_char (a / 4); b64_char ((a mod 4) * 16 + b / 16);
       b64_char ((b mod 16) * 4); b64_pad]
  | a :: b :: c :: rest =>
      b64_char (a / 4) :: b64_char ((a mod 4) * 16 + b / 16)
      :: b64_char ((b mod 16) * 4 + c / 64) :: b64_char (c mod 64)
      :: b64encode rest
  end.

(** Decoding of a padded base64 text; [None] stands for [binascii.Error]. *)
Fixpoint b64decode (cs : pybytes) : option pybytes :=
  match cs with
  | [] => Some []
  | c0 :: c1 :: c2 :: c3 :: rest =>
      match b64_index c0, b64_index c1 with
      | Some i0, Some i1 =>
          let o0 := i0 * 4 + i1 / 16 in
          if c3 =? b64_pad then
            match rest with
            | [] =>
                if c2 =? b64_pad then Some [o0]
                else match b64_index c2 with
                     | Some i2 => Some [o0; (i1 mod 16) * 16 + i2 / 4]
                     | None => None
                     end
            | _ :: _ => None
            end
          else
            match b64_index c2, b64_index c3, b64decode rest with
            | Some i2, Some i3, Some os =>
                Some (o0 :: (i1 mod 16) * 16 + i2 / 4 :: (i2 mod 4) * 64 + i3 :: os)
            | _, _, _ => None
            end
      | _, _ => None
      end
  | _ => None
  end.

(** [base64.b64decode] applied to a [str]: the text must be ASCII. *)
Definition b64decode_str (s : pystr) : option pybytes :=
  if forallb (fun c => c <? 128) s then b64decode s else None.

(** *** [os.path.basename]

    [os.path] is [posixpath] or, on Windows, [ntpath].  [basename] is
    [posixpath.basename]: the part after the last ['/'] ([i = p.rfind(sep) + 1;
    return p[i:]]). *)

Definition slash : N := 47.

Fixpoint basename (p : pystr) : pystr :=
  match p with
  | [] => []
  | c :: r =>
      if existsb (N.eqb slash) r then basename r
      else if c =? slash then r else c :: r
  end.

(** [ntpath.basename] is [split(p)[1]]: [split] takes the drive off with
    [splitdrive] and returns as tail what follows the last separator of the
    rest, where both ['\\'] and ['/'] separate ([i = len(p); while i and p[i-1]
    not in seps: i -= 1; tail = p[i:]]). *)

Definition backslash : N := 92.
Definition colon : N := 58.

Definition is_sep (c : N) : bool := (c =? backslash) || (c =? slash).

Fixpoint ntpath_tail (p : pystr) : pystr :=
  match p with
  | [] => []
  | c :: r =>
      if existsb is_sep r then ntpath_tail r
      else if is_sep c then r else c :: r
  end.

(** The rules of [ntpath.splitdrive] for drive letters, UNC and device paths
    differ between the versions of Python, so [splitdrive] is an argument. *)
Definition ntpath_basename (splitdrive : pystr -> pystr * pystr) (p : pystr)
    : pystr :=
  ntpath_tail (snd (splitdrive p)).

(** A path in which [ntpath.splitdrive] looks for no drive: it is shorter than
    two characters, or it neither starts with two separators nor has a colon
    in second place. *)
Definition drive_free (p : pystr) : bool :=
  match p with
  | c0 :: c1 :: _ => negb (is_sep c0 && is_sep c1) && negb (c1 =? colon)
  | _ => true
  end.

End Codec.


(** ** Python values and the object store *)

#[local] Set Warnings "-register-all".

(** References to objects. *)
Abbreviation ref := nat (only parsing).

(** Values that flow through the modelled methods.  The client-value classes
    of the library ([ItemBody], [Recipient], [ClientValueCollection]; their
    files are not under src/) are used by the sources as plain data and are
    constructors that keep the arguments they are built from:
    [VItemBody c] is [ItemBody(c)] ([ItemBody()] when [c] is [None]),
    [VRecipient e] is [Recipient.from_email(e)], and [VCollection t xs] is a
    [ClientValueCollection] of item type [t].  Objects with identity are
    references into the heap. *)
Inductive pyval :=
| VNone
| VBool (b : bool)
| VInt (z : Z)
| VStr (s : pystr)
| VBytes (b : pybytes)
| VList (l : list pyval)
| VDict (d : list (string * pyval))
| VItemBody (content : option pyval)
| VRecipient (email : pyval)
| VCollection (item_type : string) (items : list pyval)
| VRef (r : ref).

(** Modelled from the spec: [ResourcePath(name, parent)]
    (office365/runtime/paths is not under src/). *)
Inductive ResourcePath :=
| ResourcePath_new (name : string) (parent : option ResourcePath).

(** Heap objects: the entity classes the methods create or mutate, each with
    the fields that the sources read or assign. *)
Inductive obj :=
| Message_obj (resource_path : option ResourcePath) (properties : gmap string pyval)
| FileAttachment_obj (name content_bytes content_type : pyval)
| AttachmentCollection_obj (resource_path : option ResourcePath)
                           (owner : option ref) (children : list ref)
| MessageCollection_obj (resource_path : option ResourcePath)
| ClientResult_obj (value : pyval)
| GroupSiteInfo_obj
| GroupSiteManager_obj
| File_obj (written : list pyval).

(** ** Queries, requests and callbacks *)

Inductive query_kind := ServiceOperation | CreateEntity.

Record Query := {
  kind : query_kind;
  binding_type : ref;
  method_name : option string;
  method_params : pyval;
  parameter_type : pyval;
  parameter_name : option string;
  return_type : option ref
}.

(** Modelled from the spec: [ServiceOperationQuery] (office365/runtime/queries
    is not under src/) is a record of its constructor arguments,
    [ServiceOperationQuery(binding_type, method_name=None, method_params=None,
    parameter_type=None, parameter_name=None, return_type=None)]; the sources
    read [parameter_type] back under the name [parameterType]. *)
Definition ServiceOperationQuery (binding_type : ref) (method_name : option string)
    (method_params parameter_type : pyval) (parameter_name : option string)
    (return_type : option ref) : Query :=
  {| kind := ServiceOperation; binding_type := binding_type;
     method_name := method_name; method_params := method_params;
     parameter_type := parameter_type; parameter_name := parameter_name;
     return_type := return_type |}.

(** Modelled from the spec: [HttpMethod] and [RequestOptions]
    (office365/runtime/http is not under src/), with the two attributes of a
    request that the sources assign. *)
Inductive HttpMethod := Get | Post | Patch | Delete | Put.

Record RequestOptions := { url : pystr; method : HttpMethod }.

(** [requests.Response]: the status and the body. *)
Record Response := { status_code : N; content : pybytes }.

(** The closures and bound methods that the source registers with the context,
    as data: each constructor carries the variables the closure captures. *)
Inductive before_handler :=
| construct_query
| construct_status_request (self : ref).

Inductive after_handler :=
| content_downloaded (file_object result : ref).

Inductive action :=
| message_loaded (self : ref) (file_path : pystr) (max_upload_chunk : N)
                 (return_type : ref).

(** A subscription: [once] listeners are dropped when they are notified. *)
Record listener (A : Type) := Listener { once : bool; callback : A }.
Arguments Listener {A} _ _.
Arguments once {A} _.
Arguments callback {A} _.

#[global] Instance before_handler_eq_dec : EqDecision before_handler.
Proof. solve_decision. Defined.
#[global] Instance after_handler_eq_dec : EqDecision after_handler.
Proof. solve_decision. Defined.
#[global] Instance listener_eq_dec {A} `{EqDecision A} : EqDecision (listener A).
Proof. solve_decision. Defined.

(** [list.remove]: drops the first element equal to [x]. *)
Fixpoint remove_first {A} `{EqDecision A} (x : A) (l : list A) : list A :=
  match l with
  | [] => []
  | y :: r => if decide (x = y) then r else y :: remove_first x r
  end.

(** ** The world: object store, client context, file system

    [queries], [beforeExecute] and [afterExecute] are the state of the pending
    request of the context; [dispatched] lists the HTTP requests sent so far;
    [ensure_pending] and [upload_sessions] note the deferred actions and the
    resumable uploads that were asked for; [disk] is the file system. *)

Record World := {
  heap : gmap ref obj;
  queries : list Query;
  beforeExecute : list (listener before_handler);
  afterExecute : list (listener after_handler);
  dispatched : list RequestOptions;
  ensure_pending : list (ref * string * action);
  upload_sessions : list (ref * pystr * N * ref);
  disk : pystr -> option pybytes
}.

Definition set_heap (f : gmap ref obj -> gmap ref obj) (w : World) : World :=
  {| heap := f (heap w); queries := queries w; beforeExecute := beforeExecute w;
     afterExecute := afterExecute w; dispatched := dispatched w;
     ensure_pending := ensure_pending w; upload_sessions := upload_sessions w;
     disk := disk w |}.

Definition set_queries (f : list Query -> list Query) (w : World) : World :=
  {| heap := heap w; queries := f (queries w); beforeExecute := beforeExecute w;
     afterExecute := afterExecute w; dispatched := dispatched w;
     ensure_pending := ensure_pending w; upload_sessions := upload_sessions w;
     disk := disk w |}.

Definition set_beforeExecute
    (f : list (listener before_handler) -> list (listener before_handler))
    (w : World) : World :=
  {| heap := heap w; queries := queries w; beforeExecute := f (beforeExecute w);
     afterExecute := afterExecute w; dispatched := dispatched w;
     ensure_pending := ensure_pending w; upload_sessions := upload_sessions w;
     disk := disk w |}.

Definition set_afterExecute
    (f : list (listener after_handler) -> list (listener after_handler))
    (w : World) : World :=
  {| heap := heap w; queries := queries w; beforeExecute := beforeExecute w;
     afterExecute := f (afterExecute w); dispatched := dispatched w;
     ensure_pending := ensure_pending w; upload_sessions := upload_sessions w;
     disk := disk w |}.

Definition set_dispatched (f : list RequestOptions -> list RequestOptions)
    (w : World) : World :=
  {| heap := heap w; queries := queries w; beforeExecute := beforeExecute w;
     afterExecute := afterExecute w; dispatched := f (dispatched w);
     ensure_pending := ensure_pending w; upload_sessions := upload_sessions w;
     disk := disk w |}.

Definition set_ensure_pending
    (f : list (ref * string * action) -> list (ref * string * action))
    (w : World) : World :=
  {| heap := heap w; queries := queries w; beforeExecute := beforeExecute w;
     afterExecute := afterExecute w; dispatched := dispatched w;
     ensure_pending := f (ensure_pending w); upload_sessions := upload_sessions w;
     disk := disk w |}.

Definition set_upload_sessions
    (f : list (ref * pystr * N * ref) -> list (ref * pystr * N * ref))
    (w : World) : World :=
  {| heap := heap w; queries := queries w; beforeExecute := beforeExecute w;
     afterExecute := afterExecute w; dispatched := dispatched w;
     ensure_pending := ensure_pending w; upload_sessions := f (upload_sessions w);
     disk := disk w |}.

(** ** The monad of methods: state, and exceptions that keep the state *)

Inductive exn :=
| TypeError | KeyError | AttributeError | FileNotFoundError
| HTTPError | UnicodeEncodeError | UnicodeDecodeError.

Inductive outcome (A : Type) :=
| Ok (a : A)
| Raise (e : exn).
Arguments Ok {A} _.
Arguments Raise {A} _.

Definition M (A : Type) : Type := World -> outcome A * World.

Definition ret {A} (a : A) : M A := fun w => (Ok a, w).

Definition bind {A B} (m : M A) (k : A -> M B) : M B :=
  fun w => match m w with
           | (Ok a, w') => k a w'
           | (Raise e, w') => (Raise e, w')
           end.

Definition raise {A} (e : exn) : M A := fun w => (Raise e, w).

Definition gets {A} (f : World -> A) : M A := fun w => (Ok (f w), w).

Definition modify (f : World -> World) : M unit := fun w => (Ok tt, f w).

#[global] Instance M_ret : MRet M := @ret.
#[global] Instance M_bind : MBind M := fun A B k m => bind m k.

(** ** Sample worlds *)

(** A world with nothing in it but the given files. *)
Definition empty_world (files : pystr -> option pybytes) : World :=
  {| heap := ∅; queries := []; beforeExecute := []; afterExecute := [];
     dispatched := []; ensure_pending := []; upload_sessions := [];
     disk := files |}.

(** Sample parameters of the execution: a renderer, a request builder and
    two servers. *)
Definition status_render (v : pyval) : pystr := lit "?".

Definition status_build_request (q : Query) : RequestOptions :=
  {| url := lit "/_api/GroupSiteManager/GetSiteStatus"; method := Post |}.

Definition status_server (sent : list RequestOptions) (request : RequestOptions)
    : Response :=
  {| status_code := 200; content := lit "{}" |}.

Definition not_found_server (sent : list RequestOptions)
    (request : RequestOptions) : Response :=
  {| status_code := 404; content := lit "" |}.

(** A world with one draft message and one small file. *)
Definition draft_world : World :=
  set_heap <[0%nat := Message_obj None ∅]>
    (empty_world (fun p => if decide (p = lit "/tmp/a.txt")
                           then Some (lit "hello") else None)).

(** A sample [splitdrive] for [Codec.ntpath_basename]: the one rule that all
    versions of [ntpath] share for drive letters, [X:] in front is the
    drive. *)
Definition letter_splitdrive (p : pystr) : pystr * pystr :=
  match p with
  | c0 :: c1 :: r => if c1 =? Codec.colon then ([c0; c1], r) else ([], p)
  | _ => ([], p)
  end.

(** A world with one message and one open file object. *)
Definition file_world : World :=
  set_heap (fun h => <[0%nat := Message_obj None ∅]> (<[1%nat := File_obj []]> h))
    (empty_world (fun _ => None)).

(** ** Object store primitives *)

(** A constructor call: the new object gets a reference that is not in use. *)
Definition alloc (o : obj) : M ref :=
  fun w => let r := fresh (dom (heap w)) in (Ok r, set_heap <[r:=o]> w).

Definition load (r : ref) : M obj :=
  fun w => match heap w !! r with
           | Some o => (Ok o, w)
           | None => (Raise AttributeError, w)
           end.

Definition store (r : ref) (o : obj) : M unit := modify (set_heap <[r:=o]>).

(** A value used as the receiver of a method call must be an object. *)
Definition as_ref (v : pyval) : M ref :=
  match v with
  | VRef r => mret r
  | _ => raise AttributeError
  end.

(** [dict.get(key, default)] on a property map. *)
Definition dict_get (d : gmap string pyval) (key : string) (dflt : pyval) : pyval :=
  default dflt (d !! key).

(** [d[key]] on a value: [KeyError] when the key is missing, [TypeError] when
    the value is not subscriptable by a string. *)
Fixpoint assoc (key : string) (d : list (string * pyval)) : option pyval :=
  match d with
  | [] => None
  | (k, v) :: r => if String.eqb key k then Some v else assoc key r
  end.

Definition subscript (v : pyval) (key : string) : M pyval :=
  match v with
  | VDict d => match assoc key d with
               | Some x => mret x
               | None => raise KeyError
               end
  | _ => raise TypeError
  end.

Definition is_None (v : pyval) : bool :=
  match v with VNone => true | _ => false end.

(** [isinstance(v, ItemBody)]. *)
Definition isinstance_ItemBody (v : pyval) : bool :=
  match v with VItemBody _ => true | _ => false end.

(** Modelled from the spec: [ItemBody] (office365/outlook/mail/itemBody.py is
    not under src/): [ItemBody(content)], and [ItemBody()] when no argument is
    given. *)
Definition ItemBody (content : option pyval) : pyval := VItemBody content.

(** Modelled from the spec: [Recipient.from_email(email)]
    (office365/outlook/mail/recipient.py is not under src/): the recipient
    built from the address. *)
Definition Recipient_from_email (email : pyval) : pyval := VRecipient email.

(** Modelled from the spec: [ClientValueCollection(item_type, initial_values)]
    (office365/runtime/client_value_collection.py is not under src/): a
    collection of client values of one item type, empty when no initial values
    are given. *)
Definition ClientValueCollection (item_type : string)
    (initial_values : option (list pyval)) : pyval :=
  VCollection item_type (default [] initial_values).

(** *** [os] and [open]: the file system is read, never written *)

Definition os_stat_st_size (file_path : pystr) : M N :=
  fun w => match disk w file_path with
           | Some bytes => (Ok (N.of_nat (length bytes)), w)
           | None => (Raise FileNotFoundError, w)
           end.

Definition open_rb_read (file_path : pystr) : M pybytes :=
  fun w => match disk w file_path with
           | Some bytes => (Ok bytes, w)
           | None => (Raise FileNotFoundError, w)
           end.

Definition str_encode_utf8 (s : pystr) : M pybytes :=
  match Codec.utf8_encode s with
  | Some b => mret b
  | None => raise UnicodeEncodeError
  end.

Definition bytes_decode_utf8 (b : pybytes) : M pystr :=
  match Codec.utf8_decode b with
  | Some s => mret s
  | None => raise UnicodeDecodeError
  end.

(** [file_object.write(v)] on a file object of the caller: the object records
    what it is given. *)
Definition file_write (file_object : ref) (v : pyval) : M unit :=
  o ← load file_object;
  match o with
  | File_obj written => store file_object (File_obj (written ++ [v]))
  | _ => raise AttributeError
  end.

(** [requests.Response.raise_for_status]: [HTTPError] for 4xx and 5xx. *)
Definition is_error_status (resp : Response) : bool :=
  (400 <=? status_code resp) && (status_code resp <? 600).

Definition raise_for_status (resp : Response) : M unit :=
  if is_error_status resp then raise HTTPError else mret tt.

(** ** The client context *)

Module Context.

(** Modelled from the spec: [ClientRuntimeContext.add_query]
    (office365/runtime is not under src/).  "These are queued and only actually
    dispatched against the HTTP endpoint when an explicit execute call is
    issued": the query is appended to the pending queue, nothing is sent. *)
Definition add_query (qry : Query) : M unit :=
  modify (set_queries (fun qs => qs ++ [qry])).

(** Modelled from the spec: [ClientRuntimeContext.before_execute(action)]
    (not under src/) subscribes the action to the pending request's
    [beforeExecute] event for the next request only. *)
Definition before_execute (h : before_handler) : M unit :=
  modify (set_beforeExecute (fun ls => ls ++ [Listener true h])).

(** Modelled from the spec: [ClientRuntimeContext.after_execute(action)]
    (not under src/) subscribes the action to the pending request's
    [afterExecute] event for the next response only. *)
Definition after_execute (h : after_handler) : M unit :=
  modify (set_afterExecute (fun ls => ls ++ [Listener true h])).

(** Modelled from the spec: [get_pending_request().beforeExecute += handler]
    (the event list of the pending request is not under src/) appends the
    handler, which stays subscribed until it is removed. *)
Definition beforeExecute_iadd (h : before_handler) : M unit :=
  modify (set_beforeExecute (fun ls => ls ++ [Listener false h])).

(** Modelled from the spec: [get_pending_request().beforeExecute -= handler]
    removes one subscription of the handler. *)
Definition beforeExecute_isub (h : before_handler) : M unit :=
  modify (set_beforeExecute (remove_first (Listener false h))).

End Context.

(** ** [ClientObject]: the base class of the entities *)

Module ClientObject.

(** Modelled from the spec: [ClientObject.properties] (not under src/) is the
    map of the JSON fields loaded or set on the entity. *)
Definition properties (self : ref) : M (gmap string pyval) :=
  o ← load self;
  match o with
  | Message_obj _ props => mret props
  | _ => raise AttributeError
  end.

(** Modelled from the spec: [ClientObject.resource_path] (not under src/) is
    the path the entity was created with. *)
Definition resource_path (self : ref) : M (option ResourcePath) :=
  o ← load self;
  match o with
  | Message_obj rp _ => mret rp
  | _ => raise AttributeError
  end.

(** Modelled from the spec: [ClientObject.get_property(name, default_value)]
    (not under src/), a "direct mapping to JSON fields": the stored field, or
    the default when the field is absent. *)
Definition get_property (self : ref) (name : string) (default_value : pyval)
    : M pyval :=
  props ← properties self;
  mret (dict_get props name default_value).

(** Modelled from the spec: [ClientObject.set_property(name, value)] (not under
    src/), a "direct mapping to JSON fields": the field is stored. *)
Definition set_property (self : ref) (name : string) (value : pyval) : M unit :=
  o ← load self;
  match o with
  | Message_obj rp props => store self (Message_obj rp (<[name:=value]> props))
  | _ => raise AttributeError
  end.

(** Modelled from the spec: [ClientObject.ensure_property(name, action)] (not
    under src/); "property resolution [is] deferred until data is fetched": the
    action is scheduled to run once the property of the entity is loaded. *)
Definition ensure_property (self : ref) (name : string) (a : action) : M unit :=
  modify (set_ensure_pending (fun l => l ++ [(self, name, a)])).

End ClientObject.

Module ClientResult.

(** Modelled from the spec: [ClientResult(context)]
    (office365/runtime/client_result.py is not under src/): a result holder
    whose [value] is not yet known. *)
Definition new : M ref := alloc (ClientResult_obj VNone).

Definition value (self : ref) : M pyval :=
  o ← load self;
  match o with
  | ClientResult_obj v => mret v
  | _ => raise AttributeError
  end.

End ClientResult.

Module FileAttachment.

(** Modelled from the spec: [FileAttachment(context)]
    (office365/outlook/mail/attachments/file.py is not under src/); the
    attributes [name], [content_bytes] and [content_type] that the source
    assigns are the fields of the object, "direct mappings to JSON fields". *)
Definition new : M ref := alloc (FileAttachment_obj VNone VNone VNone).

Definition set_name (self : ref) (v : pyval) : M unit :=
  o ← load self;
  match o with
  | FileAttachment_obj _ cb ct => store self (FileAttachment_obj v cb ct)
  | _ => raise AttributeError
  end.

Definition set_content_bytes (self : ref) (v : pyval) : M unit :=
  o ← load self;
  match o with
  | FileAttachment_obj n _ ct => store self (FileAttachment_obj n v ct)
  | _ => raise AttributeError
  end.

Definition set_content_type (self : ref) (v : pyval) : M unit :=
  o ← load self;
  match o with
  | FileAttachment_obj n cb _ => store self (FileAttachment_obj n cb v)
  | _ => raise AttributeError
  end.

End FileAttachment.

Module AttachmentCollection.

(** Modelled from the spec: [AttachmentCollection(context, resource_path)]
    (office365/outlook/mail/attachments/collection.py is not under src/): an
    empty collection at the path. *)
Definition new (rp : option ResourcePath) : M ref :=
  alloc (AttachmentCollection_obj rp None []).

(** Modelled from the spec: [track_changes(owner)] (the collection classes are
    not under src/) notes the entity whose changes the collection follows and
    returns the collection. *)
Definition track_changes (self : pyval) (owner : ref) : M pyval :=
  r ← as_ref self;
  o ← load r;
  match o with
  | AttachmentCollection_obj rp _ cs =>
      store r (AttachmentCollection_obj rp (Some owner) cs);; mret self
  | _ => raise AttributeError
  end.

(** Modelled from the spec: [add_child(item)] (not under src/) appends the item
    to the collection. *)
Definition add_child (self : pyval) (child : ref) : M unit :=
  r ← as_ref self;
  o ← load r;
  match o with
  | AttachmentCollection_obj rp ow cs =>
      store r (AttachmentCollection_obj rp ow (cs ++ [child]))
  | _ => raise AttributeError
  end.

(** Modelled from the spec: [resumable_upload(file_path, chunk_size,
    return_type)] (not under src/; its "chunking loop" is out of the spec's
    scope): the upload session is noted with its chunk size. *)
Definition resumable_upload (self : pyval) (file_path : pystr) (chunk_size : N)
    (rt : ref) : M unit :=
  r ← as_ref self;
  modify (set_upload_sessions (fun l => l ++ [(r, file_path, chunk_size, rt)])).

End AttachmentCollection.

(** ** [class Message(OutlookItem)]  (message.py) *)

Module Message.

(** [Message(context)]; the constructor is inherited ([OutlookItem] is not
    under src/): no resource path, no property loaded. *)
Definition new : M ref := alloc (Message_obj None ∅).

(** [has_attachments]: [self.properties.get("hasAttachments", None)]. *)
Definition has_attachments (self : ref) : M pyval :=
  props ← ClientObject.properties self;
  mret (dict_get props "hasAttachments" VNone).

(** [attachments]: the default collection is built before [dict.get] is
    called, whether the key is present or not. *)
Definition attachments (self : ref) : M pyval :=
  props ← ClientObject.properties self;
  rp ← ClientObject.resource_path self;
  dflt ← AttachmentCollection.new (Some (ResourcePath_new "attachments" rp));
  mret (dict_get props "attachments" (VRef dflt)).

(** [subject]: [self.properties.get("subject", None)]. *)
Definition subject (self : ref) : M pyval :=
  props ← ClientObject.properties self;
  mret (dict_get props "subject" VNone).

Definition set_subject (self : ref) (value : pyval) : M unit :=
  ClientObject.set_property self "subject" value.

(** [to_recipients]:
    [self.properties.get('toRecipients', ClientValueCollection(Recipient))]. *)
Definition to_recipients (self : ref) : M pyval :=
  props ← ClientObject.properties self;
  mret (dict_get props "toRecipients" (ClientValueCollection "Recipient" None)).

Definition set_to_recipients (self : ref) (value : list pyval) : M unit :=
  ClientObject.set_property self "toRecipients"
    (ClientValueCollection "Recipient" (Some (map Recipient_from_email value))).

(** The override of [get_property]: without a default, the default of
    ["toRecipients"] is the [to_recipients] property. *)
Definition get_property (self : ref) (name : string) (default_value : pyval)
    : M pyval :=
  default_value ←
    (if is_None default_value then
       tr ← to_recipients self;
       mret (if String.eqb name "toRecipients" then tr else VNone)
     else mret default_value);
  ClientObject.get_property self name default_value.

(** [body]: [self.get_property("body", ItemBody())]. *)
Definition body (self : ref) : M pyval :=
  get_property self "body" (ItemBody None).

(** The [body] setter. *)
Definition set_body (self : ref) (value : pyval) : M unit :=
  let value := if negb (isinstance_ItemBody value) then ItemBody (Some value)
               else value in
  ClientObject.set_property self "body" value.

(** [get_content]: the query and the request hook are registered, the result
    holder is returned. *)
Definition get_content (self : ref) : M ref :=
  result ← ClientResult.new;
  let qry := ServiceOperationQuery self (Some "$value") VNone VNone None
               (Some result) in
  Context.before_execute construct_query;;
  Context.add_query qry;;
  mret result.

(** The closure [_construct_query] of [get_content]. *)
Definition _construct_query (request : RequestOptions) : M RequestOptions :=
  mret {| url := url request; method := Get |}.

(** [download(file_object)]. *)
Definition download (self file_object : ref) : M ref :=
  result ← get_content self;
  Context.after_execute (content_downloaded file_object result);;
  mret self.

(** The closure [_content_downloaded] of [download]. *)
Definition _content_downloaded (file_object result : ref) (resp : Response)
    : M unit :=
  raise_for_status resp;;
  v ← ClientResult.value result;
  file_write file_object v.

(** [add_file_attachment(name, content, content_type=None)]. *)
Definition add_file_attachment (self : ref) (name : pyval) (content : pystr)
    (content_type : pyval) : M ref :=
  return_type ← FileAttachment.new;
  atts ← attachments self;
  AttachmentCollection.add_child atts return_type;;
  FileAttachment.set_name return_type name;;
  encoded ← str_encode_utf8 content;
  text ← bytes_decode_utf8 (Codec.b64encode encoded);
  FileAttachment.set_content_bytes return_type (VStr text);;
  FileAttachment.set_content_type return_type content_type;;
  mret return_type.

(** The closure [_message_loaded] of [upload_attachment]. *)
Definition _message_loaded (self : ref) (file_path : pystr)
    (max_upload_chunk : N) (return_type : ref) : M unit :=
  atts ← attachments self;
  AttachmentCollection.resumable_upload atts file_path max_upload_chunk
    return_type.

(** [upload_attachment(file_path)]. *)
Definition upload_attachment (self : ref) (file_path : pystr) : M ref :=
  return_type ← FileAttachment.new;
  atts ← attachments self;
  tracked ← AttachmentCollection.track_changes atts self;
  AttachmentCollection.add_child tracked return_type;;
  let max_upload_chunk := 1000000 * 3 in
  file_size ← os_stat_st_size file_path;
  (if max_upload_chunk <? file_size then
     ClientObject.ensure_property self "id"
       (message_loaded self file_path max_upload_chunk return_type)
   else
     orig_content ← open_rb_read file_path;
     text ← bytes_decode_utf8 (Codec.b64encode orig_content);
     FileAttachment.set_content_bytes return_type (VStr text);;
     FileAttachment.set_name return_type (VStr (Codec.basename file_path)));;
  mret self.

(** [send()]. *)
Definition send (self : ref) : M ref :=
  let qry := ServiceOperationQuery self (Some "send") VNone VNone None None in
  Context.add_query qry;;
  mret self.

(** [reply(comment=None)]. *)
Definition reply (self : ref) (comment : pyval) : M ref :=
  message ← new;
  let payload := VDict [("message", VRef message); ("comment", comment)] in
  let qry := ServiceOperationQuery self (Some "reply") VNone payload None None in
  Context.add_query qry;;
  mret message.

(** [reply_all()]. *)
Definition reply_all (self : ref) : M ref :=
  let qry := ServiceOperationQuery self (Some "replyAll") VNone VNone None None in
  Context.add_query qry;;
  mret self.

(** [create_reply_all()]. *)
Definition create_reply_all (self : ref) : M ref :=
  let qry := ServiceOperationQuery self (Some "createReplyAll") VNone VNone None
               None in
  Context.add_query qry;;
  mret self.

(** [move(destination_id)]. *)
Definition move (self : ref) (destination_id : pyval) : M ref :=
  let payload := VDict [("DestinationId", destination_id)] in
  let qry := ServiceOperationQuery self (Some "move") VNone payload None None in
  Context.add_query qry;;
  mret self.

(** [forward(to_recipients, comment="")]. *)
Definition forward (self : ref) (to_recipients : list pyval) (comment : pyval)
    : M ref :=
  let payload :=
    VDict [("toRecipients",
            ClientValueCollection "Recipient"
              (Some (map Recipient_from_email to_recipients)));
           ("comment", comment)] in
  let qry := ServiceOperationQuery self (Some "forward") VNone payload None
               None in
  Context.add_query qry;;
  mret self.

End Message.

(** ** [class MessageCollection(DeltaCollection)]  (collection.py) *)

Module MessageCollection.

(** Modelled from the spec: the inherited [add] with keyword arguments of the entity
    collections (office365/delta_collection.py and its bases are not under
    src/): a new entity of the item type holds the given properties, and one
    query that creates it on the server is queued. *)
Definition super_add (self : ref) (kwargs : list (string * pyval)) : M ref :=
  return_type ← alloc (Message_obj None (list_to_map kwargs));
  Context.add_query
    {| kind := CreateEntity; binding_type := self; method_name := None;
       method_params := VNone; parameter_type := VDict kwargs;
       parameter_name := None; return_type := Some return_type |};;
  mret return_type.

(** A call with named and extra keyword arguments: a key given twice is a
    [TypeError]. *)
Definition call_with_kwargs {A} (f : list (string * pyval) -> M A)
    (named kwargs : list (string * pyval)) : M A :=
  if existsb (fun k => existsb (String.eqb k) (map fst named)) (map fst kwargs)
  then raise TypeError
  else f (named ++ kwargs).

(** The keyword arguments that [add] gives to the inherited [add]. *)
Definition add_kwargs (subject body : pyval) (to_recipients : option (list pyval))
    : list (string * pyval) :=
  let to_recipients := match to_recipients with
                       | None => []
                       | Some l => l
                       end in
  [("body", if isinstance_ItemBody body then body else ItemBody (Some body));
   ("subject", subject);
   ("toRecipients",
    ClientValueCollection "Recipient"
      (Some (map Recipient_from_email to_recipients)))].

(** [add(subject, body, to_recipients=None)] with extra keyword arguments. *)
Definition add (self : ref) (subject body : pyval)
    (to_recipients : option (list pyval)) (kwargs : list (string * pyval))
    : M ref :=
  call_with_kwargs (super_add self) (add_kwargs subject body to_recipients)
    kwargs.

End MessageCollection.

(** ** [class GroupSiteManager(ClientObject)]  (GroupSiteManager.py) *)

Module GroupSiteManager.

(** [GroupSiteManager(context)], bound to the resource path
    [GroupSiteManager]. *)
Definition new : M ref := alloc GroupSiteManager_obj.

(** Modelled from the spec: [GroupSiteInfo()]
    (office365/sharepoint/portal/GroupSiteInfo.py is not under src/): a
    placeholder that the response fills in. *)
Definition GroupSiteInfo : M ref := alloc GroupSiteInfo_obj.

(** [create_group_ex(display_name, alias, is_public, optional_params)]. *)
Definition create_group_ex (self : ref)
    (display_name alias is_public optional_params : pyval) : M ref :=
  let payload := VDict [("displayName", display_name); ("alias", alias);
                        ("isPublic", is_public);
                        ("optionalParams", optional_params)] in
  group_site_info ← GroupSiteInfo;
  let qry := ServiceOperationQuery self (Some "CreateGroupEx") VNone payload
               None (Some group_site_info) in
  Context.add_query qry;;
  mret group_site_info.

(** [delete(site_url)]. *)
Definition delete (self : ref) (site_url : pyval) : M unit :=
  let payload := VDict [("siteUrl", site_url)] in
  let qry := ServiceOperationQuery self (Some "Delete") VNone payload None
               None in
  Context.add_query qry.

(** [get_status(group_id)]. *)
Definition get_status (self : ref) (group_id : pyval) : M ref :=
  group_site_info ← GroupSiteInfo;
  let qry := ServiceOperationQuery self (Some "GetSiteStatus") VNone
               (VDict [("groupId", group_id)]) None (Some group_site_info) in
  Context.add_query qry;;
  Context.beforeExecute_iadd (construct_status_request self);;
  mret group_site_info.

Section Format.

(** [str.format] inserts a [str] argument as it is; how Python renders the
    other values is a parameter. *)
Variable render : pyval -> pystr.

Definition format_arg (v : pyval) : pystr :=
  match v with
  | VStr s => s
  | _ => render v
  end.

(** [_construct_status_request(request, query)]. *)
Definition _construct_status_request (self : ref) (request : RequestOptions)
    (query : Query) : M RequestOptions :=
  let request := {| url := url request; method := Get |} in
  group_id ← subscript (parameter_type query) "groupId";
  let request :=
    {| url := url request ++ lit "?groupId='" ++ format_arg group_id ++ lit "'";
       method := method request |} in
  Context.beforeExecute_isub (construct_status_request self);;
  mret request.

End Format.

End GroupSiteManager.

(** ** Executing the pending request *)

Module ClientRequest.

Section Execute.

Variable render : pyval -> pystr.

(** How a query becomes a request (URL of the bound resource, HTTP verb) and
    what the server answers, given the requests sent before, are parameters:
    neither is decided by the modelled sources. *)
Variable build_request : Query -> RequestOptions.
Variable server : list RequestOptions -> RequestOptions -> Response.

(** Calling a registered closure: the bodies are those of the sources. *)
Definition call_before (h : before_handler) (request : RequestOptions)
    (query : Query) : M RequestOptions :=
  match h with
  | construct_query => Message._construct_query request
  | construct_status_request self =>
      GroupSiteManager._construct_status_request render self request query
  end.

Definition call_after (h : after_handler) (resp : Response) : M unit :=
  match h with
  | content_downloaded file_object result =>
      Message._content_downloaded file_object result resp
  end.

(** Modelled from the spec: the [beforeExecute] event of the pending request
    (not under src/).  The listeners subscribed when the event fires are
    called in order with the request and the query; a [once] listener is
    unsubscribed as it is called. *)
Fixpoint notify_before (ls : list (listener before_handler))
    (request : RequestOptions) (query : Query) : M RequestOptions :=
  match ls with
  | [] => mret request
  | l :: rest =>
      (if once l then modify (set_beforeExecute (remove_first l)) else mret tt);;
      request ← call_before (callback l) request query;
      notify_before rest request query
  end.

(** Modelled from the spec: the [afterExecute] event, as [beforeExecute]. *)
Fixpoint notify_after (ls : list (listener after_handler)) (resp : Response)
    : M unit :=
  match ls with
  | [] => mret tt
  | l :: rest =>
      (if once l then modify (set_afterExecute (remove_first l)) else mret tt);;
      call_after (callback l) resp;;
      notify_after rest resp
  end.

(** Modelled from the spec: "resolution [is] deferred until data is fetched":
    the content of the response is bound to the result holder of the query.
    The mapping of JSON onto entities is not modelled. *)
Definition process_response (query : Query) (resp : Response) : M unit :=
  match return_type query with
  | Some r =>
      fun w => match heap w !! r with
               | Some (ClientResult_obj _) =>
                   store r (ClientResult_obj (VBytes (content resp))) w
               | _ => (Ok tt, w)
               end
  | None => mret tt
  end.

(** Modelled from the spec: one query of the queue is taken, its request is
    built, offered to the [beforeExecute] listeners, sent, and the response is
    processed and offered to the [afterExecute] listeners. *)
Definition execute_one (query : Query) : M unit :=
  modify (set_queries (drop 1));;
  ls ← gets beforeExecute;
  request ← notify_before ls (build_request query) query;
  sent ← gets dispatched;
  modify (set_dispatched (fun l => l ++ [request]));;
  let resp := server sent request in
  process_response query resp;;
  ls ← gets afterExecute;
  notify_after ls resp.

Fixpoint execute_queries (qs : list Query) : M unit :=
  match qs with
  | [] => mret tt
  | q :: rest => execute_one q;; execute_queries rest
  end.

(** Modelled from the spec: [execute_query] on the context (not under src/),
    "queue then flush HTTP calls": the pending queries are executed in the
    order in which they were queued. *)
Definition execute_query : M unit :=
  qs ← gets queries;
  execute_queries qs.

End Execute.

End ClientRequest.

(** ** Programs of calls on the client objects *)

Inductive operation :=
| Message_send (self : ref)
| Message_reply (self : ref) (comment : pyval)
| Message_reply_all (self : ref)
| Message_forward (self : ref) (to_recipients : list pyval) (comment : pyval)
| Message_move (self : ref) (destination_id : pyval)
| Message_get_content (self : ref)
| GroupSiteManager_create_group_ex (self : ref)
    (display_name alias is_public optional_params : pyval)
| GroupSiteManager_delete (self : ref) (site_url : pyval)
| GroupSiteManager_get_status (self : ref) (group_id : pyval).

Definition call (op : operation) : M unit :=
  match op with
  | Message_send self => Message.send self;; mret tt
  | Message_reply self comment => Message.reply self comment;; mret tt
  | Message_reply_all self => Message.reply_all self;; mret tt
  | Message_forward self to_recipients comment =>
      Message.forward self to_recipients comment;; mret tt
  | Message_move self destination_id =>
      Message.move self destination_id;; mret tt
  | Message_get_content self => Message.get_content self;; mret tt
  | GroupSiteManager_create_group_ex self display_name alias is_public
      optional_params =>
      GroupSiteManager.create_group_ex self display_name alias is_public
        optional_params;; mret tt
  | GroupSiteManager_delete self site_url =>
      GroupSiteManager.delete self site_url
  | GroupSiteManager_get_status self group_id =>
      GroupSiteManager.get_status self group_id;; mret tt
  end.

Fixpoint calls (ops : list operation) : M unit :=
  match ops with
  | [] => mret tt
  | op :: rest => call op;; calls rest
  end.

(** A program that also executes the context explicitly. *)
Inductive step :=
| Call (op : operation)
| Execute.

Section Programs.

Variable render : pyval -> pystr.
Variable build_request : Query -> RequestOptions.
Variable server : list RequestOptions -> RequestOptions -> Response.

Fixpoint run (steps : list step) : M unit :=
  match steps with
  | [] => mret tt
  | Call op :: rest => call op;; run rest
  | Execute :: rest =>
      ClientRequest.execute_query render build_request server;; run rest
  end.

End Programs.

(** The entity's [attachments] field, when loaded, is a collection object. *)
Definition attachments_usable (w : World) (props : gmap string pyval) : Prop :=
  match props !! "attachments" with
  | None => True
  | Some v => exists r rp ow cs,
                v = VRef r /\ heap w !! r = Some (AttachmentCollection_obj rp ow cs)
  end.

(** Unicode scalar values: the code points that are not surrogates. *)
Definition is_scalar (c : N) : Prop := c < 0xD800 \/ (0xE000 <= c /\ c < 0x110000).

(** The part of the world that is not the object store. *)
Definition same_context (w w' : World) : Prop :=
  queries w' = queries w /\ beforeExecute w' = beforeExecute w /\
  afterExecute w' = afterExecute w /\ dispatched w' = dispatched w /\
  ensure_pending w' = ensure_pending w /\
  upload_sessions w' = upload_sessions w /\ disk w' = disk w.

(** The world in which the [body] field of a message holds [x]. *)
Definition with_body (self : ref) (rp : option ResourcePath)
    (props : gmap string pyval) (w : World) (x : pyval) : World :=
  set_heap <[self := Message_obj rp (<["body" := x]> props)]> w.

(** The subscription that [get_status] makes. *)
Abbreviation status_listener self :=
  (Listener false (construct_status_request self)).

(** How many subscriptions of a listener a list holds. *)
Definition subscribed {A} `{EqDecision A} (x : A) (l : list A) : nat :=
  length (filter (fun y => y = x) l).

(** The result holders that the pending queries are bound to. *)
Definition placeholders (qs : list Query) : list ref := omap return_type qs.

(** A world whose message has its attachments loaded: the collection at
    reference 1 already holds the attachment at reference 2. *)
Definition loaded_world : World :=
  set_heap
    (fun h =>
       <[0%nat := Message_obj None (<["attachments" := VRef 1]> ∅)]>
         (<[1%nat := AttachmentCollection_obj None None [2%nat]]>
            (<[2%nat := FileAttachment_obj (VStr (lit "old.txt")) VNone VNone]> h)))
    (empty_world (fun _ => None)).

(** ** Proof automation *)

(** Linear arithmetic over [N] with division and remainder by constants. *)
Ltac nlia := zify; Z.to_euclidean_division_equations; lia.

Ltac nbool :=
  repeat match goal with
    | |- context [N.ltb ?a ?b] => destruct (N.ltb_spec a b); try (exfalso; nlia)
    | |- context [N.leb ?a ?b] => destruct (N.leb_spec a b); try (exfalso; nlia)
    | |- context [N.eqb ?a ?b] => destruct (N.eqb_spec a b); try (exfalso; nlia)
    end.

(** Unfolding of the monad's operations in a goal. *)
Ltac monad_run :=
  cbn; unfold mbind, M_bind, bind, mret, M_ret, ret, raise, modify, gets; cbn.

(** Lookups through a chain of updates of the object store. *)
Ltac heap_lookup :=
  cbn;
  repeat first [ rewrite lookup_insert_eq
               | rewrite lookup_insert_ne by (auto; congruence) ];
  auto.

(** * Facts about the codecs *)

Section CodecFacts.
Import Codec.

Lemma utf8_decode_encode_char c bs rest :
  utf8_encode_char c = Some bs ->
  utf8_decode_char (bs ++ rest) = Some (c, rest).
Proof.
  unfold utf8_encode_char, is_surrogate.
  nbool; simpl; intros [= <-]; simpl;
    unfold is_cont, is_surrogate; nbool; simpl; repeat f_equal; nlia.
Qed.

Lemma utf8_encode_char_nonempty c bs :
  utf8_encode_char c = Some bs -> exists b r, bs = b :: r.
Proof.
  unfold utf8_encode_char.
  repeat match goal with |- context [if ?b then _ else _] => destruct b end;
    intros [= <-]; eauto.
Qed.

Lemma utf8_encode_char_octets c bs :
  utf8_encode_char c = Some bs -> Forall (fun b => b < 256) bs.
Proof.
  unfold utf8_encode_char, is_surrogate.
  nbool; simpl; intros [= <-]; repeat constructor; nlia.
Qed.

Lemma utf8_encode_octets s bs :
  utf8_encode s = Some bs -> Forall (fun b => b < 256) bs.
Proof.
  revert bs; induction s as [|c r IH]; simpl; intros bs.
  - intros [= <-]; constructor.
  - destruct (utf8_encode_char c) as [b1|] eqn:E1; [|discriminate].
    destruct (utf8_encode r) as [rs|]; [|discriminate].
    intros [= <-]; apply Forall_app; split;
      [eapply utf8_encode_char_octets; eauto | auto].
Qed.

Lemma utf8_decode_fuel_encode s :
  forall bs fuel, utf8_encode s = Some bs -> (length s <= fuel)%nat ->
                  utf8_decode_fuel fuel bs = Some s.
Proof.
  induction s as [|c r IH]; simpl; intros bs fuel.
  - intros [= <-] _; destruct fuel; reflexivity.
  - destruct (utf8_encode_char c) as [b1|] eqn:E1; [|discriminate].
    destruct (utf8_encode r) as [rs|] eqn:E2; [|discriminate].
    intros [= <-] Hf.
    destruct (utf8_encode_char_nonempty _ _ E1) as (b & t & ->).
    destruct fuel as [|f]; [lia|].
    change (utf8_decode_fuel (S f) ((b :: t) ++ rs))
      with (match utf8_decode_char ((b :: t) ++ rs) with
            | Some (c', rest) =>
                match utf8_decode_fuel f rest with
                | Some s' => Some (c' :: s')
                | None => None
                end
            | None => None
            end).
    rewrite (utf8_decode_encode_char _ _ rs E1).
    rewrite (IH rs f eq_refl) by lia; reflexivity.
Qed.

Lemma utf8_encode_length s bs :
  utf8_encode s = Some bs -> (length s <= length bs)%nat.
Proof.
  revert bs; induction s as [|c r IH]; simpl; intros bs.
  - intros [= <-]; simpl; lia.
  - destruct (utf8_encode_char c) as [b1|] eqn:E1; [|discriminate].
    destruct (utf8_encode r) as [rs|]; [|discriminate].
    intros [= <-].
    destruct (utf8_encode_char_nonempty _ _ E1) as (b & t & ->).
    specialize (IH rs eq_refl); rewrite length_app; simpl; lia.
Qed.

(** Decoding inverts encoding on every text that can be encoded. *)
Lemma utf8_decode_encode s bs :
  utf8_encode s = Some bs -> utf8_decode bs = Some s.
Proof.
  intros H; unfold utf8_decode.
  apply utf8_decode_fuel_encode; [assumption | eapply utf8_encode_length; eauto].
Qed.

Lemma utf8_encode_char_scalar c : is_scalar c -> is_Some (utf8_encode_char c).
Proof.
  unfold is_scalar, utf8_encode_char, is_surrogate; intros H.
  nbool; simpl; eauto.
Qed.

Lemma utf8_encode_scalar s : Forall is_scalar s -> is_Some (utf8_encode s).
Proof.
  induction 1 as [|c r Hc _ [rs IH]]; simpl; [eauto|].
  destruct (utf8_encode_char_scalar c Hc) as [b1 ->]; rewrite IH; eauto.
Qed.

Lemma utf8_encode_char_surrogate c : is_surrogate c = true -> utf8_encode_char c = None.
Proof.
  unfold utf8_encode_char, is_surrogate; intros H.
  apply andb_true_iff in H as [H1 H2].
  apply N.leb_le in H1; apply N.ltb_lt in H2.
  nbool; simpl; reflexivity.
Qed.

(** ASCII octets decode to themselves. *)
Lemma utf8_decode_fuel_ascii bs :
  Forall (fun b => b < 128) bs ->
  forall fuel, (length bs <= fuel)%nat -> utf8_decode_fuel fuel bs = Some bs.
Proof.
  induction 1 as [|b r Hb _ IH]; intros fuel Hf; [destruct fuel; reflexivity|].
  destruct fuel as [|f]; simpl in Hf; [lia|].
  simpl. destruct (N.ltb_spec b 128); [|lia].
  rewrite IH by lia; reflexivity.
Qed.

Lemma utf8_decode_ascii bs :
  Forall (fun b => b < 128) bs -> utf8_decode bs = Some bs.
Proof. intros H; apply utf8_decode_fuel_ascii; auto. Qed.

Lemma b64_index_char i : i < 64 -> b64_index (b64_char i) = Some i.
Proof.
  intros H; unfold b64_char.
  nbool; unfold b64_index; nbool; simpl; f_equal; nlia.
Qed.

Lemma b64_char_not_pad i : b64_char i <> b64_pad.
Proof. unfold b64_char, b64_pad; nbool; nlia. Qed.

Lemma b64_char_ascii i : b64_char i < 128.
Proof. unfold b64_char; nbool; nlia. Qed.

Lemma b64encode_ascii bs : Forall (fun c => c < 128) (b64encode bs).
Proof.
  assert (Hpad : b64_pad < 128) by (unfold b64_pad; lia).
  assert (H : forall n bs, (length bs <= n)%nat -> Forall (fun c => c < 128) (b64encode bs)).
  { clear bs. induction n as [|n IH]; intros [|a [|b [|c rest]]] Hl; simpl in *;
      try lia; repeat constructor; auto using b64_char_ascii.
    apply IH; lia. }
  eapply H; eauto.
Qed.

(** Decoding inverts encoding on every sequence of octets. *)
Lemma b64decode_encode bs :
  Forall (fun b => b < 256) bs -> b64decode (b64encode bs) = Some bs.
Proof.
  assert (H : forall n bs, (length bs <= n)%nat -> Forall (fun b => b < 256) bs ->
                           b64decode (b64encode bs) = Some bs).
  { clear bs. induction n as [|n IH]; intros [|a [|b [|c rest]]] Hl Hb; simpl in Hl;
      try lia; try reflexivity.
    - inversion_clear Hb as [|? ? Ha _].
      cbn [b64encode b64decode].
      rewrite !b64_index_char by nlia.
      rewrite N.eqb_refl. simpl. f_equal; f_equal; nlia.
    - inversion_clear Hb as [|? ? Ha Hb']. inversion_clear Hb' as [|? ? Hb _].
      cbn [b64encode b64decode].
      rewrite !b64_index_char by nlia.
      rewrite N.eqb_refl.
      destruct (N.eqb_spec (b64_char (b `mod` 16 * 4)) b64_pad) as [E|_];
        [destruct (b64_char_not_pad _ E)|].
      f_equal; repeat f_equal; nlia.
    - inversion_clear Hb as [|? ? Ha Hb']. inversion_clear Hb' as [|? ? Hb Hb''].
      inversion_clear Hb'' as [|? ? Hc Hr].
      cbn [b64encode b64decode].
      rewrite !b64_index_char by nlia.
      destruct (N.eqb_spec (b64_char (c `mod` 64)) b64_pad) as [E|_];
        [destruct (b64_char_not_pad _ E)|].
      rewrite IH by (auto; lia).
      f_equal; repeat f_equal; nlia. }
  intros Hb; eapply H; eauto.
Qed.

Lemma b64decode_str_encode bs :
  Forall (fun b => b < 256) bs -> b64decode_str (b64encode bs) = Some bs.
Proof.
  intros H; unfold b64decode_str.
  assert (E : forallb (fun c => c <? 128) (b64encode bs) = true).
  { apply forallb_forall; intros x Hx.
    pose proof (b64encode_ascii bs) as Ha.
    rewrite Forall_forall in Ha. apply N.ltb_lt, Ha, list_elem_of_In, Hx. }
  rewrite E; apply b64decode_encode, H.
Qed.

End CodecFacts.

(** A computation that returns lets the rest of the program run; one that
    raises ends it. *)
Lemma mbind_ok {A B} (m : M A) (k : A -> M B) (w w' : World) (a : A) :
  m w = (Ok a, w') -> (m ≫= k) w = k a w'.
Proof. intros H. unfold mbind, M_bind, bind. rewrite H. reflexivity. Qed.

Lemma mbind_raise {A B} (m : M A) (k : A -> M B) (w w' : World) (e : exn) :
  m w = (Raise e, w') -> (m ≫= k) w = (Raise e, w').
Proof. intros H. unfold mbind, M_bind, bind. rewrite H. reflexivity. Qed.

Lemma mret_run {A} (a : A) (w : World) : (mret a : M A) w = (Ok a, w).
Proof. reflexivity. Qed.

(** * The deferred operations *)

Lemma fresh_ref_unused (w : World) : heap w !! fresh (dom (heap w)) = None.
Proof. apply not_elem_of_dom, is_fresh. Qed.

(** One call queues one query, may subscribe callbacks, and sends nothing. *)
Lemma call_only_enqueues (op : operation) (w : World) :
  fst (call op w) = Ok tt /\
  dispatched (snd (call op w)) = dispatched w /\
  (exists q, queries (snd (call op w)) = queries w ++ [q]) /\
  (exists ls, beforeExecute (snd (call op w)) = beforeExecute w ++ ls) /\
  (exists ls, afterExecute (snd (call op w)) = afterExecute w ++ ls).
Proof.
  destruct op; cbn;
    (split; [reflexivity|]); (split; [reflexivity|]);
    (split; [eexists; reflexivity|]);
    split; first [ exists []; symmetry; apply app_nil_r | eexists; reflexivity ].
Qed.

(** A program sends something only if it holds an explicit execution. *)
Lemma run_dispatches_only_on_execute render build_request server
    (steps : list step) :
  forall w : World,
    dispatched (snd (run render build_request server steps w)) = dispatched w
    \/ In Execute steps.
Proof.
  induction steps as [|[op|] rest IH]; intros w.
  - left; reflexivity.
  - destruct (call_only_enqueues op w) as (Hr & Hd & _).
    change (run render build_request server (Call op :: rest) w)
      with (bind (call op) (fun _ => run render build_request server rest) w).
    unfold bind. destruct (call op w) as [[[]|e] w1]; simpl in *; [|discriminate].
    destruct (IH w1) as [H|H]; [left; congruence | right; right; exact H].
  - right; left; reflexivity.
Qed.

(** C1. Every operation method ([Message.send], [reply], [reply_all],
    [forward], [move], [get_content], [GroupSiteManager.create_group_ex],
    [delete], [get_status]) only appends a query to the pending queue of the
    context and possibly subscribes callbacks; whatever sequence of such calls
    is made, no HTTP request is dispatched, and each call leaves exactly one
    more query pending.  A program of calls dispatches only if it holds an
    explicit [execute_query]. *)
Theorem C1_operations_never_dispatch render build_request server
    (ops : list operation) (steps : list step) (w : World) :
  fst (calls ops w) = Ok tt /\
  dispatched (snd (calls ops w)) = dispatched w /\
  (exists qs, queries (snd (calls ops w)) = queries w ++ qs
              /\ length qs = length ops) /\
  (exists ls, beforeExecute (snd (calls ops w)) = beforeExecute w ++ ls) /\
  (exists ls, afterExecute (snd (calls ops w)) = afterExecute w ++ ls) /\
  (dispatched (snd (run render build_request server steps w)) = dispatched w
   \/ In Execute steps).
Proof.
  assert (Hcalls : forall ops (w : World),
             fst (calls ops w) = Ok tt /\
             dispatched (snd (calls ops w)) = dispatched w /\
             (exists qs, queries (snd (calls ops w)) = queries w ++ qs
                         /\ length qs = length ops) /\
             (exists ls, beforeExecute (snd (calls ops w)) = beforeExecute w ++ ls) /\
             (exists ls, afterExecute (snd (calls ops w)) = afterExecute w ++ ls)).
  { clear. induction ops as [|op rest IH]; intros w.
    - cbn. split; [reflexivity|]. split; [reflexivity|].
      split; [|split]; exists []; rewrite app_nil_r; auto.
    - destruct (call_only_enqueues op w)
        as (Hr & Hd & [q Hq] & [bs Hb] & [as' Ha]).
      change (calls (op :: rest) w) with (bind (call op) (fun _ => calls rest) w).
      unfold bind. destruct (call op w) as [[[]|e] w1]; simpl in *; [|discriminate].
      destruct (IH w1) as (Hr' & Hd' & (qs & Hq' & Hl) & [bs' Hb'] & [as'' Ha']).
      split; [assumption|]. split; [congruence|].
      split; [|split].
      + exists (q :: qs). rewrite Hq', Hq, <- app_assoc. simpl. auto.
      + exists (bs ++ bs'). rewrite Hb', Hb, <- app_assoc. reflexivity.
      + exists (as' ++ as''). rewrite Ha', Ha, <- app_assoc. reflexivity. }
  destruct (Hcalls ops w) as (H1 & H2 & H3 & H4 & H5).
  repeat (split; [assumption|]).
  apply run_dispatches_only_on_execute.
Qed.

(** C2. [send], [reply], [forward] and [move] each queue exactly one
    [ServiceOperationQuery], named after the REST operation, with a fixed
    payload: none for [send]; the keys [message] (a new [Message], which is
    also returned) and [comment] for [reply]; the keys [toRecipients] (the
    given addresses, in order, through [Recipient.from_email]) and [comment]
    for [forward]; the key [DestinationId] for [move]. *)
Theorem C2_message_operations_payload (self : ref) (comment destination_id : pyval)
    (to_recipients : list pyval) (w : World) :
  (exists q,
     fst (Message.send self w) = Ok self /\
     queries (snd (Message.send self w)) = queries w ++ [q] /\
     kind q = ServiceOperation /\ binding_type q = self /\
     method_name q = Some "send" /\ parameter_type q = VNone) /\
  (exists q message d,
     fst (Message.reply self comment w) = Ok message /\
     queries (snd (Message.reply self comment w)) = queries w ++ [q] /\
     kind q = ServiceOperation /\ binding_type q = self /\
     method_name q = Some "reply" /\ parameter_type q = VDict d /\
     map fst d = ["message"; "comment"] /\
     assoc "message" d = Some (VRef message) /\
     assoc "comment" d = Some comment /\
     heap w !! message = None /\
     heap (snd (Message.reply self comment w)) !! message
       = Some (Message_obj None ∅)) /\
  (exists q d,
     fst (Message.forward self to_recipients comment w) = Ok self /\
     queries (snd (Message.forward self to_recipients comment w))
       = queries w ++ [q] /\
     kind q = ServiceOperation /\ binding_type q = self /\
     method_name q = Some "forward" /\ parameter_type q = VDict d /\
     map fst d = ["toRecipients"; "comment"] /\
     assoc "toRecipients" d
       = Some (VCollection "Recipient" (map Recipient_from_email to_recipients)) /\
     assoc "comment" d = Some comment) /\
  (exists q d,
     fst (Message.move self destination_id w) = Ok self /\
     queries (snd (Message.move self destination_id w)) = queries w ++ [q] /\
     kind q = ServiceOperation /\ binding_type q = self /\
     method_name q = Some "move" /\ parameter_type q = VDict d /\
     map fst d = ["DestinationId"] /\
     assoc "DestinationId" d = Some destination_id).
Proof.
  repeat split.
  - eexists. cbn. repeat split.
  - do 3 eexists. cbn. repeat split.
    + apply fresh_ref_unused.
    + apply lookup_insert_eq.
  - do 2 eexists. cbn. repeat split.
  - do 2 eexists. cbn. repeat split.
Qed.

(** C3. [create_group_ex] queues exactly one query [CreateGroupEx] whose
    payload has the keys [displayName], [alias], [isPublic] and
    [optionalParams] bound to the arguments, and returns the new
    [GroupSiteInfo] that is the return type of that query; [delete] queues
    exactly one query [Delete] whose payload has the key [siteUrl]. *)
Theorem C3_group_site_manager_payload (self : ref)
    (display_name alias is_public optional_params site_url : pyval) (w : World) :
  let created := GroupSiteManager.create_group_ex self display_name alias
                   is_public optional_params w in
  let deleted := GroupSiteManager.delete self site_url w in
  (exists q info d,
     fst created = Ok info /\
     queries (snd created) = queries w ++ [q] /\
     kind q = ServiceOperation /\ binding_type q = self /\
     method_name q = Some "CreateGroupEx" /\ parameter_type q = VDict d /\
     map fst d = ["displayName"; "alias"; "isPublic"; "optionalParams"] /\
     assoc "displayName" d = Some display_name /\
     assoc "alias" d = Some alias /\
     assoc "isPublic" d = Some is_public /\
     assoc "optionalParams" d = Some optional_params /\
     return_type q = Some info /\
     heap w !! info = None /\
     heap (snd created) !! info = Some GroupSiteInfo_obj) /\
  (exists q d,
     fst deleted = Ok tt /\
     queries (snd deleted) = queries w ++ [q] /\
     kind q = ServiceOperation /\ binding_type q = self /\
     method_name q = Some "Delete" /\ parameter_type q = VDict d /\
     map fst d = ["siteUrl"] /\
     assoc "siteUrl" d = Some site_url /\
     return_type q = None).
Proof.
  cbn zeta. split.
  - do 3 eexists. cbn. repeat split.
    + apply fresh_ref_unused.
    + apply lookup_insert_eq.
  - do 2 eexists. cbn. repeat split.
Qed.

(** * Properties of a message *)

Section MessageProperties.

Variables (self : ref) (rp : option ResourcePath) (props : gmap string pyval).
Variable w : World.
Hypothesis Hself : heap w !! self = Some (Message_obj rp props).

Lemma properties_read : ClientObject.properties self w = (Ok props, w).
Proof. unfold ClientObject.properties, load; monad_run. rewrite Hself. reflexivity. Qed.

Lemma resource_path_read : ClientObject.resource_path self w = (Ok rp, w).
Proof. unfold ClientObject.resource_path, load; monad_run. rewrite Hself. reflexivity. Qed.

Lemma attachments_read :
  Message.attachments self w
  = (Ok (dict_get props "attachments" (VRef (fresh (dom (heap w))))),
     set_heap <[fresh (dom (heap w)) :=
                  AttachmentCollection_obj
                    (Some (ResourcePath_new "attachments" rp)) None []]> w).
Proof.
  unfold Message.attachments.
  rewrite (mbind_ok _ _ _ _ _ properties_read).
  rewrite (mbind_ok _ _ _ _ _ resource_path_read).
  reflexivity.
Qed.

Lemma set_property_write (name : string) (value : pyval) :
  ClientObject.set_property self name value w
  = (Ok tt, set_heap <[self := Message_obj rp (<[name := value]> props)]> w).
Proof.
  unfold ClientObject.set_property, load, store; monad_run.
  rewrite Hself. reflexivity.
Qed.

(** C5. When the property map of a message lacks the key, the getters give
    lazy defaults without fetching and without touching the map:
    [attachments] a new [AttachmentCollection] under the resource path of the
    message, [toRecipients] an empty [ClientValueCollection] of [Recipient],
    [subject] and [hasAttachments] [None]; the message object is the same
    after the call. *)
Theorem C5_lazy_property_defaults :
  (props !! "attachments" = None ->
   exists c,
     Message.attachments self w
     = (Ok (VRef c),
        set_heap <[c := AttachmentCollection_obj
                          (Some (ResourcePath_new "attachments" rp)) None []]> w)
     /\ heap w !! c = None
     /\ heap (snd (Message.attachments self w)) !! self
        = Some (Message_obj rp props)
     /\ queries (snd (Message.attachments self w)) = queries w
     /\ dispatched (snd (Message.attachments self w)) = dispatched w) /\
  (props !! "toRecipients" = None ->
   Message.to_recipients self w = (Ok (VCollection "Recipient" []), w)) /\
  (props !! "subject" = None -> Message.subject self w = (Ok VNone, w)) /\
  (props !! "hasAttachments" = None ->
   Message.has_attachments self w = (Ok VNone, w)).
Proof.
  repeat split.
  - intros Hkey. exists (fresh (dom (heap w))).
    rewrite attachments_read. unfold dict_get. rewrite Hkey. cbn.
    repeat split.
    + apply fresh_ref_unused.
    + rewrite lookup_insert_ne; [exact Hself|].
      intros E. pose proof (fresh_ref_unused w) as Hf.
      rewrite E, Hself in Hf. discriminate.
  - intros Hkey. unfold Message.to_recipients.
    rewrite (mbind_ok _ _ _ _ _ properties_read).
    unfold dict_get. rewrite Hkey. reflexivity.
  - intros Hkey. unfold Message.subject.
    rewrite (mbind_ok _ _ _ _ _ properties_read).
    unfold dict_get. rewrite Hkey. reflexivity.
  - intros Hkey. unfold Message.has_attachments.
    rewrite (mbind_ok _ _ _ _ _ properties_read).
    unfold dict_get. rewrite Hkey. reflexivity.
Qed.

End MessageProperties.

Section MessageBody.

Variables (self : ref) (rp : option ResourcePath) (props : gmap string pyval).
Variable w : World.
Hypothesis Hself : heap w !! self = Some (Message_obj rp props).

Abbreviation with_body := (with_body self rp props w).

Lemma with_body_self (x : pyval) :
  heap (with_body x) !! self = Some (Message_obj rp (<["body" := x]> props)).
Proof. apply lookup_insert_eq. Qed.

Lemma body_read_back (x : pyval) :
  isinstance_ItemBody x = true ->
  Message.body self (with_body x) = (Ok x, with_body x).
Proof.
  intros Hx. unfold Message.body, Message.get_property. cbn [ItemBody is_None].
  rewrite (mbind_ok _ _ _ _ _ (mret_run _ _)).
  unfold ClientObject.get_property.
  rewrite (mbind_ok _ _ _ _ _ (properties_read _ _ _ _ (with_body_self x))).
  unfold dict_get. rewrite lookup_insert_eq. reflexivity.
Qed.

Lemma set_body_again (x : pyval) :
  isinstance_ItemBody x = true ->
  Message.set_body self x (with_body x) = (Ok tt, with_body x).
Proof.
  intros Hx. unfold Message.set_body. rewrite Hx. cbn [negb].
  rewrite (set_property_write _ _ _ _ (with_body_self x)).
  unfold with_body, set_heap; cbn. rewrite !insert_insert_eq. reflexivity.
Qed.

(** C7. The [body] setter and getter form a round trip: after
    [msg.body = v] with a string [v] the stored property is [ItemBody(v)] and
    the getter returns it; a value that is already an [ItemBody] is stored as
    it is; assigning the result of the getter back leaves the message as it
    was. *)
Theorem C7_body_round_trip (v : pystr) (c : option pyval) :
  (Message.set_body self (VStr v) w
     = (Ok tt, with_body (ItemBody (Some (VStr v)))) /\
   Message.body self (with_body (ItemBody (Some (VStr v))))
     = (Ok (ItemBody (Some (VStr v))), with_body (ItemBody (Some (VStr v)))) /\
   Message.set_body self (ItemBody (Some (VStr v)))
       (with_body (ItemBody (Some (VStr v))))
     = (Ok tt, with_body (ItemBody (Some (VStr v))))) /\
  (Message.set_body self (VItemBody c) w = (Ok tt, with_body (VItemBody c)) /\
   Message.body self (with_body (VItemBody c))
     = (Ok (VItemBody c), with_body (VItemBody c)) /\
   Message.set_body self (VItemBody c) (with_body (VItemBody c))
     = (Ok tt, with_body (VItemBody c))).
Proof.
  repeat split.
  - unfold Message.set_body. cbn [isinstance_ItemBody negb].
    apply set_property_write, Hself.
  - apply body_read_back; reflexivity.
  - apply set_body_again; reflexivity.
  - unfold Message.set_body. cbn [isinstance_ItemBody negb].
    apply set_property_write, Hself.
  - apply body_read_back; reflexivity.
  - apply set_body_again; reflexivity.
Qed.

End MessageBody.

(** * Attachments *)

Section ObjectAccess.

Variable w : World.

Lemma add_child_run (r child : ref) rp ow cs :
  heap w !! r = Some (AttachmentCollection_obj rp ow cs) ->
  AttachmentCollection.add_child (VRef r) child w
  = (Ok tt, set_heap <[r := AttachmentCollection_obj rp ow (cs ++ [child])]> w).
Proof.
  intros H. unfold AttachmentCollection.add_child, as_ref, load, store; monad_run.
  rewrite H. reflexivity.
Qed.

Lemma track_changes_run (r owner : ref) rp ow cs :
  heap w !! r = Some (AttachmentCollection_obj rp ow cs) ->
  AttachmentCollection.track_changes (VRef r) owner w
  = (Ok (VRef r), set_heap <[r := AttachmentCollection_obj rp (Some owner) cs]> w).
Proof.
  intros H. unfold AttachmentCollection.track_changes, as_ref, load, store; monad_run.
  rewrite H. reflexivity.
Qed.

Lemma set_name_run (r : ref) (v n cb ct : pyval) :
  heap w !! r = Some (FileAttachment_obj n cb ct) ->
  FileAttachment.set_name r v w
  = (Ok tt, set_heap <[r := FileAttachment_obj v cb ct]> w).
Proof.
  intros H. unfold FileAttachment.set_name, load, store; monad_run.
  rewrite H. reflexivity.
Qed.

Lemma set_content_bytes_run (r : ref) (v n cb ct : pyval) :
  heap w !! r = Some (FileAttachment_obj n cb ct) ->
  FileAttachment.set_content_bytes r v w
  = (Ok tt, set_heap <[r := FileAttachment_obj n v ct]> w).
Proof.
  intros H. unfold FileAttachment.set_content_bytes, load, store; monad_run.
  rewrite H. reflexivity.
Qed.

Lemma set_content_type_run (r : ref) (v n cb ct : pyval) :
  heap w !! r = Some (FileAttachment_obj n cb ct) ->
  FileAttachment.set_content_type r v w
  = (Ok tt, set_heap <[r := FileAttachment_obj n cb v]> w).
Proof.
  intros H. unfold FileAttachment.set_content_type, load, store; monad_run.
  rewrite H. reflexivity.
Qed.

End ObjectAccess.

Lemma same_context_refl w : same_context w w.
Proof. repeat split. Qed.

Lemma same_context_set_heap f w w' :
  same_context w w' -> same_context w (set_heap f w').
Proof. intros H; exact H. Qed.

Section NewAttachment.

Variables (self : ref) (rp : option ResourcePath) (props : gmap string pyval).
Variable w : World.
Hypothesis Hself : heap w !! self = Some (Message_obj rp props).
Hypothesis Husable : attachments_usable w props.

Abbreviation rt := (fresh (dom (heap w))).

(** The first statements of [add_file_attachment] and [upload_attachment]:
    a new [FileAttachment] is made a child of the attachments of the
    message. *)
Lemma new_attachment_added (track : bool) :
  exists atts w3,
    (atts0 ← Message.attachments self;
     tracked ← (if track then AttachmentCollection.track_changes atts0 self
                else mret atts0);
     AttachmentCollection.add_child tracked rt;; mret tracked)
      (set_heap <[rt := FileAttachment_obj VNone VNone VNone]> w)
    = (Ok atts, w3)
    /\ heap w3 !! rt = Some (FileAttachment_obj VNone VNone VNone)
    /\ heap w3 !! self = Some (Message_obj rp props)
    /\ attachments_usable w3 props
    /\ same_context w w3.
Proof.
  pose proof (fresh_ref_unused w) as Hrt. fold rt in Hrt.
  assert (Hne : self <> rt) by (intros E; rewrite E, Hrt in Hself; discriminate).
  set (w1 := set_heap <[rt := FileAttachment_obj VNone VNone VNone]> w).
  assert (Hself1 : heap w1 !! self = Some (Message_obj rp props)).
  { unfold w1; cbn. rewrite lookup_insert_ne; auto. }
  assert (Hrt1 : heap w1 !! rt = Some (FileAttachment_obj VNone VNone VNone)).
  { unfold w1; cbn. apply lookup_insert_eq. }
  pose proof (fresh_ref_unused w1) as Hc. set (c := fresh (dom (heap w1))) in *.
  assert (Hcrt : c <> rt) by (intros E; rewrite E, Hrt1 in Hc; discriminate).
  assert (Hcself : c <> self) by (intros E; rewrite E, Hself1 in Hc; discriminate).
  rewrite (mbind_ok _ _ _ _ _ (attachments_read _ _ _ _ Hself1)). fold c.
  set (coll := AttachmentCollection_obj (Some (ResourcePath_new "attachments" rp))
                 None []).
  set (w2 := set_heap <[c := coll]> w1).
  assert (Htarget : exists r rp' ow cs,
             dict_get props "attachments" (VRef c) = VRef r
             /\ heap w2 !! r = Some (AttachmentCollection_obj rp' ow cs)
             /\ r <> rt /\ r <> self).
  { unfold dict_get, attachments_usable in *.
    destruct (props !! "attachments") as [v|]; cbn.
    - destruct Husable as (r & rp' & ow & cs & -> & Hr).
      assert (r <> rt) by (intros E; rewrite E, Hrt in Hr; discriminate).
      assert (r <> self) by (intros E; rewrite E, Hself in Hr; discriminate).
      assert (r <> c).
      { intros E. rewrite <- E in Hc. unfold w1 in Hc; cbn in Hc.
        rewrite lookup_insert_ne, Hr in Hc by auto. discriminate. }
      exists r, rp', ow, cs. repeat split; auto.
      unfold w2, w1; cbn. rewrite !lookup_insert_ne by auto. exact Hr.
    - exists c, (Some (ResourcePath_new "attachments" rp)), None, [].
      repeat split; auto. unfold w2; cbn. apply lookup_insert_eq. }
  destruct Htarget as (r & rp' & ow & cs & -> & Hr & Hrrt & Hrself).
  assert (Hkeep : forall o (w' : World),
             heap w' !! rt = Some (FileAttachment_obj VNone VNone VNone) ->
             heap w' !! self = Some (Message_obj rp props) ->
             heap (set_heap <[r := o]> w') !! rt
               = Some (FileAttachment_obj VNone VNone VNone)
             /\ heap (set_heap <[r := o]> w') !! self = Some (Message_obj rp props)).
  { intros o w' H1 H2; cbn. rewrite !lookup_insert_ne by auto. auto. }
  assert (Hrt2 : heap w2 !! rt = Some (FileAttachment_obj VNone VNone VNone)).
  { unfold w2; cbn. rewrite lookup_insert_ne by auto. exact Hrt1. }
  assert (Hself2 : heap w2 !! self = Some (Message_obj rp props)).
  { unfold w2; cbn. rewrite lookup_insert_ne by auto. exact Hself1. }
  assert (Huse : forall o rp0 ow0 cs0 (w' : World),
             o = AttachmentCollection_obj rp0 ow0 cs0 ->
             heap w' !! r = Some o ->
             (forall k, k <> r -> heap w' !! k = heap w2 !! k) ->
             attachments_usable w' props).
  { intros o rp0 ow0 cs0 w' -> Hr' Hothers. unfold attachments_usable in *.
    destruct (props !! "attachments") as [v|] eqn:Ev; [|exact I].
    destruct Husable as (r0 & rp0' & ow0' & cs0' & -> & Hr0).
    destruct (decide (r0 = r)) as [->|Hd].
    - eauto 10.
    - exists r0, rp0', ow0', cs0'. split; [reflexivity|].
      rewrite Hothers by auto. unfold w2, w1; cbn.
      assert (r0 <> rt) by (intros E; rewrite E, Hrt in Hr0; discriminate).
      assert (r0 <> c).
      { intros E. rewrite <- E in Hc. unfold w1 in Hc; cbn in Hc.
        rewrite lookup_insert_ne, Hr0 in Hc by auto. discriminate. }
      rewrite !lookup_insert_ne by auto. exact Hr0. }
  destruct track.
  - rewrite (mbind_ok _ _ _ _ _ (track_changes_run _ _ _ _ _ _ Hr)).
    set (w2' := set_heap <[r := AttachmentCollection_obj rp' (Some self) cs]> w2).
    assert (Hr2 : heap w2' !! r = Some (AttachmentCollection_obj rp' (Some self) cs))
      by apply lookup_insert_eq.
    rewrite (mbind_ok _ _ _ _ _ (add_child_run _ _ _ _ _ _ Hr2)).
    do 2 eexists. split; [reflexivity|].
    destruct (Hkeep (AttachmentCollection_obj rp' (Some self) cs) w2 Hrt2 Hself2)
      as [K1 K2].
    destruct (Hkeep (AttachmentCollection_obj rp' (Some self) (cs ++ [rt])) w2' K1 K2)
      as [K3 K4].
    split; [exact K3|]. split; [exact K4|]. split; [|repeat split].
    eapply Huse; [reflexivity | apply lookup_insert_eq |].
    intros k Hk. cbn. rewrite !lookup_insert_ne by auto. reflexivity.
  - rewrite (mbind_ok _ _ _ _ _ (mret_run _ _)).
    rewrite (mbind_ok _ _ _ _ _ (add_child_run _ _ _ _ _ _ Hr)).
    do 2 eexists. split; [reflexivity|].
    destruct (Hkeep (AttachmentCollection_obj rp' ow (cs ++ [rt])) w2 Hrt2 Hself2)
      as [K3 K4].
    split; [exact K3|]. split; [exact K4|]. split; [|repeat split].
    eapply Huse; [reflexivity | apply lookup_insert_eq |].
    intros k Hk. cbn. rewrite !lookup_insert_ne by auto. reflexivity.
Qed.

End NewAttachment.

Section AddFileAttachment.

Variables (self : ref) (rp : option ResourcePath) (props : gmap string pyval).
Variable w : World.
Hypothesis Hself : heap w !! self = Some (Message_obj rp props).
Hypothesis Husable : attachments_usable w props.

Abbreviation rt := (fresh (dom (heap w))).

(** What [add_file_attachment] does once the content is encoded. *)
Lemma add_file_attachment_run (name content_type : pyval) (content : pystr) :
  exists w3,
    heap w3 !! rt = Some (FileAttachment_obj VNone VNone VNone) /\
    same_context w w3 /\
    Message.add_file_attachment self name content content_type w
    = match Codec.utf8_encode content with
      | Some encoded =>
          (Ok rt,
           set_heap <[rt := FileAttachment_obj name
                              (VStr (Codec.b64encode encoded)) content_type]> w3)
      | None =>
          (Raise UnicodeEncodeError,
           set_heap <[rt := FileAttachment_obj name VNone VNone]> w3)
      end.
Proof.
  destruct (new_attachment_added self rp props w Hself Husable false)
    as (atts & w3 & Hrun & Hrt & _ & _ & Hctx).
  fold rt in Hrun, Hrt.
  exists w3. split; [exact Hrt|]. split; [exact Hctx|].
  unfold Message.add_file_attachment.
  revert Hrun.
  unfold mbind, M_bind, bind, FileAttachment.new, alloc, mret, M_ret, ret. fold rt.
  destruct (Message.attachments self _) as [[a|e] w2]; [|discriminate].
  destruct (AttachmentCollection.add_child a rt w2) as [[[]|e] w2']; [|discriminate].
  intros [= -> ->].
  rewrite (set_name_run _ _ _ _ _ _ Hrt).
  unfold str_encode_utf8, mret, M_ret, ret, raise.
  destruct (Codec.utf8_encode content) as [encoded|]; [|reflexivity].
  unfold bytes_decode_utf8.
  rewrite (utf8_decode_ascii _ (b64encode_ascii encoded)).
  unfold mret, M_ret, ret.
  erewrite set_content_bytes_run by apply lookup_insert_eq.
  erewrite set_content_type_run by apply lookup_insert_eq.
  unfold set_heap; cbn. rewrite !insert_insert_eq. reflexivity.
Qed.

End AddFileAttachment.

Section UploadAttachment.

Variables (self : ref) (rp : option ResourcePath) (props : gmap string pyval).
Variable w : World.
Variables (file_path : pystr) (bytes : pybytes).
Hypothesis Hself : heap w !! self = Some (Message_obj rp props).
Hypothesis Husable : attachments_usable w props.
Hypothesis Hfile : disk w file_path = Some bytes.

Abbreviation rt := (fresh (dom (heap w))).

(** The closure [_message_loaded] opens one upload session on the attachments
    of the message. *)
Lemma message_loaded_run (chunk : N) (r0 : ref) :
  exists coll,
    upload_sessions (snd (Message._message_loaded self file_path chunk r0 w))
    = upload_sessions w ++ [(coll, file_path, chunk, r0)].
Proof.
  unfold Message._message_loaded.
  rewrite (mbind_ok _ _ _ _ _ (attachments_read _ _ _ _ Hself)).
  unfold dict_get, attachments_usable in *.
  destruct (props !! "attachments") as [v|]; cbn.
  - destruct Husable as (r & ? & ? & ? & -> & _). exists r. reflexivity.
  - eexists. reflexivity.
Qed.

Lemma upload_attachment_run :
  exists w3,
    heap w3 !! rt = Some (FileAttachment_obj VNone VNone VNone) /\
    heap w3 !! self = Some (Message_obj rp props) /\
    attachments_usable w3 props /\
    same_context w w3 /\
    Message.upload_attachment self file_path w
    = if 3000000 <? N.of_nat (length bytes) then
        (Ok self,
         set_ensure_pending
           (fun l => l ++ [(self, "id",
                            message_loaded self file_path 3000000 rt)]) w3)
      else
        (Ok self,
         set_heap <[rt := FileAttachment_obj (VStr (Codec.basename file_path))
                            (VStr (Codec.b64encode bytes)) VNone]> w3).
Proof.
  destruct (new_attachment_added self rp props w Hself Husable true)
    as (atts & w3 & Hrun & Hrt & Hself3 & Huse3 & Hctx).
  fold rt in Hrun, Hrt.
  exists w3. do 4 (split; [assumption|]).
  assert (Hdisk : disk w3 file_path = Some bytes).
  { destruct Hctx as (_ & _ & _ & _ & _ & _ & ->). exact Hfile. }
  unfold Message.upload_attachment.
  revert Hrun.
  unfold mbind, M_bind, bind, FileAttachment.new, alloc, mret, M_ret, ret. fold rt.
  destruct (Message.attachments self _) as [[a|e] w2]; [|discriminate].
  destruct (AttachmentCollection.track_changes a self w2) as [[t|e] w2'];
    [|discriminate].
  destruct (AttachmentCollection.add_child t rt w2') as [[[]|e] w2'']; [|discriminate].
  intros [= -> ->].
  unfold os_stat_st_size. rewrite Hdisk.
  change (1000000 * 3) with 3000000.
  destruct (3000000 <? N.of_nat (length bytes)); [reflexivity|].
  unfold open_rb_read. rewrite Hdisk.
  unfold bytes_decode_utf8.
  rewrite (utf8_decode_ascii _ (b64encode_ascii bytes)).
  unfold mret, M_ret, ret.
  rewrite (set_content_bytes_run _ _ _ _ _ _ Hrt).
  erewrite set_name_run by apply lookup_insert_eq.
  unfold set_heap; cbn. rewrite !insert_insert_eq. reflexivity.
Qed.

End UploadAttachment.

(** C4. [upload_attachment] chooses by one threshold of 3,000,000 bytes on the
    size of the file.  Above it, once the [id] property of the message is
    ensured, a resumable upload with chunk size 3,000,000 is scheduled and
    nothing is read inline.  At or below it (3,000,000 included) the content of
    the file is stored base64-encoded on the new [FileAttachment], whose name is
    the basename of the file. *)
Theorem C4_upload_attachment_threshold (self : ref) (rp : option ResourcePath)
    (props : gmap string pyval) (w : World) (file_path : pystr) (bytes : pybytes) :
  heap w !! self = Some (Message_obj rp props) ->
  attachments_usable w props ->
  disk w file_path = Some bytes ->
  let rt := fresh (dom (heap w)) in
  let r := Message.upload_attachment self file_path w in
  fst r = Ok self /\ heap w !! rt = None /\
  (3000000 < N.of_nat (length bytes) ->
   heap (snd r) !! rt = Some (FileAttachment_obj VNone VNone VNone) /\
   ensure_pending (snd r)
     = ensure_pending w
       ++ [(self, "id", message_loaded self file_path 3000000 rt)] /\
   upload_sessions (snd r) = upload_sessions w /\
   exists coll,
     upload_sessions
       (snd (Message._message_loaded self file_path 3000000 rt (snd r)))
     = upload_sessions w ++ [(coll, file_path, 3000000, rt)]) /\
  (N.of_nat (length bytes) <= 3000000 ->
   heap (snd r) !! rt
     = Some (FileAttachment_obj (VStr (Codec.basename file_path))
               (VStr (Codec.b64encode bytes)) VNone) /\
   ensure_pending (snd r) = ensure_pending w /\
   upload_sessions (snd r) = upload_sessions w).
Proof.
  intros Hself Husable Hfile rt r.
  destruct (upload_attachment_run self rp props w file_path bytes Hself Husable Hfile)
    as (w3 & Hrt & Hself3 & Huse3 & Hctx & Hrun).
  fold rt in Hrt, Hrun. fold r in Hrun.
  destruct Hctx as (Hq & Hb & Ha & Hd & He & Hu & Hk).
  split; [|split; [apply fresh_ref_unused|split]].
  - rewrite Hrun. destruct (3000000 <? _); reflexivity.
  - intros Hbig. apply N.ltb_lt in Hbig. rewrite Hbig in Hrun. rewrite Hrun. cbn.
    split; [exact Hrt|]. split; [rewrite He; reflexivity|]. split; [exact Hu|].
    destruct (message_loaded_run self rp props
                (set_ensure_pending
                   (fun l => l ++ [(self, "id",
                                    message_loaded self file_path 3000000 rt)]) w3)
                file_path Hself3 Huse3 3000000 rt) as [coll Hc].
    exists coll. rewrite Hc. cbn. rewrite Hu. reflexivity.
  - intros Hsmall. apply N.ltb_ge in Hsmall. rewrite Hsmall in Hrun.
    rewrite Hrun. cbn.
    split; [apply lookup_insert_eq|]. split; assumption.
Qed.

(** C9, as the code has it. [add_file_attachment] stores a lossless encoding
    of every content that UTF-8 can encode, that is every string without a
    surrogate code point: the [content_bytes] of the returned
    [FileAttachment] is the base64 text of the UTF-8 octets of the content, and
    decoding it from base64 and then from UTF-8 gives the content back. *)
Theorem C9_add_file_attachment_lossless (self : ref) (rp : option ResourcePath)
    (props : gmap string pyval) (w : World) (name content_type : pyval)
    (content : pystr) :
  heap w !! self = Some (Message_obj rp props) ->
  attachments_usable w props ->
  Forall is_scalar content ->
  let r := Message.add_file_attachment self name content content_type w in
  exists rt encoded text,
    fst r = Ok rt /\ heap w !! rt = None /\
    heap (snd r) !! rt = Some (FileAttachment_obj name (VStr text) content_type) /\
    Codec.utf8_encode content = Some encoded /\
    text = Codec.b64encode encoded /\
    Codec.b64decode_str text = Some encoded /\
    Codec.utf8_decode encoded = Some content.
Proof.
  intros Hself Husable Hscalar r.
  destruct (add_file_attachment_run self rp props w Hself Husable name content_type
              content) as (w3 & Hrt & _ & Hrun).
  fold r in Hrun.
  destruct (utf8_encode_scalar content Hscalar) as [encoded Henc].
  rewrite Henc in Hrun.
  exists (fresh (dom (heap w))), encoded, (Codec.b64encode encoded).
  rewrite Hrun; cbn.
  split; [reflexivity|]. split; [apply fresh_ref_unused|].
  split; [apply lookup_insert_eq|]. split; [exact Henc|]. split; [reflexivity|].
  split.
  - apply b64decode_str_encode. eapply utf8_encode_octets; eauto.
  - apply utf8_decode_encode; assumption.
Qed.

(** ** Worked inputs *)

Lemma C4_upload_attachment_threshold_witness :
  heap draft_world !! 0%nat = Some (Message_obj None ∅) /\
  attachments_usable draft_world ∅ /\
  disk draft_world (lit "/tmp/a.txt") = Some (lit "hello") /\
  fst (Message.upload_attachment 0 (lit "/tmp/a.txt") draft_world) = Ok 0%nat /\
  (N.of_nat (length (lit "hello")) <= 3000000 ->
   heap (snd (Message.upload_attachment 0 (lit "/tmp/a.txt") draft_world))
     !! fresh (dom (heap draft_world))
   = Some (FileAttachment_obj (VStr (Codec.basename (lit "/tmp/a.txt")))
             (VStr (Codec.b64encode (lit "hello"))) VNone)).
Proof.
  assert (H1 : heap draft_world !! 0%nat = Some (Message_obj None ∅))
    by reflexivity.
  assert (H2 : attachments_usable draft_world ∅) by exact I.
  assert (H3 : disk draft_world (lit "/tmp/a.txt") = Some (lit "hello"))
    by reflexivity.
  split; [exact H1|]. split; [exact H2|]. split; [exact H3|].
  destruct (C4_upload_attachment_threshold 0 None ∅ draft_world (lit "/tmp/a.txt")
              (lit "hello") H1 H2 H3) as (Hr & _ & _ & Hsmall).
  split; [exact Hr|]. intros Hle. exact (proj1 (Hsmall Hle)).
Defined.

Lemma C9_add_file_attachment_lossless_witness :
  heap draft_world !! 0%nat = Some (Message_obj None ∅) /\
  attachments_usable draft_world ∅ /\
  Forall is_scalar [0x68; 0xE9; 0x20AC; 0x1F600] /\
  exists rt encoded text,
    fst (Message.add_file_attachment 0 (VStr (lit "a.txt"))
           [0x68; 0xE9; 0x20AC; 0x1F600] VNone draft_world) = Ok rt /\
    heap draft_world !! rt = None /\
    heap (snd (Message.add_file_attachment 0 (VStr (lit "a.txt"))
                 [0x68; 0xE9; 0x20AC; 0x1F600] VNone draft_world)) !! rt
    = Some (FileAttachment_obj (VStr (lit "a.txt")) (VStr text) VNone) /\
    Codec.utf8_encode [0x68; 0xE9; 0x20AC; 0x1F600] = Some encoded /\
    text = Codec.b64encode encoded /\
    Codec.b64decode_str text = Some encoded /\
    Codec.utf8_decode encoded = Some [0x68; 0xE9; 0x20AC; 0x1F600].
Proof.
  assert (H1 : heap draft_world !! 0%nat = Some (Message_obj None ∅))
    by reflexivity.
  assert (H2 : attachments_usable draft_world ∅) by exact I.
  assert (H3 : Forall is_scalar [0x68; 0xE9; 0x20AC; 0x1F600]).
  { repeat constructor; unfold is_scalar; lia. }
  split; [exact H1|]. split; [exact H2|]. split; [exact H3|].
  exact (C9_add_file_attachment_lossless 0 None ∅ draft_world (VStr (lit "a.txt"))
           VNone [0x68; 0xE9; 0x20AC; 0x1F600] H1 H2 H3).
Defined.

(** C9 as stated fails on a string with a surrogate code point: [str.encode]
    raises, no [FileAttachment] is returned and none holds content bytes. *)
Lemma C9_lone_surrogate_counterexample :
  let r := Message.add_file_attachment 0 (VStr (lit "a.txt")) [0xD800] VNone
             draft_world in
  fst r = Raise UnicodeEncodeError /\
  Codec.utf8_encode [0xD800] = None /\
  ~ (exists rt text ct,
       fst r = Ok rt /\
       heap (snd r) !! rt = Some (FileAttachment_obj (VStr (lit "a.txt"))
                                    (VStr text) ct)).
Proof.
  cbn zeta.
  assert (H : fst (Message.add_file_attachment 0 (VStr (lit "a.txt")) [0xD800]
                     VNone draft_world) = Raise UnicodeEncodeError)
    by (vm_compute; reflexivity).
  split; [exact H|]. split; [reflexivity|].
  intros (rt & text & ct & Hok & _). rewrite H in Hok. discriminate.
Qed.

(** * Draft payload of [MessageCollection.add] *)

Lemma call_with_kwargs_clash {A} (f : list (string * pyval) -> M A)
    (named kwargs : list (string * pyval)) (k : string) (w : World) :
  In k (map fst named) -> In k (map fst kwargs) ->
  MessageCollection.call_with_kwargs f named kwargs w = (Raise TypeError, w).
Proof.
  intros Hn Hk. unfold MessageCollection.call_with_kwargs.
  assert (E : existsb (fun k0 => existsb (String.eqb k0) (map fst named))
                (map fst kwargs) = true).
  { apply existsb_exists. exists k. split; [exact Hk|].
    apply existsb_exists. exists k. split; [exact Hn|apply String.eqb_refl]. }
  rewrite E. reflexivity.
Qed.

Lemma call_with_kwargs_free {A} (f : list (string * pyval) -> M A)
    (named kwargs : list (string * pyval)) (w : World) :
  (forall k, In k (map fst kwargs) -> ~ In k (map fst named)) ->
  MessageCollection.call_with_kwargs f named kwargs w = f (named ++ kwargs) w.
Proof.
  intros Hfree. unfold MessageCollection.call_with_kwargs.
  assert (E : existsb (fun k0 => existsb (String.eqb k0) (map fst named))
                (map fst kwargs) = false).
  { apply not_true_is_false. intros Ht.
    apply existsb_exists in Ht as (k & Hk & Hex).
    apply existsb_exists in Hex as (k' & Hk' & Heq).
    apply String.eqb_eq in Heq. subst k'. exact (Hfree k Hk Hk'). }
  rewrite E. reflexivity.
Qed.

Lemma add_free_call (self : ref) (subject body : pyval)
    (to_recipients : option (list pyval)) (kwargs : list (string * pyval))
    (w : World) :
  (forall k, In k (map fst kwargs) -> ~ In k ["body"; "subject"; "toRecipients"]) ->
  MessageCollection.add self subject body to_recipients kwargs w
  = MessageCollection.super_add self
      (MessageCollection.add_kwargs subject body to_recipients ++ kwargs) w.
Proof.
  intros Hfree. unfold MessageCollection.add. apply call_with_kwargs_free.
  exact Hfree.
Qed.

Lemma add_queues_payload (self : ref) (subject body : pyval)
    (to_recipients : option (list pyval)) (w : World) :
  exists q,
    queries (snd (MessageCollection.add self subject body to_recipients [] w))
    = queries w ++ [q] /\
    kind q = CreateEntity /\
    parameter_type q
    = VDict (MessageCollection.add_kwargs subject body to_recipients).
Proof. eexists. cbn. repeat split. Qed.

(** C6. [MessageCollection.add] normalises its inputs into the fixed draft
    payload: a body that is an [ItemBody] is passed as it is, any other body is
    wrapped as [ItemBody(body)]; [to_recipients=None] is the same as the empty
    list; the [toRecipients] value is the input list mapped in order through
    [Recipient.from_email], so it has the length of the input.  These three
    are the keyword arguments that [add] itself hands to the inherited [add],
    ahead of the extra ones it was given: they are the payload of the one
    query that the call queues and the fields of the draft that it returns. *)
Theorem C6_add_normalises_inputs (self : ref) (subject body : pyval)
    (c : option pyval) (to_recipients : list pyval)
    (given : option (list pyval))
    (kwargs : list (string * pyval)) (w : World) :
  assoc "body" (MessageCollection.add_kwargs subject (VItemBody c)
                  (Some to_recipients)) = Some (VItemBody c) /\
  (isinstance_ItemBody body = false ->
   assoc "body" (MessageCollection.add_kwargs subject body (Some to_recipients))
   = Some (ItemBody (Some body))) /\
  MessageCollection.add_kwargs subject body None
  = MessageCollection.add_kwargs subject body (Some []) /\
  MessageCollection.add self subject body None kwargs w
  = MessageCollection.add self subject body (Some []) kwargs w /\
  (exists items,
     assoc "toRecipients"
       (MessageCollection.add_kwargs subject body (Some to_recipients))
     = Some (VCollection "Recipient" items) /\
     items = map Recipient_from_email to_recipients /\
     length items = length to_recipients /\
     forall i, items !! i = Recipient_from_email <$> to_recipients !! i) /\
  map fst (MessageCollection.add_kwargs subject body (Some to_recipients))
  = ["body"; "subject"; "toRecipients"] /\
  assoc "subject" (MessageCollection.add_kwargs subject body (Some to_recipients))
  = Some subject /\
  ((forall k, In k (map fst kwargs) -> ~ In k ["body"; "subject"; "toRecipients"]) ->
   let payload :=
     [("body", if isinstance_ItemBody body then body else ItemBody (Some body));
      ("subject", subject);
      ("toRecipients",
       VCollection "Recipient" (map Recipient_from_email (default [] given)))]
     ++ kwargs in
   let res := MessageCollection.add self subject body given kwargs w in
   res = MessageCollection.super_add self payload w /\
   exists draft q,
     fst res = Ok draft /\ heap w !! draft = None /\
     heap (snd res) !! draft = Some (Message_obj None (list_to_map payload)) /\
     queries (snd res) = queries w ++ [q] /\
     kind q = CreateEntity /\ binding_type q = self /\
     parameter_type q = VDict payload /\ return_type q = Some draft /\
     dispatched (snd res) = dispatched w).
Proof.
  split; [reflexivity|]. split.
  { intros Hb. cbn. rewrite Hb. reflexivity. }
  split; [reflexivity|]. split; [reflexivity|]. split.
  { eexists. split; [reflexivity|]. split; [reflexivity|].
    split; [apply length_map|]. intros i. apply list_lookup_fmap. }
  split; [reflexivity|]. split; [reflexivity|].
  intros Hfree payload res.
  assert (Hcall : res = MessageCollection.super_add self payload w).
  { subst res payload.
    rewrite (add_free_call self subject body given kwargs w Hfree).
    destruct given; reflexivity. }
  split; [exact Hcall|]. rewrite Hcall.
  exists (fresh (dom (heap w))). eexists.
  split; [reflexivity|]. split; [apply fresh_ref_unused|].
  split; [apply lookup_insert_eq|]. repeat split.
Qed.

Lemma C6_add_normalises_inputs_witness :
  isinstance_ItemBody (VStr (lit "Hello")) = false /\
  (forall k, In k (map fst [("importance", VStr (lit "high"))]) ->
             ~ In k ["body"; "subject"; "toRecipients"]) /\
  assoc "body" (MessageCollection.add_kwargs (VStr (lit "Subject"))
                  (VStr (lit "Hello"))
                  (Some [VStr (lit "a@b.c"); VStr (lit "d@e.f")]))
  = Some (ItemBody (Some (VStr (lit "Hello")))) /\
  exists draft q,
    fst (MessageCollection.add 0 (VStr (lit "Subject")) (VStr (lit "Hello"))
           (Some [VStr (lit "a@b.c"); VStr (lit "d@e.f")])
           [("importance", VStr (lit "high"))] draft_world) = Ok draft /\
    queries (snd (MessageCollection.add 0 (VStr (lit "Subject"))
                    (VStr (lit "Hello"))
                    (Some [VStr (lit "a@b.c"); VStr (lit "d@e.f")])
                    [("importance", VStr (lit "high"))] draft_world))
    = queries draft_world ++ [q] /\
    return_type q = Some draft /\
    parameter_type q
    = VDict [("body", VItemBody (Some (VStr (lit "Hello"))));
             ("subject", VStr (lit "Subject"));
             ("toRecipients",
              VCollection "Recipient" [VRecipient (VStr (lit "a@b.c"));
                                       VRecipient (VStr (lit "d@e.f"))]);
             ("importance", VStr (lit "high"))].
Proof.
  assert (H1 : isinstance_ItemBody (VStr (lit "Hello")) = false) by reflexivity.
  assert (H2 : forall k, In k (map fst [("importance", VStr (lit "high"))]) ->
                         ~ In k ["body"; "subject"; "toRecipients"]).
  { intros k [<-|[]] [E|[E|[E|[]]]]; discriminate E. }
  destruct (C6_add_normalises_inputs 0 (VStr (lit "Subject")) (VStr (lit "Hello"))
              None [VStr (lit "a@b.c"); VStr (lit "d@e.f")]
              (Some [VStr (lit "a@b.c"); VStr (lit "d@e.f")])
              [("importance", VStr (lit "high"))] draft_world)
    as (_ & Hbody & _ & _ & _ & _ & _ & Hadd).
  destruct (Hadd H2) as (_ & draft & q & Hd & _ & _ & Hq & _ & _ & Hp & Hr & _).
  split; [exact H1|]. split; [exact H2|]. split; [exact (Hbody H1)|].
  exists draft, q. split; [exact Hd|]. split; [exact Hq|].
  split; [exact Hr|]. exact Hp.
Defined.

(** * Execution of the pending request *)

Section Execution.

Variable render : pyval -> pystr.
Variable build_request : Query -> RequestOptions.
Variable server : list RequestOptions -> RequestOptions -> Response.

Abbreviation execute_one := (ClientRequest.execute_one render build_request server).
Abbreviation execute_queries :=
  (ClientRequest.execute_queries render build_request server).
Abbreviation execute_query := (ClientRequest.execute_query render build_request server).

Lemma process_response_context (q : Query) (resp : Response) (w : World) :
  fst (ClientRequest.process_response q resp w) = Ok tt /\
  same_context w (snd (ClientRequest.process_response q resp w)).
Proof.
  unfold ClientRequest.process_response.
  destruct (return_type q) as [r|]; [|split; [reflexivity|apply same_context_refl]].
  destruct (heap w !! r) as [[]|]; cbn; split; try reflexivity; repeat split.
Qed.

(** Without listeners a query is sent as it was built. *)
Lemma execute_one_no_listeners (q : Query) (w : World) :
  beforeExecute w = [] -> afterExecute w = [] ->
  fst (execute_one q w) = Ok tt /\
  dispatched (snd (execute_one q w)) = dispatched w ++ [build_request q] /\
  beforeExecute (snd (execute_one q w)) = [] /\
  afterExecute (snd (execute_one q w)) = [] /\
  queries (snd (execute_one q w)) = drop 1 (queries w).
Proof.
  intros Hb Ha. unfold ClientRequest.execute_one; monad_run. rewrite Hb; cbn.
  match goal with
  | |- context [ClientRequest.process_response q ?resp ?w0] =>
      destruct (process_response_context q resp w0) as [Hr Hc];
      destruct (ClientRequest.process_response q resp w0) as [[[]|e] w1];
      cbn in Hr; [|discriminate]
  end.
  destruct Hc as (Hq & Hb' & Ha' & Hd & _). cbn in *.
  rewrite Ha', Ha; cbn. rewrite Hq, Hb', Hd, Hb. repeat split; congruence.
Qed.

Lemma execute_queries_no_listeners (qs : list Query) :
  forall w : World,
    beforeExecute w = [] -> afterExecute w = [] ->
    fst (execute_queries qs w) = Ok tt /\
    dispatched (snd (execute_queries qs w))
    = dispatched w ++ map build_request qs /\
    beforeExecute (snd (execute_queries qs w)) = [] /\
    afterExecute (snd (execute_queries qs w)) = [].
Proof.
  induction qs as [|q rest IH]; intros w Hb Ha.
  - cbn. rewrite app_nil_r. auto.
  - destruct (execute_one_no_listeners q w Hb Ha) as (Hr & Hd & Hb1 & Ha1 & _).
    change (execute_queries (q :: rest) w)
      with (bind (execute_one q) (fun _ => execute_queries rest) w).
    unfold bind. destruct (execute_one q w) as [[[]|e] w1]; cbn in *; [|discriminate].
    destruct (IH w1 Hb1 Ha1) as (Hr' & Hd' & Hb' & Ha').
    rewrite Hd', Hd, <- app_assoc. auto.
Qed.

(** An explicit [execute_query] is what sends the pending queries. *)
Lemma execute_query_dispatches (w : World) :
  beforeExecute w = [] -> afterExecute w = [] ->
  fst (execute_query w) = Ok tt /\
  dispatched (snd (execute_query w))
  = dispatched w ++ map build_request (queries w).
Proof.
  intros Hb Ha. unfold ClientRequest.execute_query.
  rewrite (mbind_ok _ _ w w (queries w)) by reflexivity.
  destruct (execute_queries_no_listeners (queries w) w Hb Ha) as (H1 & H2 & _).
  auto.
Qed.

End Execution.

(** * The status handler of [GroupSiteManager] *)

Section RemoveFirst.

Context {A : Type} `{EqDecision A}.

Lemma remove_first_head (x : A) (l : list A) : remove_first x (x :: l) = l.
Proof. cbn. destruct (decide (x = x)); congruence. Qed.

Lemma remove_first_absent (x : A) (l : list A) :
  x ∉ l -> remove_first x (l ++ [x]) = l.
Proof.
  induction l as [|y l IH]; intros Hx; [apply remove_first_head|].
  apply not_elem_of_cons in Hx as [Hne Hx]. cbn.
  destruct (decide (x = y)); [congruence|]. rewrite IH; auto.
Qed.

Lemma subscribed_cons (x y : A) (l : list A) :
  subscribed x (y :: l)
  = if decide (y = x) then S (subscribed x l) else subscribed x l.
Proof. unfold subscribed. rewrite filter_cons. destruct (decide (y = x)); reflexivity. Qed.

(** Subscribing once and unsubscribing once leaves the count as it was. *)
Lemma subscribed_remove_first_app (x : A) (l : list A) :
  subscribed x (remove_first x (l ++ [x])) = subscribed x l.
Proof.
  induction l as [|y l IH]; [cbn [app]; rewrite remove_first_head; reflexivity|].
  cbn [app remove_first]. destruct (decide (x = y)) as [<-|Hne].
  - rewrite subscribed_cons. destruct (decide (x = x)); [|congruence].
    unfold subscribed. rewrite filter_app, length_app.
    rewrite (filter_cons _ x []). destruct (decide (x = x)); [|congruence].
    cbn. lia.
  - rewrite !subscribed_cons. destruct (decide (y = x)); [congruence|]. exact IH.
Qed.

End RemoveFirst.

Section StatusHandler.

Variable render : pyval -> pystr.
Variable build_request : Query -> RequestOptions.
Variable server : list RequestOptions -> RequestOptions -> Response.

Abbreviation status_listener self := (Listener false (construct_status_request self)).

(** One run of the handler on a query that carries a [groupId]. *)
Lemma construct_status_request_run (self : ref) (request : RequestOptions)
    (query : Query) (d : list (string * pyval)) (g : pyval) (w : World) :
  parameter_type query = VDict d -> assoc "groupId" d = Some g ->
  GroupSiteManager._construct_status_request render self request query w
  = (Ok {| url := url request ++ lit "?groupId='"
                  ++ GroupSiteManager.format_arg render g ++ lit "'";
           method := Get |},
     set_beforeExecute (remove_first (status_listener self)) w).
Proof.
  intros Hp Hg. unfold GroupSiteManager._construct_status_request, subscript.
  rewrite Hp, Hg. reflexivity.
Qed.

Lemma get_status_run (self : ref) (group_id : pyval) (w : World) :
  GroupSiteManager.get_status self group_id w
  = (Ok (fresh (dom (heap w))),
     set_beforeExecute (fun ls => ls ++ [status_listener self])
       (set_queries
          (fun qs => qs ++ [ServiceOperationQuery self (Some "GetSiteStatus") VNone
                              (VDict [("groupId", group_id)]) None
                              (Some (fresh (dom (heap w))))])
          (set_heap <[fresh (dom (heap w)) := GroupSiteInfo_obj]> w))).
Proof. reflexivity. Qed.

Lemma notify_status_listener (self : ref) (request : RequestOptions)
    (query : Query) (d : list (string * pyval)) (g : pyval) (w : World) :
  parameter_type query = VDict d -> assoc "groupId" d = Some g ->
  ClientRequest.notify_before render [status_listener self] request query w
  = (Ok {| url := url request ++ lit "?groupId='"
                  ++ GroupSiteManager.format_arg render g ++ lit "'";
           method := Get |},
     set_beforeExecute (remove_first (status_listener self)) w).
Proof.
  intros Hp Hg.
  cbn [ClientRequest.notify_before once callback ClientRequest.call_before].
  rewrite (mbind_ok _ _ _ _ _ (mret_run _ _)).
  rewrite (mbind_ok _ _ _ _ _
             (construct_status_request_run self request query d g w Hp Hg)).
  reflexivity.
Qed.

(** Executing a status query when the handler is the only listener. *)
Lemma execute_status_query (self info : ref) (group_id : pyval) (w : World) :
  let qry := ServiceOperationQuery self (Some "GetSiteStatus") VNone
               (VDict [("groupId", group_id)]) None (Some info) in
  beforeExecute w = [status_listener self] -> afterExecute w = [] ->
  heap w !! info = Some GroupSiteInfo_obj ->
  fst (ClientRequest.execute_one render build_request server qry w) = Ok tt /\
  dispatched (snd (ClientRequest.execute_one render build_request server qry w))
  = dispatched w
    ++ [{| url := url (build_request qry) ++ lit "?groupId='"
                  ++ GroupSiteManager.format_arg render group_id ++ lit "'";
           method := Get |}] /\
  beforeExecute (snd (ClientRequest.execute_one render build_request server qry w))
  = [] /\
  afterExecute (snd (ClientRequest.execute_one render build_request server qry w))
  = [].
Proof.
  intros qry Hb Ha Hinfo.
  unfold ClientRequest.execute_one.
  rewrite (mbind_ok _ _ w (set_queries (drop 1) w) tt) by reflexivity.
  rewrite (mbind_ok _ _ _ (set_queries (drop 1) w) [status_listener self])
    by (unfold gets; cbn; rewrite Hb; reflexivity).
  rewrite (mbind_ok _ _ _ _ _
             (notify_status_listener self (build_request qry) qry _ group_id _
                eq_refl eq_refl)).
  monad_run. unfold ClientRequest.process_response; cbn. rewrite Hinfo; cbn.
  rewrite Ha; cbn. rewrite Hb, remove_first_head. auto.
Qed.

(** C8, as the code has it. For every call of [get_status], a run of the
    [beforeExecute] handler it subscribes on the query that the call queued
    sets the method to GET, appends [?groupId='<group_id>'] to the URL from the
    parameter of that query, and removes one subscription of itself, so that
    the call and that run together leave the number of its subscriptions as it
    was; when no other query or listener is pending at the call, executing the
    context fires the handler once, on the status request, and every later
    request on the same context is sent as built. *)
Theorem C8_status_handler_fires_once (self : ref) (group_id : pyval)
    (request : RequestOptions) (w : World) :
  let r := GroupSiteManager.get_status self group_id w in
  exists info qry,
    fst r = Ok info /\
    queries (snd r) = queries w ++ [qry] /\
    parameter_type qry = VDict [("groupId", group_id)] /\
    beforeExecute (snd r) = beforeExecute w ++ [status_listener self] /\
    dispatched (snd r) = dispatched w /\
    (forall s, GroupSiteManager.format_arg render (VStr s) = s) /\
    (forall w2,
       GroupSiteManager._construct_status_request render self request qry w2
       = (Ok {| url := url request ++ lit "?groupId='"
                       ++ GroupSiteManager.format_arg render group_id ++ lit "'";
                method := Get |},
          set_beforeExecute (remove_first (status_listener self)) w2)) /\
    subscribed (status_listener self)
      (remove_first (status_listener self) (beforeExecute (snd r)))
    = subscribed (status_listener self) (beforeExecute w) /\
    (queries w = [] -> beforeExecute w = [] -> afterExecute w = [] ->
     let done := ClientRequest.execute_query render build_request server (snd r) in
     fst done = Ok tt /\
     dispatched (snd done)
     = dispatched w
       ++ [{| url := url (build_request qry) ++ lit "?groupId='"
                     ++ GroupSiteManager.format_arg render group_id ++ lit "'";
              method := Get |}] /\
     beforeExecute (snd done) = [] /\
     forall later,
       dispatched
         (snd (ClientRequest.execute_queries render build_request server later
                 (snd done)))
       = dispatched (snd done) ++ map build_request later).
Proof.
  intros r. subst r. rewrite get_status_run.
  set (info := fresh (dom (heap w))).
  set (qry := ServiceOperationQuery self (Some "GetSiteStatus") VNone
                (VDict [("groupId", group_id)]) None (Some info)).
  exists info, qry. cbn [fst snd].
  split; [reflexivity|]. split; [reflexivity|]. split; [reflexivity|].
  split; [reflexivity|]. split; [reflexivity|]. split; [reflexivity|].
  split.
  { intros w2. eapply construct_status_request_run; reflexivity. }
  split.
  { cbn [beforeExecute set_beforeExecute set_queries set_heap].
    apply subscribed_remove_first_app. }
  intros Hq Hb Ha.
  set (w1 := set_beforeExecute _ _).
  assert (Hb1 : beforeExecute w1 = [status_listener self])
    by (unfold w1; cbn; rewrite Hb; reflexivity).
  assert (Ha1 : afterExecute w1 = []) by exact Ha.
  assert (Hq1 : queries w1 = [qry]) by (unfold w1; cbn; rewrite Hq; reflexivity).
  assert (Hi1 : heap w1 !! info = Some GroupSiteInfo_obj)
    by (unfold w1; cbn; apply lookup_insert_eq).
  destruct (execute_status_query self info group_id w1 Hb1 Ha1 Hi1)
    as (Hr & Hd & Hb2 & Ha2).
  fold qry in Hr, Hd, Hb2, Ha2.
  cbn zeta. unfold ClientRequest.execute_query.
  rewrite (mbind_ok _ _ w1 w1 [qry]) by (unfold gets; rewrite Hq1; reflexivity).
  change (ClientRequest.execute_queries render build_request server [qry] w1)
    with (bind (ClientRequest.execute_one render build_request server qry)
               (fun _ => mret tt) w1).
  unfold bind.
  destruct (ClientRequest.execute_one render build_request server qry w1)
    as [[[]|e] w2]; cbn in Hr; [|discriminate].
  cbn in *. split; [reflexivity|]. split; [exact Hd|]. split; [exact Hb2|].
  intros later.
  destruct (execute_queries_no_listeners render build_request server later w2
              Hb2 Ha2) as (_ & Hl & _).
  exact Hl.
Qed.

End StatusHandler.

(** * Download of the MIME content *)

Section Download.

Variable render : pyval -> pystr.
Variable build_request : Query -> RequestOptions.
Variable server : list RequestOptions -> RequestOptions -> Response.

Lemma is_error_status_range (resp : Response) :
  is_error_status resp = true <-> 400 <= status_code resp < 600.
Proof.
  unfold is_error_status. rewrite andb_true_iff, N.leb_le, N.ltb_lt. reflexivity.
Qed.

(** The closure of [download]: the status is checked first, then the value
    of the result is written. *)
Lemma content_downloaded_run (file_object result : ref) (resp : Response)
    (w : World) (written : list pyval) (v : pyval) :
  heap w !! file_object = Some (File_obj written) ->
  heap w !! result = Some (ClientResult_obj v) ->
  Message._content_downloaded file_object result resp w
  = if is_error_status resp then (Raise HTTPError, w)
    else (Ok tt, set_heap <[file_object := File_obj (written ++ [v])]> w).
Proof.
  intros Hf Hr.
  unfold Message._content_downloaded, raise_for_status, ClientResult.value,
    file_write, load, store.
  destruct (is_error_status resp); monad_run; [reflexivity|].
  rewrite Hr; cbn. rewrite Hf; cbn. reflexivity.
Qed.

Lemma download_run (self file_object : ref) (w : World) :
  Message.download self file_object w
  = (Ok self,
     set_afterExecute
       (fun ls => ls ++ [Listener true
                           (content_downloaded file_object (fresh (dom (heap w))))])
       (set_queries
          (fun qs => qs ++ [ServiceOperationQuery self (Some "$value") VNone VNone
                              None (Some (fresh (dom (heap w))))])
          (set_beforeExecute (fun ls => ls ++ [Listener true construct_query])
             (set_heap <[fresh (dom (heap w)) := ClientResult_obj VNone]> w)))).
Proof. reflexivity. Qed.

(** Executing the content query when the closures of [download] are the only
    listeners. *)
Lemma execute_content_query (self file_object result : ref)
    (written : list pyval) (w : World) :
  let qry := ServiceOperationQuery self (Some "$value") VNone VNone None
               (Some result) in
  let request := {| url := url (build_request qry); method := Get |} in
  let resp := server (dispatched w) request in
  let done := ClientRequest.execute_one render build_request server qry w in
  beforeExecute w = [Listener true construct_query] ->
  afterExecute w = [Listener true (content_downloaded file_object result)] ->
  heap w !! file_object = Some (File_obj written) ->
  heap w !! result = Some (ClientResult_obj VNone) ->
  dispatched (snd done) = dispatched w ++ [request] /\
  (is_error_status resp = true ->
   fst done = Raise HTTPError /\
   heap (snd done) !! file_object = Some (File_obj written)) /\
  (is_error_status resp = false ->
   fst done = Ok tt /\
   heap (snd done) !! file_object
   = Some (File_obj (written ++ [VBytes (content resp)]))).
Proof.
  intros qry request resp done Hb Ha Hf Hr.
  assert (Hne : file_object <> result)
    by (intros E; rewrite E, Hr in Hf; discriminate).
  subst done. unfold ClientRequest.execute_one.
  erewrite mbind_ok by reflexivity.
  erewrite mbind_ok by reflexivity.
  cbn [beforeExecute set_queries]. rewrite Hb.
  erewrite mbind_ok by reflexivity.
  erewrite mbind_ok by reflexivity.
  erewrite mbind_ok by reflexivity.
  cbn [dispatched set_beforeExecute set_queries]. fold qry request resp.
  erewrite mbind_ok
    by (unfold ClientRequest.process_response; cbn [return_type qry
          ServiceOperationQuery heap set_dispatched set_beforeExecute set_queries];
        rewrite Hr; reflexivity).
  erewrite mbind_ok by reflexivity.
  cbn [afterExecute set_heap set_dispatched set_beforeExecute set_queries].
  rewrite Ha.
  cbn [ClientRequest.notify_after once callback ClientRequest.call_after].
  erewrite mbind_ok by reflexivity.
  match goal with
  | |- context [(Message._content_downloaded file_object result resp ≫= ?k) ?w0] =>
      assert (Hrun := content_downloaded_run file_object result resp w0 written
                        (VBytes (content resp)));
      set (wd := w0) in *
  end.
  assert (Hfd : heap wd !! file_object = Some (File_obj written)).
  { unfold wd; cbn. rewrite lookup_insert_ne by auto. exact Hf. }
  assert (Hrd : heap wd !! result = Some (ClientResult_obj (VBytes (content resp)))).
  { unfold wd; cbn. apply lookup_insert_eq. }
  specialize (Hrun Hfd Hrd).
  destruct (is_error_status resp).
  - rewrite (mbind_raise _ _ _ _ _ Hrun). cbn [fst snd].
    split; [reflexivity|]. split; [intros _; auto | discriminate].
  - rewrite (mbind_ok _ _ _ _ _ Hrun). cbn [fst snd ClientRequest.notify_after].
    split; [reflexivity|]. split; [discriminate|].
    intros _. split; [reflexivity|]. cbn. apply lookup_insert_eq.
Qed.

(** C10. [download] never writes to the file object before execution; on
    execution the after-execute closure calls [raise_for_status] before it
    writes, so the fetched MIME content is written only for a response whose
    status is not an error: for every response with an error status the file
    object is left as it was and [HTTPError] propagates. *)
Theorem C10_download_writes_only_on_success (self file_object : ref)
    (written : list pyval) (w : World) :
  heap w !! file_object = Some (File_obj written) ->
  let r := Message.download self file_object w in
  exists result,
    fst r = Ok self /\
    heap (snd r) !! file_object = Some (File_obj written) /\
    afterExecute (snd r)
    = afterExecute w ++ [Listener true (content_downloaded file_object result)] /\
    dispatched (snd r) = dispatched w /\
    (forall resp w2 written2 v,
       heap w2 !! file_object = Some (File_obj written2) ->
       heap w2 !! result = Some (ClientResult_obj v) ->
       (is_error_status resp = true ->
        Message._content_downloaded file_object result resp w2
        = (Raise HTTPError, w2)) /\
       (is_error_status resp = false ->
        Message._content_downloaded file_object result resp w2
        = (Ok tt, set_heap <[file_object := File_obj (written2 ++ [v])]> w2))) /\
    (queries w = [] -> beforeExecute w = [] -> afterExecute w = [] ->
     let done := ClientRequest.execute_query render build_request server (snd r) in
     exists request,
       dispatched (snd done) = dispatched w ++ [request] /\
       method request = Get /\
       (is_error_status (server (dispatched w) request) = true ->
        fst done = Raise HTTPError /\
        heap (snd done) !! file_object = Some (File_obj written)) /\
       (is_error_status (server (dispatched w) request) = false ->
        fst done = Ok tt /\
        heap (snd done) !! file_object
        = Some (File_obj (written
                          ++ [VBytes (content (server (dispatched w) request))])))).
Proof.
  intros Hf r. subst r. rewrite download_run.
  pose proof (fresh_ref_unused w) as Hfresh.
  set (result := fresh (dom (heap w))) in *.
  assert (Hne : file_object <> result)
    by (intros E; rewrite E, Hfresh in Hf; discriminate).
  exists result. cbn [fst snd].
  split; [reflexivity|]. split.
  { cbn. rewrite lookup_insert_ne by auto. exact Hf. }
  split; [reflexivity|]. split; [reflexivity|]. split.
  { intros resp w2 written2 v Hf2 Hr2.
    rewrite (content_downloaded_run _ _ resp _ _ _ Hf2 Hr2).
    split; intros ->; reflexivity. }
  intros Hq Hb Ha.
  set (qry := ServiceOperationQuery self (Some "$value") VNone VNone None
                (Some result)).
  set (w1 := set_afterExecute _ _).
  assert (Hb1 : beforeExecute w1 = [Listener true construct_query])
    by (unfold w1; cbn; rewrite Hb; reflexivity).
  assert (Ha1 : afterExecute w1
                = [Listener true (content_downloaded file_object result)])
    by (unfold w1; cbn; rewrite Ha; reflexivity).
  assert (Hq1 : queries w1 = [qry]) by (unfold w1; cbn; rewrite Hq; reflexivity).
  assert (Hf1 : heap w1 !! file_object = Some (File_obj written)).
  { unfold w1; cbn. rewrite lookup_insert_ne by auto. exact Hf. }
  assert (Hr1 : heap w1 !! result = Some (ClientResult_obj VNone))
    by (unfold w1; cbn; apply lookup_insert_eq).
  destruct (execute_content_query self file_object result written w1
              Hb1 Ha1 Hf1 Hr1) as (Hd & Herr & Hok).
  fold qry in Hd, Herr, Hok.
  change (dispatched w1) with (dispatched w) in Hd, Herr, Hok.
  cbn zeta. unfold ClientRequest.execute_query.
  rewrite (mbind_ok _ _ w1 w1 [qry]) by (unfold gets; rewrite Hq1; reflexivity).
  change (ClientRequest.execute_queries render build_request server [qry] w1)
    with (bind (ClientRequest.execute_one render build_request server qry)
               (fun _ => mret tt) w1).
  unfold bind.
  exists {| url := url (build_request qry); method := Get |}.
  destruct (ClientRequest.execute_one render build_request server qry w1)
    as [[[]|e] w2]; cbn [fst snd] in *;
    (split; [exact Hd|]); (split; [reflexivity|]); split; auto.
Qed.

End Download.

(** * Worked inputs for the statements with hypotheses *)

Lemma C5_lazy_property_defaults_witness :
  heap draft_world !! 0%nat = Some (Message_obj None ∅) /\
  (exists c,
     Message.attachments 0 draft_world
     = (Ok (VRef c),
        set_heap <[c := AttachmentCollection_obj
                          (Some (ResourcePath_new "attachments" None)) None []]>
          draft_world)) /\
  Message.to_recipients 0 draft_world = (Ok (VCollection "Recipient" []), draft_world) /\
  Message.subject 0 draft_world = (Ok VNone, draft_world) /\
  Message.has_attachments 0 draft_world = (Ok VNone, draft_world).
Proof.
  assert (H : heap draft_world !! 0%nat = Some (Message_obj None ∅)) by reflexivity.
  split; [exact H|].
  destruct (C5_lazy_property_defaults 0 None ∅ draft_world H) as (Ha & Ht & Hs & Hh).
  split.
  - destruct (Ha eq_refl) as (c & Hc & _). exists c. exact Hc.
  - split; [exact (Ht eq_refl)|]. split; [exact (Hs eq_refl)|exact (Hh eq_refl)].
Defined.

Lemma C7_body_round_trip_witness :
  heap draft_world !! 0%nat = Some (Message_obj None ∅) /\
  Message.set_body 0 (VStr (lit "Hi")) draft_world
  = (Ok tt,
     set_heap <[0%nat := Message_obj None
                           (<["body" := ItemBody (Some (VStr (lit "Hi")))]> ∅)]>
       draft_world).
Proof.
  assert (H : heap draft_world !! 0%nat = Some (Message_obj None ∅)) by reflexivity.
  split; [exact H|].
  exact (proj1 (proj1 (C7_body_round_trip 0 None ∅ draft_world H (lit "Hi") None))).
Defined.

Lemma C8_status_handler_fires_once_witness :
  queries (empty_world (fun _ => None)) = [] /\
  beforeExecute (empty_world (fun _ => None)) = [] /\
  afterExecute (empty_world (fun _ => None)) = [] /\
  dispatched
    (snd (ClientRequest.execute_query status_render status_build_request
            status_server
            (snd (GroupSiteManager.get_status 0 (VStr (lit "42"))
                    (empty_world (fun _ => None))))))
  = [{| url := lit "/_api/GroupSiteManager/GetSiteStatus"
               ++ lit "?groupId='" ++ lit "42" ++ lit "'";
        method := Get |}].
Proof.
  split; [reflexivity|]. split; [reflexivity|]. split; [reflexivity|].
  destruct (C8_status_handler_fires_once status_render status_build_request
              status_server 0 (VStr (lit "42"))
              {| url := lit "/"; method := Post |} (empty_world (fun _ => None)))
    as (info & qry & _ & _ & _ & _ & _ & _ & _ & _ & Hexec).
  destruct (Hexec eq_refl eq_refl eq_refl) as (_ & Hd & _).
  exact Hd.
Defined.

Lemma C10_download_writes_only_on_success_witness :
  heap file_world !! 1%nat = Some (File_obj []) /\
  fst (ClientRequest.execute_query status_render status_build_request
         not_found_server (snd (Message.download 0 1 file_world)))
  = Raise HTTPError /\
  heap (snd (ClientRequest.execute_query status_render status_build_request
               not_found_server (snd (Message.download 0 1 file_world))))
    !! 1%nat
  = Some (File_obj []).
Proof.
  assert (H : heap file_world !! 1%nat = Some (File_obj [])) by reflexivity.
  split; [exact H|].
  destruct (C10_download_writes_only_on_success status_render status_build_request
              not_found_server 0 1 [] file_world H)
    as (result & _ & _ & _ & _ & _ & Hexec).
  destruct (Hexec eq_refl eq_refl eq_refl) as (request & _ & _ & Herr & _).
  exact (Herr eq_refl).
Defined.

(** C8 as stated fails when another query is pending before the status
    query: the handler is notified for the request of the [Delete] query,
    whose parameter has no [groupId]; it raises [KeyError] before the line
    that unsubscribes it, nothing is sent, and it fires again for the next
    request. *)
Lemma C8_earlier_query_counterexample :
  let w0 := empty_world (fun _ => None) in
  let w1 := snd (GroupSiteManager.delete 0 (VStr (lit "https://contoso/sites/a")) w0) in
  let w2 := snd (GroupSiteManager.get_status 0 (VStr (lit "42")) w1) in
  let first := ClientRequest.execute_query status_render status_build_request
                 status_server w2 in
  let second := ClientRequest.execute_query status_render status_build_request
                  status_server (snd first) in
  (exists deleted, queries w1 = [deleted] /\
     GroupSiteManager._construct_status_request status_render 0
       (status_build_request deleted) deleted w2 = (Raise KeyError, w2)) /\
  fst first = Raise KeyError /\
  dispatched (snd first) = [] /\
  beforeExecute (snd first) = [status_listener 0] /\
  fst second = Ok tt /\
  dispatched (snd second)
  = [{| url := lit "/_api/GroupSiteManager/GetSiteStatus?groupId='42'";
        method := Get |}] /\
  beforeExecute (snd second) = [].
Proof.
  cbn zeta. split.
  - eexists. split; reflexivity.
  - repeat split; vm_compute; reflexivity.
Qed.

(** * Examples *)

Example b64encode_Man : Codec.b64encode (lit "Man") = lit "TWFu".
Proof. reflexivity. Qed.

Example b64encode_padding :
  Codec.b64encode (lit "Ma") = lit "TWE=" /\ Codec.b64encode (lit "M") = lit "TQ==".
Proof. split; reflexivity. Qed.

Example b64decode_padding : Codec.b64decode (lit "TWE=") = Some (lit "Ma").
Proof. reflexivity. Qed.

Example utf8_encode_euro : Codec.utf8_encode [0x20AC] = Some [0xE2; 0x82; 0xAC].
Proof. reflexivity. Qed.

Example utf8_decode_mixed :
  Codec.utf8_decode [0xE2; 0x82; 0xAC; 0xF0; 0x9F; 0x98; 0x80]
  = Some [0x20AC; 0x1F600].
Proof. reflexivity. Qed.

Example utf8_decode_rejects_overlong : Codec.utf8_decode [0xC0; 0x80] = None.
Proof. reflexivity. Qed.

Example basename_path : Codec.basename (lit "/a/b/c.txt") = lit "c.txt".
Proof. reflexivity. Qed.

Example basename_trailing_slash : Codec.basename (lit "/a/b/") = lit "".
Proof. reflexivity. Qed.

Example basename_plain : Codec.basename (lit "c.txt") = lit "c.txt".
Proof. reflexivity. Qed.

(** A file of exactly 3,000,000 bytes is read inline; one byte more and the
    upload is scheduled. *)
Example upload_at_the_threshold (bytes : pybytes) :
  let w := set_heap <[0%nat := Message_obj None ∅]> (empty_world (fun _ => Some bytes)) in
  (length bytes = N.to_nat 3000000 ->
   ensure_pending (snd (Message.upload_attachment 0 (lit "big.bin") w)) = []) /\
  (length bytes = N.to_nat 3000001 ->
   ensure_pending (snd (Message.upload_attachment 0 (lit "big.bin") w))
   = [(0%nat, "id",
       message_loaded 0 (lit "big.bin") 3000000 (fresh (dom (heap w))))]).
Proof.
  intros w.
  destruct (upload_attachment_run 0 None ∅ w (lit "big.bin") bytes eq_refl I eq_refl)
    as (w3 & _ & _ & _ & Hctx & Hrun).
  destruct Hctx as (_ & _ & _ & _ & He & _).
  split; intros Hlen; rewrite Hrun, Hlen, N2Nat.id; cbn; rewrite He; reflexivity.
Qed.

(** Sending is queued; the request leaves at the explicit execution. *)
Example send_then_execute :
  let queued := run status_render status_build_request status_server
                  [Call (Message_send 0)] draft_world in
  let flushed := run status_render status_build_request status_server
                   [Call (Message_send 0); Execute] draft_world in
  dispatched (snd queued) = [] /\
  length (queries (snd queued)) = 1%nat /\
  dispatched (snd flushed)
  = [{| url := lit "/_api/GroupSiteManager/GetSiteStatus"; method := Post |}] /\
  queries (snd flushed) = [].
Proof. repeat split; vm_compute; reflexivity. Qed.

(** A reply holds the very message that is returned. *)
Example reply_returns_payload_message :
  let r := Message.reply 0 (VStr (lit "thanks")) draft_world in
  fst r = Ok 1%nat /\
  parameter_type <$> last (queries (snd r))
  = Some (VDict [("message", VRef 1); ("comment", VStr (lit "thanks"))]).
Proof. split; vm_compute; reflexivity. Qed.

(** * Further properties of the message properties *)

Section MessageAccessors.

Variables (self : ref) (rp : option ResourcePath) (props : gmap string pyval).
Variable w : World.
Hypothesis Hself : heap w !! self = Some (Message_obj rp props).

Lemma subject_read :
  Message.subject self w = (Ok (dict_get props "subject" VNone), w).
Proof.
  unfold Message.subject.
  rewrite (mbind_ok _ _ _ _ _ (properties_read _ _ _ _ Hself)). reflexivity.
Qed.

Lemma has_attachments_read :
  Message.has_attachments self w = (Ok (dict_get props "hasAttachments" VNone), w).
Proof.
  unfold Message.has_attachments.
  rewrite (mbind_ok _ _ _ _ _ (properties_read _ _ _ _ Hself)). reflexivity.
Qed.

Lemma to_recipients_read :
  Message.to_recipients self w
  = (Ok (dict_get props "toRecipients" (VCollection "Recipient" [])), w).
Proof.
  unfold Message.to_recipients.
  rewrite (mbind_ok _ _ _ _ _ (properties_read _ _ _ _ Hself)). reflexivity.
Qed.

Lemma base_get_property_read (name : string) (d : pyval) :
  ClientObject.get_property self name d w = (Ok (dict_get props name d), w).
Proof.
  unfold ClientObject.get_property.
  rewrite (mbind_ok _ _ _ _ _ (properties_read _ _ _ _ Hself)). reflexivity.
Qed.

(** What the override of [get_property] returns, in every case. *)
Lemma get_property_read (name : string) (d : pyval) :
  Message.get_property self name d w
  = (Ok (dict_get props name
           (if is_None d then
              if String.eqb name "toRecipients"
              then dict_get props "toRecipients" (VCollection "Recipient" [])
              else VNone
            else d)), w).
Proof.
  unfold Message.get_property. destruct (is_None d).
  - erewrite mbind_ok; [apply base_get_property_read|].
    rewrite (mbind_ok _ _ _ _ _ to_recipients_read). reflexivity.
  - rewrite (mbind_ok _ _ _ _ _ (mret_run _ _)). apply base_get_property_read.
Qed.

Lemma body_read :
  Message.body self w = (Ok (dict_get props "body" (ItemBody None)), w).
Proof. unfold Message.body. rewrite get_property_read. reflexivity. Qed.

End MessageAccessors.

Section MessageFields.

Variables (self : ref) (rp : option ResourcePath) (props : gmap string pyval).
Variable w : World.
Hypothesis Hself : heap w !! self = Some (Message_obj rp props).

(** X1. The override of [get_property] agrees with the [to_recipients]
    property: without a default, ["toRecipients"] reads exactly what the
    property reads, every other absent name reads [None]; a stored field is
    returned whatever default is given, and a default other than [None] is
    returned for an absent field.  Nothing is changed by the read. *)
Theorem X1_get_property_defaults (name : string) (d v : pyval) :
  Message.get_property self "toRecipients" VNone w = Message.to_recipients self w /\
  (name <> "toRecipients" -> props !! name = None ->
   Message.get_property self name VNone w = (Ok VNone, w)) /\
  (props !! name = Some v -> Message.get_property self name d w = (Ok v, w)) /\
  (is_None d = false -> props !! name = None ->
   Message.get_property self name d w = (Ok d, w)).
Proof.
  repeat split.
  - rewrite (get_property_read _ _ _ _ Hself),
      (to_recipients_read _ _ _ _ Hself). cbn. unfold dict_get.
    destruct (props !! "toRecipients"); reflexivity.
  - intros Hne Hk. rewrite (get_property_read _ _ _ _ Hself). cbn.
    unfold dict_get. rewrite Hk.
    destruct (String.eqb_spec name "toRecipients"); [contradiction|reflexivity].
  - intros Hk. rewrite (get_property_read _ _ _ _ Hself). unfold dict_get.
    rewrite Hk. reflexivity.
  - intros Hd Hk. rewrite (get_property_read _ _ _ _ Hself), Hd. unfold dict_get.
    rewrite Hk. reflexivity.
Qed.

(** X2. The [subject] setter and getter form a round trip, and the setter
    touches no other field: after [msg.subject = v] the getter returns [v],
    and [body], [to_recipients] and [has_attachments] read what they read
    before. *)
Theorem X2_subject_round_trip (v : pyval) :
  let w' := set_heap <[self := Message_obj rp (<["subject" := v]> props)]> w in
  Message.set_subject self v w = (Ok tt, w') /\
  Message.subject self w' = (Ok v, w') /\
  fst (Message.body self w') = fst (Message.body self w) /\
  fst (Message.to_recipients self w') = fst (Message.to_recipients self w) /\
  fst (Message.has_attachments self w') = fst (Message.has_attachments self w).
Proof.
  intros w'.
  assert (Hself' : heap w' !! self
                   = Some (Message_obj rp (<["subject" := v]> props)))
    by apply lookup_insert_eq.
  split; [apply set_property_write, Hself|].
  rewrite (subject_read _ _ _ _ Hself'), (body_read _ _ _ _ Hself'),
    (to_recipients_read _ _ _ _ Hself'), (has_attachments_read _ _ _ _ Hself').
  rewrite (body_read _ _ _ _ Hself), (to_recipients_read _ _ _ _ Hself),
    (has_attachments_read _ _ _ _ Hself).
  unfold dict_get. rewrite lookup_insert_eq, !lookup_insert_ne by discriminate.
  repeat split.
Qed.

End MessageFields.

Section MessageFieldsMore.

Variables (self : ref) (rp : option ResourcePath) (props : gmap string pyval).
Variable w : World.
Hypothesis Hself : heap w !! self = Some (Message_obj rp props).

(** X3. The [to_recipients] setter stores the addresses mapped in order
    through [Recipient.from_email]; the getter and [get_property] both read
    that collection back, [subject] is untouched, and on a message without
    recipients assigning the empty list reads the same as not assigning. *)
Theorem X3_to_recipients_round_trip (value : list pyval) :
  let stored := VCollection "Recipient" (map Recipient_from_email value) in
  let w' := set_heap <[self := Message_obj rp (<["toRecipients" := stored]> props)]>
              w in
  Message.set_to_recipients self value w = (Ok tt, w') /\
  Message.to_recipients self w' = (Ok stored, w') /\
  Message.get_property self "toRecipients" VNone w' = (Ok stored, w') /\
  (exists items, stored = VCollection "Recipient" items
                 /\ length items = length value) /\
  fst (Message.subject self w') = fst (Message.subject self w) /\
  (props !! "toRecipients" = None ->
   fst (Message.to_recipients self
          (snd (Message.set_to_recipients self [] w)))
   = fst (Message.to_recipients self w)).
Proof.
  intros stored w'.
  assert (Hset : forall l,
             Message.set_to_recipients self l w
             = (Ok tt,
                set_heap <[self := Message_obj rp
                                     (<["toRecipients" :=
                                          VCollection "Recipient"
                                            (map Recipient_from_email l)]> props)]>
                  w)).
  { intros l. apply set_property_write, Hself. }
  assert (Hself' : heap w' !! self
                   = Some (Message_obj rp (<["toRecipients" := stored]> props)))
    by apply lookup_insert_eq.
  split; [apply Hset|].
  split.
  { rewrite (to_recipients_read _ _ _ _ Hself'). unfold dict_get.
    rewrite lookup_insert_eq. reflexivity. }
  split.
  { rewrite (get_property_read _ _ _ _ Hself'). unfold dict_get.
    rewrite lookup_insert_eq. reflexivity. }
  split; [exists (map Recipient_from_email value); split;
          [reflexivity | apply length_map]|].
  split.
  { rewrite (subject_read _ _ _ _ Hself'), (subject_read _ _ _ _ Hself).
    unfold dict_get. rewrite lookup_insert_ne by discriminate. reflexivity. }
  intros Hnone. rewrite Hset. cbn [snd].
  erewrite to_recipients_read by apply lookup_insert_eq.
  rewrite (to_recipients_read _ _ _ _ Hself). unfold dict_get.
  rewrite lookup_insert_eq, Hnone. reflexivity.
Qed.

(** X4. The [body] getter is lazy and does not normalise: on a message
    without a body it returns [ItemBody()] and stores nothing, so the field is
    still absent afterwards; a stored body is returned as it is, whatever its
    type; only the setter wraps. *)
Theorem X4_body_default_not_stored (v : pyval) :
  (props !! "body" = None ->
   Message.body self w = (Ok (ItemBody None), w) /\
   heap (snd (Message.body self w)) !! self = Some (Message_obj rp props)) /\
  (props !! "body" = Some v -> Message.body self w = (Ok v, w)) /\
  (isinstance_ItemBody v = false ->
   heap (snd (Message.set_body self v w)) !! self
   = Some (Message_obj rp (<["body" := ItemBody (Some v)]> props))).
Proof.
  rewrite (body_read _ _ _ _ Hself). unfold dict_get.
  repeat split.
  - rewrite H. reflexivity.
  - exact Hself.
  - intros ->. reflexivity.
  - intros Hv. unfold Message.set_body. rewrite Hv. cbn [negb].
    rewrite (set_property_write _ _ _ _ Hself). apply lookup_insert_eq.
Qed.

End MessageFieldsMore.

Lemma X1_get_property_defaults_witness :
  heap draft_world !! 0%nat = Some (Message_obj None ∅) /\
  Message.get_property 0 "subject" VNone draft_world = (Ok VNone, draft_world) /\
  Message.get_property 0 "subject" (VStr (lit "none")) draft_world
  = (Ok (VStr (lit "none")), draft_world).
Proof.
  assert (H : heap draft_world !! 0%nat = Some (Message_obj None ∅)) by reflexivity.
  split; [exact H|].
  destruct (X1_get_property_defaults 0 None ∅ draft_world H "subject"
              (VStr (lit "none")) VNone) as (_ & Hnone & _ & Hdflt).
  split; [apply Hnone; [discriminate|reflexivity] | apply Hdflt; reflexivity].
Defined.

Lemma X2_subject_round_trip_witness :
  heap draft_world !! 0%nat = Some (Message_obj None ∅) /\
  Message.subject 0
    (set_heap <[0%nat := Message_obj None (<["subject" := VStr (lit "Hi")]> ∅)]>
       draft_world)
  = (Ok (VStr (lit "Hi")),
     set_heap <[0%nat := Message_obj None (<["subject" := VStr (lit "Hi")]> ∅)]>
       draft_world).
Proof.
  assert (H : heap draft_world !! 0%nat = Some (Message_obj None ∅)) by reflexivity.
  split; [exact H|].
  exact (proj1 (proj2 (X2_subject_round_trip 0 None ∅ draft_world H
                         (VStr (lit "Hi"))))).
Defined.

Lemma X3_to_recipients_round_trip_witness :
  heap draft_world !! 0%nat = Some (Message_obj None ∅) /\
  fst (Message.to_recipients 0 (snd (Message.set_to_recipients 0 [] draft_world)))
  = fst (Message.to_recipients 0 draft_world).
Proof.
  assert (H : heap draft_world !! 0%nat = Some (Message_obj None ∅)) by reflexivity.
  split; [exact H|].
  destruct (X3_to_recipients_round_trip 0 None ∅ draft_world H [])
    as (_ & _ & _ & _ & _ & Hempty).
  exact (Hempty eq_refl).
Defined.

Lemma X4_body_default_not_stored_witness :
  heap draft_world !! 0%nat = Some (Message_obj None ∅) /\
  Message.body 0 draft_world = (Ok (ItemBody None), draft_world).
Proof.
  assert (H : heap draft_world !! 0%nat = Some (Message_obj None ∅)) by reflexivity.
  split; [exact H|].
  destruct (X4_body_default_not_stored 0 None ∅ draft_world H VNone) as (Hd & _).
  exact (proj1 (Hd eq_refl)).
Defined.

(** * Further properties of [MessageCollection.add] *)

(** X5. An extra keyword argument of [MessageCollection.add] named [body],
    [subject] or [toRecipients] collides with the keyword that [add] passes
    itself: the call raises [TypeError] and leaves everything as it was
    (no draft, no query).  Extra keywords with other names are passed on after
    the three fixed ones, in the order given. *)
Theorem X5_add_keyword_clash (self : ref) (subject body : pyval)
    (to_recipients : option (list pyval)) (kwargs : list (string * pyval))
    (k : string) (w : World) :
  (In k ["body"; "subject"; "toRecipients"] -> In k (map fst kwargs) ->
   MessageCollection.add self subject body to_recipients kwargs w
   = (Raise TypeError, w)) /\
  ((forall k', In k' (map fst kwargs) ->
               ~ In k' ["body"; "subject"; "toRecipients"]) ->
   MessageCollection.add self subject body to_recipients kwargs w
   = MessageCollection.super_add self
       (MessageCollection.add_kwargs subject body to_recipients ++ kwargs) w /\
   map fst (MessageCollection.add_kwargs subject body to_recipients ++ kwargs)
   = ["body"; "subject"; "toRecipients"] ++ map fst kwargs).
Proof.
  split.
  - intros Hn Hk. unfold MessageCollection.add.
    eapply call_with_kwargs_clash; [|exact Hk]. exact Hn.
  - intros Hfree. split.
    + unfold MessageCollection.add. apply call_with_kwargs_free. exact Hfree.
    + rewrite map_app. reflexivity.
Qed.

Lemma X5_add_keyword_clash_witness :
  In "toRecipients" ["body"; "subject"; "toRecipients"] /\
  In "toRecipients" (map fst [("toRecipients", VList [])]) /\
  MessageCollection.add 0 (VStr (lit "S")) (VStr (lit "B")) None
    [("toRecipients", VList [])] draft_world
  = (Raise TypeError, draft_world).
Proof.
  assert (H1 : In "toRecipients" ["body"; "subject"; "toRecipients"])
    by (right; right; left; reflexivity).
  assert (H2 : In "toRecipients" (map fst [("toRecipients", VList [])]))
    by (left; reflexivity).
  split; [exact H1|]. split; [exact H2|].
  exact (proj1 (X5_add_keyword_clash 0 (VStr (lit "S")) (VStr (lit "B")) None
                  [("toRecipients", VList [])] "toRecipients" draft_world) H1 H2).
Defined.

(** * Further properties of the status handler *)

Section StatusHandlerErrors.

Variable render : pyval -> pystr.

Lemma construct_status_request_no_dict (self : ref) (request : RequestOptions)
    (query : Query) (w : World) :
  (forall d, parameter_type query <> VDict d) ->
  GroupSiteManager._construct_status_request render self request query w
  = (Raise TypeError, w).
Proof.
  intros Hno. unfold GroupSiteManager._construct_status_request, subscript.
  destruct (parameter_type query); try reflexivity.
  exfalso. eapply Hno. reflexivity.
Qed.

Lemma construct_status_request_no_key (self : ref) (request : RequestOptions)
    (query : Query) (d : list (string * pyval)) (w : World) :
  parameter_type query = VDict d -> assoc "groupId" d = None ->
  GroupSiteManager._construct_status_request render self request query w
  = (Raise KeyError, w).
Proof.
  intros Hp Hk. unfold GroupSiteManager._construct_status_request, subscript.
  rewrite Hp, Hk. reflexivity.
Qed.

(** X6. The status handler is only safe on a status query.  Notified for the
    query queued by any other operation of these classes ([send], [reply],
    [reply_all], [forward], [move], [get_content], [create_group_ex],
    [delete]) it raises, [TypeError] when the query has no payload and
    [KeyError] when the payload has no [groupId], before the line that
    unsubscribes it: the world, and with it the subscription, is unchanged. *)
Theorem X6_status_handler_raises_on_other_queries (op : operation) (q : Query)
    (self : ref) (request : RequestOptions) (w w2 : World) :
  queries (snd (call op w)) = queries w ++ [q] ->
  (forall s g, op <> GroupSiteManager_get_status s g) ->
  exists e,
    (e = TypeError \/ e = KeyError) /\
    GroupSiteManager._construct_status_request render self request q w2
    = (Raise e, w2) /\
    beforeExecute (snd (GroupSiteManager._construct_status_request render self
                          request q w2)) = beforeExecute w2.
Proof.
  intros Hq Hop.
  assert (Hcases : (forall d, parameter_type q <> VDict d)
                   \/ exists d, parameter_type q = VDict d
                                /\ assoc "groupId" d = None).
  { destruct op; cbn in Hq; apply app_inj_tail in Hq as [_ <-]; cbn;
      try (left; intros d; discriminate);
      try (right; eexists; split; reflexivity).
    exfalso. eapply Hop. reflexivity. }
  destruct Hcases as [Hno | (d & Hd & Hk)].
  - exists TypeError. rewrite (construct_status_request_no_dict _ _ _ _ Hno).
    auto.
  - exists KeyError. rewrite (construct_status_request_no_key _ _ _ _ _ Hd Hk).
    auto.
Qed.

End StatusHandlerErrors.

Lemma X6_status_handler_raises_on_other_queries_witness :
  queries (snd (call (GroupSiteManager_create_group_ex 0 (VStr (lit "Team"))
                        (VStr (lit "team")) (VBool true) VNone)
                  (empty_world (fun _ => None))))
  = queries (empty_world (fun _ => None))
    ++ [ServiceOperationQuery 0 (Some "CreateGroupEx") VNone
          (VDict [("displayName", VStr (lit "Team")); ("alias", VStr (lit "team"));
                  ("isPublic", VBool true); ("optionalParams", VNone)])
          None (Some 0%nat)] /\
  exists e,
    GroupSiteManager._construct_status_request status_render 0
      {| url := lit "/"; method := Post |}
      (ServiceOperationQuery 0 (Some "CreateGroupEx") VNone
         (VDict [("displayName", VStr (lit "Team")); ("alias", VStr (lit "team"));
                 ("isPublic", VBool true); ("optionalParams", VNone)])
         None (Some 0%nat))
      (empty_world (fun _ => None))
    = (Raise e, empty_world (fun _ => None)).
Proof.
  assert (H : queries (snd (call (GroupSiteManager_create_group_ex 0
                                    (VStr (lit "Team")) (VStr (lit "team"))
                                    (VBool true) VNone)
                              (empty_world (fun _ => None))))
              = queries (empty_world (fun _ => None))
                ++ [ServiceOperationQuery 0 (Some "CreateGroupEx") VNone
                      (VDict [("displayName", VStr (lit "Team"));
                              ("alias", VStr (lit "team"));
                              ("isPublic", VBool true); ("optionalParams", VNone)])
                      None (Some 0%nat)])
    by (vm_compute; reflexivity).
  split; [exact H|].
  destruct (X6_status_handler_raises_on_other_queries status_render _ _ 0
              {| url := lit "/"; method := Post |} _ (empty_world (fun _ => None))
              H ltac:(discriminate)) as (e & _ & He & _).
  exists e. exact He.
Defined.

(** * Further properties of the deferred operations *)

(** What one call does to the object store and to its own query. *)
Lemma call_allocates (op : operation) (w : World) :
  heap w ⊆ heap (snd (call op w)) /\
  ensure_pending (snd (call op w)) = ensure_pending w /\
  upload_sessions (snd (call op w)) = upload_sessions w /\
  disk (snd (call op w)) = disk w /\
  exists q,
    queries (snd (call op w)) = queries w ++ [q] /\
    match return_type q with
    | None => True
    | Some r => heap w !! r = None /\ is_Some (heap (snd (call op w)) !! r)
    end.
Proof.
  pose proof (fresh_ref_unused w) as Hf.
  assert (Hins : forall o, heap w ⊆ <[fresh (dom (heap w)) := o]> (heap w))
    by (intros o; apply insert_subseteq, Hf).
  destruct op;
    (split; [first [reflexivity | apply Hins]|]);
    do 3 (split; [reflexivity|]);
    eexists; (split; [reflexivity|]); cbn [return_type ServiceOperationQuery];
    first [exact I | split; [exact Hf | eexists; apply lookup_insert_eq]].
Qed.

(** Later calls keep what earlier calls allocated. *)
Lemma calls_extend_heap (ops : list operation) :
  forall w : World,
    heap w ⊆ heap (snd (calls ops w)) /\
    ensure_pending (snd (calls ops w)) = ensure_pending w /\
    upload_sessions (snd (calls ops w)) = upload_sessions w /\
    disk (snd (calls ops w)) = disk w.
Proof.
  induction ops as [|op rest IH]; intros w.
  - cbn. split; [reflexivity | repeat split].
  - destruct (call_allocates op w) as (Hh & He & Hu & Hk & _).
    destruct (call_only_enqueues op w) as (Hr & _).
    change (calls (op :: rest) w) with (bind (call op) (fun _ => calls rest) w).
    unfold bind. destruct (call op w) as [[[]|e] w1]; simpl in *; [|discriminate].
    destruct (IH w1) as (Hh' & He' & Hu' & Hk').
    split; [etrans; eassumption|]. repeat split; congruence.
Qed.

(** X7. The deferred operations never change an object that exists: after
    any sequence of calls every object is what it was (the calls only allocate
    result holders and reply drafts, and what is allocated next is none of the
    earlier objects), and the scheduled actions, the upload sessions and the
    file system are as they were. *)
Theorem X7_operations_only_allocate (ops : list operation) (w : World)
    (r : ref) (o : obj) :
  heap w !! r = Some o ->
  heap (snd (calls ops w)) !! r = Some o /\
  heap w !! fresh (dom (heap (snd (calls ops w)))) = None /\
  ensure_pending (snd (calls ops w)) = ensure_pending w /\
  upload_sessions (snd (calls ops w)) = upload_sessions w /\
  disk (snd (calls ops w)) = disk w.
Proof.
  intros Hr. destruct (calls_extend_heap ops w) as (Hh & He & Hu & Hk).
  split; [eapply lookup_weaken; eassumption|].
  split; [|auto].
  pose proof (fresh_ref_unused (snd (calls ops w))) as Hf.
  destruct (heap w !! fresh (dom (heap (snd (calls ops w))))) as [o'|] eqn:E;
    [|reflexivity].
  rewrite (lookup_weaken _ _ _ _ E Hh) in Hf. discriminate.
Qed.

Lemma X7_operations_only_allocate_witness :
  heap draft_world !! 0%nat = Some (Message_obj None ∅) /\
  heap (snd (calls [Message_reply 0 VNone; Message_get_content 0; Message_send 0]
               draft_world)) !! 0%nat
  = Some (Message_obj None ∅).
Proof.
  assert (H : heap draft_world !! 0%nat = Some (Message_obj None ∅)) by reflexivity.
  split; [exact H|].
  exact (proj1 (X7_operations_only_allocate
                  [Message_reply 0 VNone; Message_get_content 0; Message_send 0]
                  draft_world 0 (Message_obj None ∅) H)).
Defined.

(** X8. Across any sequence of calls the result holders bound to the new
    queries ([ClientResult] of [get_content], [GroupSiteInfo] of
    [create_group_ex] and [get_status]) are pairwise distinct, were not in use
    before the calls, and exist afterwards: no two pending queries share a
    return object. *)
Theorem X8_result_holders_distinct (ops : list operation) (w : World) :
  exists qs,
    queries (snd (calls ops w)) = queries w ++ qs /\
    length qs = length ops /\
    NoDup (placeholders qs) /\
    forall r, r ∈ placeholders qs ->
              heap w !! r = None /\ is_Some (heap (snd (calls ops w)) !! r).
Proof.
  revert w; induction ops as [|op rest IH]; intros w.
  - exists []. cbn. rewrite app_nil_r.
    split; [reflexivity|]. split; [reflexivity|]. split; [apply NoDup_nil_2|].
    intros r Hr. inversion Hr.
  - destruct (call_allocates op w) as (Hh & _ & _ & _ & q & Hq & Hret).
    destruct (call_only_enqueues op w) as (Hr & _).
    change (calls (op :: rest) w) with (bind (call op) (fun _ => calls rest) w)
      in *.
    unfold bind in *.
    destruct (call op w) as [[[]|e] w1]; simpl in *; [|discriminate].
    destruct (calls_extend_heap rest w1) as (Hframe & _).
    destruct (IH w1) as (qs & Hqs & Hlen & Hnd & Hfresh).
    exists (q :: qs). rewrite Hqs, Hq, <- app_assoc. split; [reflexivity|].
    split; [simpl; congruence|].
    unfold placeholders in *. cbn [omap list_omap].
    destruct (return_type q) as [r0|].
    + destruct Hret as [Hr0 Hr1]. split.
      * constructor; [|exact Hnd]. intros Hin.
        destruct (Hfresh r0 Hin) as [Hnone _]. rewrite Hnone in Hr1.
        destruct Hr1 as [? ?]; discriminate.
      * intros r Hin. apply elem_of_cons in Hin as [->|Hin].
        -- split; [exact Hr0|]. destruct Hr1 as [o Ho].
           exists o. eapply lookup_weaken; [exact Ho | exact Hframe].
        -- destruct (Hfresh r Hin) as [Hnone Hsome]. split; [|exact Hsome].
           destruct (heap w !! r) as [o|] eqn:E; [|reflexivity].
           rewrite (lookup_weaken _ _ _ _ E Hh) in Hnone. discriminate.
    + split; [exact Hnd|]. intros r Hin.
      destruct (Hfresh r Hin) as [Hnone Hsome]. split; [|exact Hsome].
      destruct (heap w !! r) as [o|] eqn:E; [|reflexivity].
      rewrite (lookup_weaken _ _ _ _ E Hh) in Hnone. discriminate.
Qed.

(** * Further properties of the attachments *)

Section CodecMore.
Import Codec.

Lemma b64encode_length (bs : pybytes) :
  N.of_nat (length (b64encode bs)) = 4 * ((N.of_nat (length bs) + 2) / 3).
Proof.
  assert (H : forall n bs, (length bs <= n)%nat ->
              N.of_nat (length (b64encode bs))
              = 4 * ((N.of_nat (length bs) + 2) / 3)).
  { clear bs. induction n as [|n IH]; intros [|a [|b [|c rest]]] Hl;
      simpl in Hl; try lia; try reflexivity.
    cbn [b64encode length]. specialize (IH rest ltac:(lia)). nlia. }
  eapply H; eauto.
Qed.

Lemma b64_char_in_alphabet (i : N) : is_Some (b64_index (b64_char i)).
Proof. unfold b64_char; nbool; unfold b64_index; nbool; cbn; eauto. Qed.

(** The encoded text is made of the 64 characters of the alphabet and of the
    padding character. *)
Lemma b64encode_alphabet (bs : pybytes) :
  Forall (fun c => is_Some (b64_index c) \/ c = b64_pad) (b64encode bs).
Proof.
  assert (H : forall n bs, (length bs <= n)%nat ->
              Forall (fun c => is_Some (b64_index c) \/ c = b64_pad) (b64encode bs)).
  { clear bs. induction n as [|n IH]; intros [|a [|b [|c rest]]] Hl;
      cbn [b64encode length] in *; try lia;
      repeat (apply List.Forall_cons;
              [first [left; apply b64_char_in_alphabet | right; reflexivity]|]);
      first [apply List.Forall_nil | apply IH; lia]. }
  eapply H; eauto.
Qed.

Lemma basename_no_slash (p : pystr) : Forall (fun c => c <> slash) (basename p).
Proof.
  induction p as [|c r IH]; [constructor|]. cbn [basename].
  destruct (existsb (N.eqb slash) r) eqn:E; [exact IH|].
  assert (Hr : Forall (fun c => c <> slash) r).
  { apply Forall_forall. intros x Hx ->.
    apply not_true_iff_false in E. apply E, existsb_exists.
    exists slash. split; [apply list_elem_of_In, Hx | apply N.eqb_refl]. }
  destruct (N.eqb_spec c slash); [exact Hr | constructor; auto].
Qed.

Lemma basename_suffix (p : pystr) :
  exists dir, p = dir ++ basename p /\ (dir = [] \/ exists d, dir = d ++ [slash]).
Proof.
  induction p as [|c r (dir & Hp & Hdir)]; [exists []; auto|]. cbn [basename].
  destruct (existsb (N.eqb slash) r) eqn:E.
  - exists (c :: dir). split; [simpl; congruence|]. right.
    destruct Hdir as [->|(d & ->)].
    + exfalso. simpl in Hp.
      pose proof (basename_no_slash r) as Hn. rewrite <- Hp in Hn.
      apply existsb_exists in E as (x & Hx & Hs). apply N.eqb_eq in Hs. subst x.
      rewrite Forall_forall in Hn. apply (Hn slash); [apply list_elem_of_In, Hx|].
      reflexivity.
    + exists (c :: d). reflexivity.
  - destruct (N.eqb_spec c slash) as [->|Hc].
    + exists [slash]. split; [reflexivity|]. right. exists []. reflexivity.
    + exists []. split; [reflexivity|]. left. reflexivity.
Qed.

Lemma existsb_is_sep (p : pystr) :
  Forall (fun c => c <> backslash) p ->
  existsb is_sep p = existsb (N.eqb slash) p.
Proof.
  induction 1 as [|c r Hc _ IH]; [reflexivity|]. cbn [existsb]. rewrite IH.
  unfold is_sep. apply N.eqb_neq in Hc. rewrite Hc, (N.eqb_sym slash c).
  reflexivity.
Qed.

Lemma ntpath_tail_posix (p : pystr) :
  Forall (fun c => c <> backslash) p -> ntpath_tail p = basename p.
Proof.
  induction 1 as [|c r Hc Hr IH]; [reflexivity|]. cbn [ntpath_tail basename].
  rewrite (existsb_is_sep r Hr), IH. unfold is_sep.
  apply N.eqb_neq in Hc. rewrite Hc. reflexivity.
Qed.

Lemma ntpath_basename_posix (splitdrive : pystr -> pystr * pystr) (p : pystr) :
  (forall p', drive_free p' = true -> splitdrive p' = ([], p')) ->
  Forall (fun c => c <> backslash) p -> drive_free p = true ->
  ntpath_basename splitdrive p = basename p.
Proof.
  intros Hsplit Hp Hfree. unfold ntpath_basename. rewrite (Hsplit p Hfree).
  apply ntpath_tail_posix, Hp.
Qed.

End CodecMore.

Section AttachChild.

Variables (self : ref) (rp : option ResourcePath) (props : gmap string pyval).
Variable w : World.
Hypothesis Hself : heap w !! self = Some (Message_obj rp props).

Abbreviation rt := (fresh (dom (heap w))).
Abbreviation blank := (FileAttachment_obj VNone VNone VNone).
Abbreviation attach track :=
  (atts0 ← Message.attachments self;
   tracked ← (if track then AttachmentCollection.track_changes atts0 self
              else mret atts0);
   AttachmentCollection.add_child tracked rt;; mret tracked).

(** Where the new attachment ends up: the last child of the loaded collection,
    or the only child of a collection made for the occasion. *)
Lemma new_attachment_child (track : bool) :
  attachments_usable w props ->
  exists c rp' ow cs w3,
    attach track (set_heap <[rt := blank]> w) = (Ok (VRef c), w3) /\
    heap w3 !! rt = Some blank /\
    heap w3 !! self = Some (Message_obj rp props) /\
    same_context w w3 /\
    heap w3 !! c = Some (AttachmentCollection_obj rp' ow (cs ++ [rt])) /\
    c <> rt /\
    match props !! "attachments" with
    | Some v =>
        v = VRef c /\
        exists ow0, heap w !! c = Some (AttachmentCollection_obj rp' ow0 cs) /\
                    ow = (if track then Some self else ow0)
    | None =>
        heap w !! c = None /\ cs = [] /\
        rp' = Some (ResourcePath_new "attachments" rp) /\
        ow = (if track then Some self else None)
    end.
Proof.
  intros Husable.
  pose proof (fresh_ref_unused w) as Hrt.
  assert (Hne : self <> rt) by (intros E; rewrite E, Hrt in Hself; discriminate).
  set (w1 := set_heap <[rt := blank]> w).
  assert (Hself1 : heap w1 !! self = Some (Message_obj rp props)).
  { unfold w1; cbn. rewrite lookup_insert_ne; auto. }
  assert (Hrt1 : heap w1 !! rt = Some blank).
  { unfold w1; cbn. apply lookup_insert_eq. }
  pose proof (fresh_ref_unused w1) as Hc. set (c := fresh (dom (heap w1))) in *.
  assert (Hcrt : c <> rt) by (intros E; rewrite E, Hrt1 in Hc; discriminate).
  assert (Hcself : c <> self) by (intros E; rewrite E, Hself1 in Hc; discriminate).
  assert (Hcw : heap w !! c = None).
  { unfold w1 in Hc; cbn in Hc. rewrite lookup_insert_ne in Hc by auto. exact Hc. }
  rewrite (mbind_ok _ _ _ _ _ (attachments_read _ _ _ _ Hself1)). fold c.
  set (coll := AttachmentCollection_obj (Some (ResourcePath_new "attachments" rp))
                 None []).
  set (w2 := set_heap <[c := coll]> w1).
  assert (Hrt2 : heap w2 !! rt = Some blank).
  { unfold w2; cbn. rewrite lookup_insert_ne by auto. exact Hrt1. }
  assert (Hself2 : heap w2 !! self = Some (Message_obj rp props)).
  { unfold w2; cbn. rewrite lookup_insert_ne by auto. exact Hself1. }
  assert (Hfinish : forall r rp' ow cs,
             heap w2 !! r = Some (AttachmentCollection_obj rp' ow cs) ->
             r <> rt -> r <> self ->
             exists w3,
               (tracked ← (if track
                           then AttachmentCollection.track_changes (VRef r) self
                           else mret (VRef r));
                AttachmentCollection.add_child tracked rt;; mret tracked) w2
               = (Ok (VRef r), w3) /\
               heap w3 !! rt = Some blank /\
               heap w3 !! self = Some (Message_obj rp props) /\
               same_context w w3 /\
               heap w3 !! r
               = Some (AttachmentCollection_obj rp'
                         (if track then Some self else ow) (cs ++ [rt]))).
  { intros r rp' ow cs Hr Hrrt Hrself. destruct track.
    - rewrite (mbind_ok _ _ _ _ _ (track_changes_run _ _ _ _ _ _ Hr)).
      erewrite mbind_ok by (apply add_child_run, lookup_insert_eq).
      eexists. split; [reflexivity|].
      split; [heap_lookup|]. split; [heap_lookup|]. split; [repeat split|].
      heap_lookup.
    - rewrite (mbind_ok _ _ _ _ _ (mret_run _ _)).
      rewrite (mbind_ok _ _ _ _ _ (add_child_run _ _ _ _ _ _ Hr)).
      eexists. split; [reflexivity|].
      split; [heap_lookup|]. split; [heap_lookup|]. split; [repeat split|].
      heap_lookup. }
  unfold dict_get, attachments_usable in *.
  destruct (props !! "attachments") as [v|]; cbn [default].
  - destruct Husable as (r & rp' & ow & cs & -> & Hr).
    assert (r <> rt) by (intros E; rewrite E, Hrt in Hr; discriminate).
    assert (r <> self) by (intros E; rewrite E, Hself in Hr; discriminate).
    assert (r <> c) by (intros E; rewrite E, Hcw in Hr; discriminate).
    assert (Hr2 : heap w2 !! r = Some (AttachmentCollection_obj rp' ow cs)).
    { unfold w2, w1; cbn. rewrite !lookup_insert_ne by auto. exact Hr. }
    destruct (Hfinish r rp' ow cs Hr2) as (w3 & Hrun & K1 & K2 & K3 & K4); auto.
    exists r, rp', (if track then Some self else ow), cs, w3.
    do 5 (split; [assumption|]). split; [assumption|].
    split; [reflexivity|]. exists ow. split; [exact Hr|reflexivity].
  - assert (Hc2 : heap w2 !! c = Some coll) by apply lookup_insert_eq.
    destruct (Hfinish c _ None [] Hc2) as (w3 & Hrun & K1 & K2 & K3 & K4); auto.
    exists c, (Some (ResourcePath_new "attachments" rp)),
      (if track then Some self else None), [], w3.
    do 5 (split; [assumption|]). split; [assumption|]. auto.
Qed.

(** [add_file_attachment] after its first statements. *)
Lemma add_file_attachment_from (atts : pyval) (w3 : World)
    (name content_type : pyval) (content : pystr) :
  attach false (set_heap <[rt := blank]> w) = (Ok atts, w3) ->
  heap w3 !! rt = Some blank ->
  Message.add_file_attachment self name content content_type w
  = match Codec.utf8_encode content with
    | Some encoded =>
        (Ok rt,
         set_heap <[rt := FileAttachment_obj name
                            (VStr (Codec.b64encode encoded)) content_type]> w3)
    | None =>
        (Raise UnicodeEncodeError,
         set_heap <[rt := FileAttachment_obj name VNone VNone]> w3)
    end.
Proof.
  intros Hrun Hrt3.
  unfold Message.add_file_attachment.
  revert Hrun.
  unfold mbind, M_bind, bind, FileAttachment.new, alloc, mret, M_ret, ret.
  destruct (Message.attachments self _) as [[a|e] w2]; [|discriminate].
  destruct (AttachmentCollection.add_child a rt w2) as [[[]|e] w2']; [|discriminate].
  intros [= -> ->].
  rewrite (set_name_run _ _ _ _ _ _ Hrt3).
  unfold str_encode_utf8, mret, M_ret, ret, raise.
  destruct (Codec.utf8_encode content) as [encoded|]; [|reflexivity].
  unfold bytes_decode_utf8.
  rewrite (utf8_decode_ascii _ (b64encode_ascii encoded)).
  unfold mret, M_ret, ret.
  erewrite set_content_bytes_run by apply lookup_insert_eq.
  erewrite set_content_type_run by apply lookup_insert_eq.
  unfold set_heap; cbn. rewrite !insert_insert_eq. reflexivity.
Qed.

(** [upload_attachment] after its first statements, when the file is
    missing. *)
Lemma upload_attachment_missing_from (atts : pyval) (w3 : World)
    (file_path : pystr) :
  attach true (set_heap <[rt := blank]> w) = (Ok atts, w3) ->
  disk w3 file_path = None ->
  Message.upload_attachment self file_path w = (Raise FileNotFoundError, w3).
Proof.
  intros Hrun Hdisk.
  unfold Message.upload_attachment.
  revert Hrun.
  unfold mbind, M_bind, bind, FileAttachment.new, alloc, mret, M_ret, ret.
  destruct (Message.attachments self _) as [[a|e] w2]; [|discriminate].
  destruct (AttachmentCollection.track_changes a self w2) as [[t|e] w2'];
    [|discriminate].
  destruct (AttachmentCollection.add_child t rt w2') as [[[]|e] w2'']; [|discriminate].
  intros [= -> ->].
  unfold os_stat_st_size. rewrite Hdisk. reflexivity.
Qed.

End AttachChild.

Lemma utf8_encode_surrogate (content : pystr) :
  Exists (fun c => Codec.is_surrogate c = true) content ->
  Codec.utf8_encode content = None.
Proof.
  induction 1 as [c r Hc | c r _ IH]; cbn [Codec.utf8_encode].
  - rewrite (utf8_encode_char_surrogate c Hc). reflexivity.
  - rewrite IH. destruct (Codec.utf8_encode_char c); reflexivity.
Qed.

(** X9. An attachment added with [add_file_attachment] to a message whose
    attachments are loaded becomes the last child of that collection, and two
    calls in a row leave their attachments in call order behind the earlier
    children; the message object and the pending request are not touched. *)
Theorem X9_add_file_attachment_appends (self r : ref) (rp rp' : option ResourcePath)
    (props : gmap string pyval) (ow : option ref) (cs : list ref) (w : World)
    (name1 name2 type1 type2 : pyval) (content1 content2 : pystr) :
  heap w !! self = Some (Message_obj rp props) ->
  props !! "attachments" = Some (VRef r) ->
  heap w !! r = Some (AttachmentCollection_obj rp' ow cs) ->
  Forall is_scalar content1 -> Forall is_scalar content2 ->
  let first := Message.add_file_attachment self name1 content1 type1 w in
  let second := Message.add_file_attachment self name2 content2 type2 (snd first) in
  exists a1 a2,
    fst first = Ok a1 /\ fst second = Ok a2 /\ a1 <> a2 /\
    heap (snd first) !! r = Some (AttachmentCollection_obj rp' ow (cs ++ [a1])) /\
    heap (snd second) !! r
    = Some (AttachmentCollection_obj rp' ow (cs ++ [a1; a2])) /\
    heap (snd second) !! self = Some (Message_obj rp props) /\
    same_context w (snd second).
Proof.
  intros Hself Hprops Hr Hs1 Hs2 first second.
  assert (Hone : forall (w0 : World) cs0 name ct content,
             heap w0 !! self = Some (Message_obj rp props) ->
             heap w0 !! r = Some (AttachmentCollection_obj rp' ow cs0) ->
             Forall is_scalar content ->
             let res := Message.add_file_attachment self name content ct w0 in
             exists text,
             fst res = Ok (fresh (dom (heap w0))) /\
             heap (snd res) !! r
             = Some (AttachmentCollection_obj rp' ow
                       (cs0 ++ [fresh (dom (heap w0))])) /\
             heap (snd res) !! self = Some (Message_obj rp props) /\
             heap (snd res) !! fresh (dom (heap w0))
             = Some (FileAttachment_obj name (VStr text) ct) /\
             same_context w0 (snd res)).
  { clear Hself Hr first second. intros w0 cs0 name ct content Hs Hr Hsc res.
    subst res.
    assert (Hus : attachments_usable w0 props).
    { unfold attachments_usable. rewrite Hprops. eauto 10. }
    destruct (new_attachment_child self rp props w0 Hs false Hus)
      as (c & rpc & owc & csc & w3 & Hrun & K1 & K2 & K3 & K4 & K5 & K6).
    rewrite Hprops in K6. destruct K6 as ([= <-] & ow0 & Hc & ->).
    rewrite Hr in Hc. injection Hc as <- <- <-.
    rewrite (add_file_attachment_from self w0 _ _ name ct content Hrun K1).
    destruct (utf8_encode_scalar content Hsc) as [encoded ->].
    eexists. cbn [fst snd]. split; [reflexivity|].
    split; [heap_lookup|]. split; [heap_lookup|].
    split; [heap_lookup|]. exact K3. }
  destruct (Hone w cs name1 type1 content1 Hself Hr Hs1)
    as (t1 & F1 & F2 & F3 & F4 & F5).
  fold first in F1, F2, F3, F4, F5.
  destruct (Hone (snd first) (cs ++ [fresh (dom (heap w))]) name2 type2 content2
              F3 F2 Hs2) as (t2 & S1 & S2 & S3 & S4 & S5).
  fold second in S1, S2, S3, S4, S5.
  exists (fresh (dom (heap w))), (fresh (dom (heap (snd first)))).
  split; [exact F1|]. split; [exact S1|]. split.
  { intros E. pose proof (fresh_ref_unused (snd first)) as Hf.
    rewrite <- E, F4 in Hf. discriminate. }
  split; [exact F2|]. split; [rewrite S2, <- app_assoc; reflexivity|].
  split; [exact S3|].
  destruct F5 as (a1 & a2 & a3 & a4 & a5 & a6 & a7).
  destruct S5 as (b1 & b2 & b3 & b4 & b5 & b6 & b7).
  repeat split; congruence.
Qed.

(** X10. When the content cannot be encoded (it holds a surrogate code
    point), [add_file_attachment] raises [UnicodeEncodeError] after it has
    already created the attachment, made it a child of the attachments and
    set its name: the half-built attachment, without content bytes, stays in
    the collection; the pending request is not touched. *)
Theorem X10_add_file_attachment_partial_failure (self : ref)
    (rp : option ResourcePath) (props : gmap string pyval) (w : World)
    (name content_type : pyval) (content : pystr) :
  heap w !! self = Some (Message_obj rp props) ->
  attachments_usable w props ->
  Exists (fun c => Codec.is_surrogate c = true) content ->
  let res := Message.add_file_attachment self name content content_type w in
  fst res = Raise UnicodeEncodeError /\
  heap w !! fresh (dom (heap w)) = None /\
  heap (snd res) !! fresh (dom (heap w))
  = Some (FileAttachment_obj name VNone VNone) /\
  (exists c rp' ow cs,
     heap (snd res) !! c
     = Some (AttachmentCollection_obj rp' ow (cs ++ [fresh (dom (heap w))]))) /\
  same_context w (snd res).
Proof.
  intros Hself Husable Hbad res. subst res.
  destruct (new_attachment_child self rp props w Hself false Husable)
    as (c & rp' & ow & cs & w3 & Hrun & K1 & K2 & K3 & K4 & K5 & _).
  rewrite (add_file_attachment_from self w _ _ name content_type content Hrun K1).
  rewrite (utf8_encode_surrogate content Hbad). cbn [fst snd].
  split; [reflexivity|]. split; [apply fresh_ref_unused|].
  split; [heap_lookup|]. split; [|exact K3].
  exists c, rp', ow, cs. heap_lookup.
Qed.

(** X11. When the file does not exist, [upload_attachment] raises
    [FileNotFoundError] from [os.stat] after it has already created the
    attachment and made it a child of the attachments: an empty attachment
    stays in the collection, nothing is scheduled and the pending request is
    not touched. *)
Theorem X11_upload_attachment_missing_file (self : ref)
    (rp : option ResourcePath) (props : gmap string pyval) (w : World)
    (file_path : pystr) :
  heap w !! self = Some (Message_obj rp props) ->
  attachments_usable w props ->
  disk w file_path = None ->
  let res := Message.upload_attachment self file_path w in
  fst res = Raise FileNotFoundError /\
  heap w !! fresh (dom (heap w)) = None /\
  heap (snd res) !! fresh (dom (heap w))
  = Some (FileAttachment_obj VNone VNone VNone) /\
  (exists c rp' ow cs,
     heap (snd res) !! c
     = Some (AttachmentCollection_obj rp' ow (cs ++ [fresh (dom (heap w))]))) /\
  same_context w (snd res).
Proof.
  intros Hself Husable Hdisk res. subst res.
  destruct (new_attachment_child self rp props w Hself true Husable)
    as (c & rp' & ow & cs & w3 & Hrun & K1 & K2 & K3 & K4 & K5 & _).
  assert (Hdisk3 : disk w3 file_path = None).
  { destruct K3 as (_ & _ & _ & _ & _ & _ & ->). exact Hdisk. }
  rewrite (upload_attachment_missing_from self w _ _ file_path Hrun Hdisk3).
  cbn [fst snd].
  split; [reflexivity|]. split; [apply fresh_ref_unused|].
  split; [exact K1|]. split; [|exact K3].
  exists c, rp', ow, cs. exact K4.
Qed.

(** X12. For a file of at most 3,000,000 bytes the [content_bytes] that
    [upload_attachment] stores is a text of 4 * ceil(size / 3) characters, at
    most 4,000,000, made only of the base64 alphabet and the padding
    character, and decoding it from base64 gives the bytes of the file
    back. *)
Theorem X12_upload_inline_content (self : ref) (rp : option ResourcePath)
    (props : gmap string pyval) (w : World) (file_path : pystr) (bytes : pybytes) :
  heap w !! self = Some (Message_obj rp props) ->
  attachments_usable w props ->
  disk w file_path = Some bytes ->
  Forall (fun b => b < 256) bytes ->
  N.of_nat (length bytes) <= 3000000 ->
  exists name text,
    heap (snd (Message.upload_attachment self file_path w)) !! fresh (dom (heap w))
    = Some (FileAttachment_obj name (VStr text) VNone) /\
    N.of_nat (length text) = 4 * ((N.of_nat (length bytes) + 2) / 3) /\
    N.of_nat (length text) <= 4000000 /\
    Forall (fun c => is_Some (Codec.b64_index c) \/ c = Codec.b64_pad) text /\
    Codec.b64decode_str text = Some bytes.
Proof.
  intros Hself Husable Hfile Hoct Hsmall.
  destruct (upload_attachment_run self rp props w file_path bytes Hself Husable
              Hfile) as (w3 & _ & _ & _ & _ & Hrun).
  apply N.ltb_ge in Hsmall. rewrite Hsmall in Hrun. apply N.ltb_ge in Hsmall.
  exists (VStr (Codec.basename file_path)), (Codec.b64encode bytes).
  rewrite Hrun. cbn [snd].
  split; [heap_lookup|].
  pose proof (b64encode_length bytes) as Hlen.
  split; [exact Hlen|]. split; [nlia|].
  split; [apply b64encode_alphabet | apply b64decode_str_encode, Hoct].
Qed.

(** X13. For a path written with forward slashes and without a drive (no
    backslash, not starting with two slashes, no colon in second place), the
    name that [upload_attachment] gives to an inline attachment is the same
    whether [os.path] is [posixpath] or [ntpath]: it is the part of the path
    after its last slash, it holds no slash, and the path is a directory
    prefix, empty or ending in a slash, followed by the name. *)
Theorem X13_upload_inline_name (splitdrive : pystr -> pystr * pystr)
    (self : ref) (rp : option ResourcePath)
    (props : gmap string pyval) (w : World) (file_path : pystr) (bytes : pybytes) :
  (forall p, Codec.drive_free p = true -> splitdrive p = ([], p)) ->
  heap w !! self = Some (Message_obj rp props) ->
  attachments_usable w props ->
  disk w file_path = Some bytes ->
  N.of_nat (length bytes) <= 3000000 ->
  Forall (fun c => c <> Codec.backslash) file_path ->
  Codec.drive_free file_path = true ->
  exists name text dir,
    heap (snd (Message.upload_attachment self file_path w)) !! fresh (dom (heap w))
    = Some (FileAttachment_obj (VStr name) text VNone) /\
    name = Codec.basename file_path /\
    name = Codec.ntpath_basename splitdrive file_path /\
    Forall (fun c => c <> Codec.slash) name /\
    file_path = dir ++ name /\
    (dir = [] \/ exists d, dir = d ++ [Codec.slash]).
Proof.
  intros Hsplit Hself Husable Hfile Hsmall Hforward Hfree.
  destruct (upload_attachment_run self rp props w file_path bytes Hself Husable
              Hfile) as (w3 & _ & _ & _ & _ & Hrun).
  apply N.ltb_ge in Hsmall. rewrite Hsmall in Hrun.
  destruct (basename_suffix file_path) as (dir & Hp & Hdir).
  exists (Codec.basename file_path), (VStr (Codec.b64encode bytes)), dir.
  rewrite Hrun. cbn [snd].
  split; [heap_lookup|]. split; [reflexivity|].
  split; [symmetry; apply ntpath_basename_posix; assumption|].
  split; [apply basename_no_slash|]. auto.
Qed.

Lemma utf8_encode_char_length (c : N) (bs : pybytes) :
  Codec.utf8_encode_char c = Some bs -> (1 <= length bs <= 4)%nat.
Proof.
  unfold Codec.utf8_encode_char.
  repeat match goal with |- context [if ?b then _ else _] => destruct b end;
    intros [= <-]; simpl; lia.
Qed.

Lemma utf8_encode_length_bounds (s : pystr) (bs : pybytes) :
  Codec.utf8_encode s = Some bs ->
  (length s <= length bs <= 4 * length s)%nat.
Proof.
  revert bs; induction s as [|c r IH]; cbn [Codec.utf8_encode]; intros bs.
  - intros [= <-]; simpl; lia.
  - destruct (Codec.utf8_encode_char c) as [b1|] eqn:E1; [|discriminate].
    destruct (Codec.utf8_encode r) as [rs|]; [|discriminate].
    intros [= <-]. specialize (IH rs eq_refl).
    pose proof (utf8_encode_char_length c b1 E1).
    rewrite length_app. cbn [length]. lia.
Qed.

(** X14. The [content_bytes] that [add_file_attachment] stores for a content
    of n code points is a text over the base64 alphabet and the padding
    character, of 4 * ceil(m / 3) characters where m, the number of UTF-8
    octets, lies between n and 4 n. *)
Theorem X14_add_file_attachment_size (self : ref) (rp : option ResourcePath)
    (props : gmap string pyval) (w : World) (name content_type : pyval)
    (content : pystr) :
  heap w !! self = Some (Message_obj rp props) ->
  attachments_usable w props ->
  Forall is_scalar content ->
  exists text m,
    heap (snd (Message.add_file_attachment self name content content_type w))
      !! fresh (dom (heap w))
    = Some (FileAttachment_obj name (VStr text) content_type) /\
    N.of_nat (length text) = 4 * ((m + 2) / 3) /\
    N.of_nat (length content) <= m <= 4 * N.of_nat (length content) /\
    Forall (fun c => is_Some (Codec.b64_index c) \/ c = Codec.b64_pad) text.
Proof.
  intros Hself Husable Hscalar.
  destruct (add_file_attachment_run self rp props w Hself Husable name content_type
              content) as (w3 & _ & _ & Hrun).
  destruct (utf8_encode_scalar content Hscalar) as [encoded Henc].
  rewrite Henc in Hrun.
  exists (Codec.b64encode encoded), (N.of_nat (length encoded)).
  rewrite Hrun. cbn [snd].
  split; [heap_lookup|]. split; [apply b64encode_length|].
  split; [|apply b64encode_alphabet].
  pose proof (utf8_encode_length_bounds content encoded Henc). lia.
Qed.

(** * Further properties of the drafts *)

(** X15. The draft that [MessageCollection.add] returns reads back what was
    given: [subject] the subject, [body] the body (wrapped unless it was an
    [ItemBody]) and [to_recipients] the addresses through
    [Recipient.from_email]; it is a new object, bound as the return object of
    the one query that is queued, and nothing is dispatched. *)
Theorem X15_add_draft_reads_back (self : ref) (subject body : pyval)
    (to_recipients : option (list pyval)) (kwargs : list (string * pyval))
    (w : World) :
  (forall k, In k (map fst kwargs) -> ~ In k ["body"; "subject"; "toRecipients"]) ->
  let res := MessageCollection.add self subject body to_recipients kwargs w in
  exists draft q,
    fst res = Ok draft /\ heap w !! draft = None /\
    Message.subject draft (snd res) = (Ok subject, snd res) /\
    Message.body draft (snd res)
    = (Ok (if isinstance_ItemBody body then body else ItemBody (Some body)),
       snd res) /\
    Message.to_recipients draft (snd res)
    = (Ok (VCollection "Recipient"
             (map Recipient_from_email (default [] to_recipients))), snd res) /\
    queries (snd res) = queries w ++ [q] /\
    kind q = CreateEntity /\ binding_type q = self /\
    return_type q = Some draft /\
    dispatched (snd res) = dispatched w.
Proof.
  intros Hfree res. subst res.
  rewrite (add_free_call self subject body to_recipients kwargs w Hfree).
  set (draft := fresh (dom (heap w))).
  set (props := list_to_map
                  (MessageCollection.add_kwargs subject body to_recipients ++ kwargs)
                : gmap string pyval).
  assert (Hrun : MessageCollection.super_add self
                   (MessageCollection.add_kwargs subject body to_recipients
                    ++ kwargs) w
                 = (Ok draft,
                    set_queries
                      (fun qs => qs ++ [{| kind := CreateEntity;
                                           binding_type := self;
                                           method_name := None;
                                           method_params := VNone;
                                           parameter_type :=
                                             VDict (MessageCollection.add_kwargs
                                                      subject body to_recipients
                                                    ++ kwargs);
                                           parameter_name := None;
                                           return_type := Some draft |}])
                      (set_heap <[draft := Message_obj None props]> w)))
    by reflexivity.
  rewrite Hrun. cbn [fst snd].
  match goal with |- context [set_queries ?f ?w0] => set (w' := set_queries f w0) end.
  assert (Hd : heap w' !! draft = Some (Message_obj None props))
    by apply lookup_insert_eq.
  do 2 eexists. split; [reflexivity|]. split; [apply fresh_ref_unused|].
  rewrite (subject_read _ _ _ _ Hd), (body_read _ _ _ _ Hd),
    (to_recipients_read _ _ _ _ Hd).
  assert (Hprops : props
                   = <["body" := if isinstance_ItemBody body then body
                                 else ItemBody (Some body)]>
                       (<["subject" := subject]>
                          (<["toRecipients" :=
                               VCollection "Recipient"
                                 (map Recipient_from_email
                                    (default [] to_recipients))]>
                             (list_to_map kwargs)))).
  { unfold props. destruct to_recipients; reflexivity. }
  unfold dict_get. rewrite Hprops.
  rewrite lookup_insert_ne, lookup_insert_eq by discriminate.
  rewrite lookup_insert_eq.
  rewrite !lookup_insert_ne by discriminate. rewrite lookup_insert_eq.
  cbn [default]. repeat split.
Qed.

(** * Worked inputs for the further properties *)

Lemma X8_result_holders_distinct_witness :
  NoDup (placeholders
           (queries
              (snd (calls [Message_get_content 0;
                           GroupSiteManager_get_status 1 (VStr (lit "42"));
                           Message_send 0;
                           GroupSiteManager_create_group_ex 1 VNone VNone VNone
                             VNone]
                      draft_world)))).
Proof.
  destruct (X8_result_holders_distinct
              [Message_get_content 0;
               GroupSiteManager_get_status 1 (VStr (lit "42"));
               Message_send 0;
               GroupSiteManager_create_group_ex 1 VNone VNone VNone VNone]
              draft_world) as (qs & Hq & _ & Hnd & _).
  rewrite Hq. exact Hnd.
Defined.

Lemma X9_add_file_attachment_appends_witness :
  heap loaded_world !! 0%nat
  = Some (Message_obj None (<["attachments" := VRef 1]> ∅)) /\
  (<["attachments" := VRef 1]> ∅ : gmap string pyval) !! "attachments"
  = Some (VRef 1) /\
  heap loaded_world !! 1%nat = Some (AttachmentCollection_obj None None [2%nat]) /\
  Forall is_scalar (lit "a") /\ Forall is_scalar (lit "b") /\
  exists a1 a2,
    a1 <> a2 /\
    heap (snd (Message.add_file_attachment 0 (VStr (lit "b.txt")) (lit "b") VNone
                 (snd (Message.add_file_attachment 0 (VStr (lit "a.txt")) (lit "a")
                         VNone loaded_world)))) !! 1%nat
    = Some (AttachmentCollection_obj None None ([2%nat] ++ [a1; a2])).
Proof.
  assert (H1 : heap loaded_world !! 0%nat
               = Some (Message_obj None (<["attachments" := VRef 1]> ∅)))
    by reflexivity.
  assert (H2 : (<["attachments" := VRef 1]> ∅ : gmap string pyval) !! "attachments"
               = Some (VRef 1)) by reflexivity.
  assert (H3 : heap loaded_world !! 1%nat
               = Some (AttachmentCollection_obj None None [2%nat])) by reflexivity.
  assert (Ha : Forall is_scalar (lit "a"))
    by (repeat constructor; unfold is_scalar; vm_compute; left; reflexivity).
  assert (Hb : Forall is_scalar (lit "b"))
    by (repeat constructor; unfold is_scalar; vm_compute; left; reflexivity).
  do 5 (split; [assumption|]).
  destruct (X9_add_file_attachment_appends 0 1 None None _ None [2%nat] loaded_world
              (VStr (lit "a.txt")) (VStr (lit "b.txt")) VNone VNone (lit "a")
              (lit "b") H1 H2 H3 Ha Hb)
    as (a1 & a2 & _ & _ & Hne & _ & Hc & _).
  exists a1, a2. split; [exact Hne | exact Hc].
Defined.

Lemma X10_add_file_attachment_partial_failure_witness :
  heap draft_world !! 0%nat = Some (Message_obj None ∅) /\
  attachments_usable draft_world ∅ /\
  Exists (fun c => Codec.is_surrogate c = true) [0x61; 0xDC00] /\
  fst (Message.add_file_attachment 0 (VStr (lit "a.txt")) [0x61; 0xDC00] VNone
         draft_world) = Raise UnicodeEncodeError.
Proof.
  assert (H1 : heap draft_world !! 0%nat = Some (Message_obj None ∅)) by reflexivity.
  assert (H2 : attachments_usable draft_world ∅) by exact I.
  assert (H3 : Exists (fun c => Codec.is_surrogate c = true) [0x61; 0xDC00])
    by (apply Exists_cons_tl, Exists_cons_hd; reflexivity).
  do 3 (split; [assumption|]).
  exact (proj1 (X10_add_file_attachment_partial_failure 0 None ∅ draft_world
                  (VStr (lit "a.txt")) VNone [0x61; 0xDC00] H1 H2 H3)).
Defined.

Lemma X11_upload_attachment_missing_file_witness :
  heap draft_world !! 0%nat = Some (Message_obj None ∅) /\
  attachments_usable draft_world ∅ /\
  disk draft_world (lit "/tmp/none") = None /\
  fst (Message.upload_attachment 0 (lit "/tmp/none") draft_world)
  = Raise FileNotFoundError.
Proof.
  assert (H1 : heap draft_world !! 0%nat = Some (Message_obj None ∅)) by reflexivity.
  assert (H2 : attachments_usable draft_world ∅) by exact I.
  assert (H3 : disk draft_world (lit "/tmp/none") = None) by reflexivity.
  do 3 (split; [assumption|]).
  exact (proj1 (X11_upload_attachment_missing_file 0 None ∅ draft_world
                  (lit "/tmp/none") H1 H2 H3)).
Defined.

Lemma small_file_octets : Forall (fun b => b < 256) (lit "hello").
Proof. repeat first [apply List.Forall_nil | apply List.Forall_cons; [reflexivity|]]. Qed.

Lemma small_file_size : N.of_nat (length (lit "hello")) <= 3000000.
Proof. vm_compute. discriminate. Qed.

Lemma X12_upload_inline_content_witness :
  heap draft_world !! 0%nat = Some (Message_obj None ∅) /\
  attachments_usable draft_world ∅ /\
  disk draft_world (lit "/tmp/a.txt") = Some (lit "hello") /\
  Forall (fun b => b < 256) (lit "hello") /\
  N.of_nat (length (lit "hello")) <= 3000000 /\
  exists name text,
    heap (snd (Message.upload_attachment 0 (lit "/tmp/a.txt") draft_world))
      !! fresh (dom (heap draft_world))
    = Some (FileAttachment_obj name (VStr text) VNone) /\
    N.of_nat (length text) = 4 * ((N.of_nat (length (lit "hello")) + 2) / 3) /\
    Codec.b64decode_str text = Some (lit "hello").
Proof.
  assert (H1 : heap draft_world !! 0%nat = Some (Message_obj None ∅)) by reflexivity.
  assert (H2 : attachments_usable draft_world ∅) by exact I.
  assert (H3 : disk draft_world (lit "/tmp/a.txt") = Some (lit "hello"))
    by reflexivity.
  pose proof small_file_octets as H4. pose proof small_file_size as H5.
  do 5 (split; [assumption|]).
  destruct (X12_upload_inline_content 0 None ∅ draft_world (lit "/tmp/a.txt")
              (lit "hello") H1 H2 H3 H4 H5)
    as (name & text & Ha & Hl & _ & _ & Hd).
  exists name, text. auto.
Defined.

Lemma X13_upload_inline_name_witness :
  (forall p, Codec.drive_free p = true -> letter_splitdrive p = ([], p)) /\
  heap draft_world !! 0%nat = Some (Message_obj None ∅) /\
  attachments_usable draft_world ∅ /\
  disk draft_world (lit "/tmp/a.txt") = Some (lit "hello") /\
  N.of_nat (length (lit "hello")) <= 3000000 /\
  Forall (fun c => c <> Codec.backslash) (lit "/tmp/a.txt") /\
  Codec.drive_free (lit "/tmp/a.txt") = true /\
  exists name text dir,
    heap (snd (Message.upload_attachment 0 (lit "/tmp/a.txt") draft_world))
      !! fresh (dom (heap draft_world))
    = Some (FileAttachment_obj (VStr name) text VNone) /\
    name = lit "a.txt" /\
    name = Codec.ntpath_basename letter_splitdrive (lit "/tmp/a.txt") /\
    Forall (fun c => c <> Codec.slash) name /\
    lit "/tmp/a.txt" = dir ++ name.
Proof.
  assert (H0 : forall p, Codec.drive_free p = true ->
                         letter_splitdrive p = ([], p)).
  { intros [|c0 [|c1 r]] Hp; try reflexivity. cbn in Hp.
    apply andb_prop in Hp as [_ Hc]. apply negb_true_iff in Hc.
    unfold letter_splitdrive. rewrite Hc. reflexivity. }
  assert (H1 : heap draft_world !! 0%nat = Some (Message_obj None ∅)) by reflexivity.
  assert (H2 : attachments_usable draft_world ∅) by exact I.
  assert (H3 : disk draft_world (lit "/tmp/a.txt") = Some (lit "hello"))
    by reflexivity.
  pose proof small_file_size as H5.
  assert (H6 : Forall (fun c => c <> Codec.backslash) (lit "/tmp/a.txt"))
    by (repeat constructor; discriminate).
  assert (H7 : Codec.drive_free (lit "/tmp/a.txt") = true) by reflexivity.
  do 7 (split; [assumption|]).
  destruct (X13_upload_inline_name letter_splitdrive 0 None ∅ draft_world
              (lit "/tmp/a.txt") (lit "hello") H0 H1 H2 H3 H5 H6 H7)
    as (name & text & dir & Ha & Hb & Hnt & Hn & Hp & _).
  exists name, text, dir. split; [exact Ha|].
  split; [rewrite Hb; reflexivity|]. split; [exact Hnt|]. split; assumption.
Defined.

Lemma X14_add_file_attachment_size_witness :
  heap draft_world !! 0%nat = Some (Message_obj None ∅) /\
  attachments_usable draft_world ∅ /\
  Forall is_scalar [0x68; 0xE9; 0x20AC; 0x1F600] /\
  exists text m,
    heap (snd (Message.add_file_attachment 0 (VStr (lit "a.txt"))
                 [0x68; 0xE9; 0x20AC; 0x1F600] VNone draft_world))
      !! fresh (dom (heap draft_world))
    = Some (FileAttachment_obj (VStr (lit "a.txt")) (VStr text) VNone) /\
    N.of_nat (length text) = 4 * ((m + 2) / 3) /\
    4 <= m <= 16.
Proof.
  assert (H1 : heap draft_world !! 0%nat = Some (Message_obj None ∅)) by reflexivity.
  assert (H2 : attachments_usable draft_world ∅) by exact I.
  assert (H3 : Forall is_scalar [0x68; 0xE9; 0x20AC; 0x1F600]).
  { repeat constructor; unfold is_scalar; lia. }
  do 3 (split; [assumption|]).
  destruct (X14_add_file_attachment_size 0 None ∅ draft_world (VStr (lit "a.txt"))
              VNone [0x68; 0xE9; 0x20AC; 0x1F600] H1 H2 H3)
    as (text & m & Ha & Hl & Hm & _).
  exists text, m. auto.
Defined.

Lemma X15_add_draft_reads_back_witness :
  (forall k, In k (map fst [("importance", VStr (lit "high"))]) ->
             ~ In k ["body"; "subject"; "toRecipients"]) /\
  exists draft,
    fst (MessageCollection.add 5 (VStr (lit "Hi")) (VStr (lit "text"))
           (Some [VStr (lit "a@b.c")]) [("importance", VStr (lit "high"))]
           draft_world) = Ok draft /\
    fst (Message.subject draft
           (snd (MessageCollection.add 5 (VStr (lit "Hi")) (VStr (lit "text"))
                   (Some [VStr (lit "a@b.c")]) [("importance", VStr (lit "high"))]
                   draft_world)))
    = Ok (VStr (lit "Hi")).
Proof.
  assert (H : forall k, In k (map fst [("importance", VStr (lit "high"))]) ->
                        ~ In k ["body"; "subject"; "toRecipients"]).
  { intros k [<-|[]] [E|[E|[E|[]]]]; discriminate E. }
  split; [exact H|].
  destruct (X15_add_draft_reads_back 5 (VStr (lit "Hi")) (VStr (lit "text"))
              (Some [VStr (lit "a@b.c")]) [("importance", VStr (lit "high"))]
              draft_world H) as (draft & q & Hr & _ & Hs & _).
  exists draft. split; [exact Hr|]. rewrite Hs. reflexivity.
Defined.
